(** * dvitch.module: the component tree of [class Module]

    A shallow embedding of [src/dvitch/module.py].  Python objects live in a
    heap indexed by locations, so that object identity (the [is] of Python)
    is equality of locations.  Every instance carries its [__dict__]; the
    three registries [_parameters], [_modules], [_buffers] are ordered
    dictionaries stored in it by [__init__].  Exceptions are values of an
    error type, generators are the list of items they yield together with
    the exception that ended them, if any.  The interpreter's bound on
    nested calls is the [depth] argument of the functions that recurse
    through attribute lookup or through the tree: a call that exceeds it
    raises [RecursionError], as in Python.  Attribute reads follow the
    lookup of CPython 3.11: the data descriptors of the type, the
    instance's [__dict__], the other attributes of the type and of
    [object], and last the hook [__getattr__].  A call [self.m(...)] reads
    the attribute [m] first and calls what the read gives. *)

From Stdlib Require Import ZArith String Ascii List Lia.
From stdpp Require Import base gmap strings list.

Set Warnings "-register-all".

Local Open Scope Z_scope.
Local Open Scope list_scope.
Local Open Scope nat_scope.

(** ** Strings: the path separator *)

Module Path.

Definition sep : ascii := "."%char.

(** ["." in s] *)
Fixpoint has_sep (s : string) : bool :=
  match s with
  | EmptyString => false
  | String c r => if Ascii.eqb c sep then true else has_sep r
  end.

(** [f"{prefix}.{key}" if prefix else key] *)
Definition join (prefix key : string) : string :=
  match prefix with
  | EmptyString => key
  | _ => prefix +:+ String sep key
  end.

(** [s.rsplit(".", 1)]: the pieces around the last separator, the whole
    string alone when it has none. *)
Fixpoint rsplit_last (s : string) : option (string * string) :=
  match s with
  | EmptyString => None
  | String c r =>
      match rsplit_last r with
      | Some (a, b) => Some (String c a, b)
      | None => if Ascii.eqb c sep then Some (EmptyString, r) else None
      end
  end.

Definition rsplit1 (s : string) : list string :=
  match rsplit_last s with
  | Some (a, b) => [a; b]
  | None => [s]
  end.

(** [s.split(".")] *)
Fixpoint split (s : string) : list string :=
  match s with
  | EmptyString => [EmptyString]
  | String c r =>
      if Ascii.eqb c sep then EmptyString :: split r
      else match split r with
           | x :: xs => String c x :: xs
           | [] => [String c EmptyString]
           end
  end.

(** [t in s] for two strings: [t] occurs in [s]. *)
Fixpoint occurs (t s : string) : bool :=
  String.prefix t s ||
  match s with
  | EmptyString => false
  | String _ r => occurs t r
  end.

End Path.

(** ** Values, objects and the heap *)

Abbreviation loc := positive (only parsing).

(** The Python values the module tree handles.  [VParameter] and [VModule]
    are references; a dictionary is kept by value, since no registry is ever
    shared between two components.  [VMethod l n] is the function [n] of the
    type bound to the instance at [l], [VClassMethod n] a function bound to
    the class, [VClass] the class [Module] itself, [VInstanceDict l] the
    [__dict__] of the instance at [l], by reference, and [VOpaque] a value
    the tree never looks into and that cannot be called (the type variable
    [T], an annotation). *)
Inductive value :=
| VNone
| VBool (b : bool)
| VInt (n : Z)
| VStr (s : string)
| VTensor (t : Z)
| VParameter (l : loc)
| VModule (l : loc)
| VDict (d : list (string * value))
| VMethod (self : loc) (name : string)
| VClassMethod (name : string)
| VClass
| VInstanceDict (l : loc)
| VOpaque (name : string).

(** Modelled from the spec: [Parameter] is declared in [dvitch/parameter.py];
    it is the box of the spec, an object whose [data] attribute holds the
    wrapped value. *)
Inductive object :=
| OModule (dict : gmap string value)
| OParameter (data : value).

Abbreviation heap := (gmap positive object) (only parsing).

(** ** Exceptions *)

Inductive assert_site :=
| name_not_empty      (* "Argument 'name' must be a non empty 'str'" *)
| name_without_dot    (* assert "." not in name *)
| argument_type       (* "Argument ... must be of type ..." *)
| already_exists      (* "... named '...' already exists" *)
| does_not_exist.     (* "... does not exist" *)

Inductive attribute_msg :=
| no_attribute (key : string)   (* "... object has no attribute 'key'" *)
| before_initialized            (* "Cannot assign ... before it has been initialized" *)
| no_setter (key : string)      (* a property without setter *)
| not_writable (key : string).  (* "attribute '...' of ... objects is not writable" *)

Inductive type_msg :=
| init_arguments       (* "__init__() takes only 1 positional argument ..." *)
| not_a_module         (* "'bar' is not a Module" *)
| not_a_parameter      (* "attribute '...' is not a Parameter" *)
| buffer_assignment    (* "Cannot assign ... to ... buffer" *)
| not_a_container      (* raised by [in] and [d[k]] on a value that is no container *)
| not_callable         (* "'...' object is not callable" *)
| class_assignment     (* "__class__ must be set to a class, not ..." *)
| dict_assignment.     (* "__dict__ must be set to a dictionary, not ..." *)

(** [SystemError] is the mark of the model, not an exception of the code:
    a reference to no object of the expected kind, or a call that the model
    does not follow (see [bound_method]). *)
Inductive exception :=
| AssertionError (site : assert_site)
| AttributeError (msg : attribute_msg)
| TypeError (msg : type_msg)
| KeyError (key : string)
| ValueError
| NotImplementedError
| RecursionError
| SystemError
| UserError (tag : Z).

(** The error kinds of the design, read off the exception and its message. *)
Inductive error_kind :=
| UsageError | AttributeNotFound | NotAComponent | NotAParameter
| NameConflict | InvalidName | TypeKind | NotInitialized | NotImplemented
| NotFound | OtherKind.

Definition kind_of (e : exception) : error_kind :=
  match e with
  | AssertionError name_not_empty => InvalidName
  | AssertionError name_without_dot => InvalidName
  | AssertionError argument_type => TypeKind
  | AssertionError already_exists => NameConflict
  | AssertionError does_not_exist => NotFound
  | AttributeError (no_attribute _) => AttributeNotFound
  | AttributeError before_initialized => NotInitialized
  | TypeError init_arguments => UsageError
  | TypeError not_a_module => NotAComponent
  | TypeError not_a_parameter => NotAParameter
  | TypeError buffer_assignment => TypeKind
  | NotImplementedError => NotImplemented
  | _ => OtherKind
  end.

Inductive result (A : Type) :=
| Ok (a : A)
| Raise (e : exception).
Arguments Ok {A} a.
Arguments Raise {A} e.

Global Instance result_ret : MRet result := fun A a => Ok a.
Global Instance result_bind : MBind result := fun A B f r =>
  match r with
  | Ok a => f a
  | Raise e => Raise e
  end.

(** [assert c, msg] *)
Definition assert (c : bool) (site : assert_site) : result unit :=
  if c then Ok tt else Raise (AssertionError site).

(** ** Ordered dictionaries *)

Module OrderedDict.

Abbreviation t := (list (string * value)) (only parsing).

Fixpoint get (d : t) (key : string) : option value :=
  match d with
  | [] => None
  | (k, v) :: r => if String.eqb k key then Some v else get r key
  end.

Definition mem (d : t) (key : string) : bool :=
  match get d key with Some _ => true | None => false end.

(** [d[key] = v]: an existing key keeps its position, a new one goes last. *)
Fixpoint set (d : t) (key : string) (v : value) : t :=
  match d with
  | [] => [(key, v)]
  | (k, w) :: r =>
      if String.eqb k key then (k, v) :: r else (k, w) :: set r key v
  end.

Fixpoint remove (d : t) (key : string) : t :=
  match d with
  | [] => []
  | (k, w) :: r => if String.eqb k key then r else (k, w) :: remove r key
  end.

End OrderedDict.

(** ** The language's operations on values *)

(** [key in container] *)
Definition contains (container : value) (key : string) : result bool :=
  match container with
  | VDict d => Ok (OrderedDict.mem d key)
  | VStr s => Ok (Path.occurs key s)
  | _ => Raise (TypeError not_a_container)
  end.

(** [container[key]] *)
Definition getitem (container : value) (key : string) : result value :=
  match container with
  | VDict d =>
      match OrderedDict.get d key with
      | Some v => Ok v
      | None => Raise (KeyError key)
      end
  | _ => Raise (TypeError not_a_container)
  end.

(** [container.items()] *)
Definition items (container : value) : result (list (string * value)) :=
  match container with
  | VDict d => Ok d
  | _ => Raise (AttributeError (no_attribute "items"))
  end.

(** [isinstance(v, Parameter)], [isinstance(v, Module)] *)
Definition is_Parameter (v : value) : bool :=
  match v with VParameter _ => true | _ => false end.
Definition is_Module (v : value) : bool :=
  match v with VModule _ => true | _ => false end.
Definition is_None (v : value) : bool :=
  match v with VNone => true | _ => false end.

(** Modelled from the spec: [TTensorLike] is declared in [dvitch/types.py];
    it is the opaque tensor type of the spec. *)
Definition is_TTensorLike (v : value) : bool :=
  match v with VTensor _ => true | _ => false end.

(** Modelled from the spec: [ParameterLike] is declared in
    [dvitch/parameter.py]; a value is parameter-like when it is a box, a
    bare tensor that can be boxed, or the empty placeholder that
    [register_parameter] leaves unboxed. *)
Definition is_ParameterLike (v : value) : bool :=
  is_Parameter v || is_TTensorLike v || is_None v.

(** ** Attribute lookup *)

(** The functions that the body of [class Module] defines with [def]: a
    read finds them on the type, bound to the instance, when no data
    descriptor and no entry of the instance has that name. *)
Definition Module_methods : list string :=
  [ "__repr__"; "__str__"; "__init__"; "__setattr__"; "__getattr__";
    "get_module"; "get_parameter"; "add_module"; "pop_module";
    "register_parameter"; "deregister_parameter"; "register_buffer";
    "deregister_buffer"; "named_modules"; "modules"; "_named_members";
    "named_parameters"; "parameters"; "named_buffers"; "buffers"; "forward";
    "forward_np"; "forward_nb"; "forward_nm"; "__forward__"; "__call__";
    "__grad__"; "grad"; "train" ].

(** The functions it defines with [@classmethod]. *)
Definition Module_classmethods : list string :=
  [ "decompose_params"; "decompose_buffs"; "decompose_members" ].

(** What every instance inherits from [object] and [class Module] does
    not override: the methods bound to the instance, and the functions
    bound to the type. *)
Definition object_methods : list string :=
  [ "__delattr__"; "__dir__"; "__eq__"; "__format__"; "__ge__";
    "__getattribute__"; "__getstate__"; "__gt__"; "__hash__"; "__le__";
    "__lt__"; "__ne__"; "__reduce__"; "__reduce_ex__"; "__sizeof__" ].

Definition object_classmethods : list string :=
  [ "__init_subclass__"; "__new__"; "__subclasshook__" ].

(** The annotations in the body of the class, lines 13 to 16. *)
Definition Module_annotations : list (string * value) :=
  [ ("_parameters", VOpaque "OrderedDict[str, Parameter]");
    ("_modules", VOpaque "OrderedDict[str, Module]");
    ("_buffers", VOpaque "OrderedDict[str, TTensorLike]");
    ("_training", VOpaque "bool") ].

(** The attributes of the type that an entry of the instance may hide:
    functions, and the values the class statement binds. *)
Definition class_attribute (self : loc) (key : string) : option value :=
  if existsb (String.eqb key) Module_methods
     || existsb (String.eqb key) object_methods
  then Some (VMethod self key)
  else if existsb (String.eqb key) Module_classmethods
          || existsb (String.eqb key) object_classmethods
  then Some (VClassMethod key)
  else if String.eqb key "T" then Some (VOpaque "T")
  else if String.eqb key "__module__" then Some (VStr "dvitch.module")
  else if String.eqb key "__doc__" then Some VNone
  else if String.eqb key "__annotations__" then Some (VDict Module_annotations)
  else None.

(** [hasattr(o, k)] from the outcome of [getattr(o, k)]: only
    [AttributeError] means "no". *)
Definition hasattr_of (r : result value) : result bool :=
  match r with
  | Ok _ => Ok true
  | Raise (AttributeError _) => Ok false
  | Raise e => Raise e
  end.

Section Protocol.

(** The instance, and [getattr(self, ·)] evaluated one call deeper. *)
Variable self : loc.
Variable self_attr : string → result value.

(** The ordinary lookup, [object.__getattribute__]: the data descriptors
    of the type (the four properties of the class, and [__class__],
    [__dict__] and [__weakref__], which every instance has), then the
    instance's [__dict__], then the other attributes of the type. *)
Definition object_getattribute (dict : gmap string value) (key : string)
  : result value :=
  if String.eqb key "training" then self_attr "_training"
  else if String.eqb key "classname" then Ok (VStr "Module")
  else if String.eqb key "name" then Ok (VStr "")
  else if String.eqb key "props" then Ok (VDict [])
  else if String.eqb key "__class__" then Ok VClass
  else if String.eqb key "__dict__" then Ok (VInstanceDict self)
  else if String.eqb key "__weakref__" then Ok VNone
  else match dict !! key with
       | Some v => Ok v
       | None =>
           match class_attribute self key with
           | Some v => Ok v
           | None => Raise (AttributeError (no_attribute key))
           end
       end.

(** [hasattr(self, reg) and key in self.reg] *)
Definition in_registry (reg key : string) : result bool :=
  has ← hasattr_of (self_attr reg);
  if has : bool then d ← self_attr reg; contains d key else Ok false.

(** [Module.__getattr__], which the interpreter calls when the ordinary
    lookup raised [AttributeError]. *)
Definition __getattr__ (key : string) : result value :=
  p ← in_registry "_parameters" key;
  if p : bool then d ← self_attr "_parameters"; getitem d key
  else
    m ← in_registry "_modules" key;
    if m : bool then d ← self_attr "_modules"; getitem d key
    else
      b ← in_registry "_buffers" key;
      if b : bool then d ← self_attr "_buffers"; getitem d key
      else Raise (AttributeError (no_attribute key)).

End Protocol.

(** [getattr(obj, key)], the attribute read [obj.key], on a component and,
    modelled from the spec, on a box, whose one attribute is [data].  On
    [None] and the other values the tree reads [named_modules] and
    [training] only, which they do not have. *)
Fixpoint getattr (depth : nat) (h : heap) (obj : value) (key : string)
  : result value :=
  match depth with
  | O => Raise RecursionError
  | S d =>
      match obj with
      | VModule l =>
          match h !! l with
          | Some (OModule dict) =>
              match object_getattribute l (getattr d h obj) dict key with
              | Raise (AttributeError _) => __getattr__ (getattr d h obj) key
              | r => r
              end
          | _ => Raise SystemError
          end
      | VParameter l =>
          match h !! l with
          | Some (OParameter data) =>
              if String.eqb key "data" then Ok data
              else Raise (AttributeError (no_attribute key))
          | _ => Raise SystemError
          end
      | _ => Raise (AttributeError (no_attribute key))
      end
  end.

Definition hasattr (depth : nat) (h : heap) (obj : value) (key : string)
  : result bool :=
  hasattr_of (getattr depth h obj key).

(** [callable(v)]: bound functions, the class, and the components, whose
    type defines [__call__].  Modelled from the spec: a box is opaque and
    is not called. *)
Definition is_callable (v : value) : bool :=
  match v with
  | VMethod _ _ | VClassMethod _ | VClass | VModule _ => true
  | _ => false
  end.

(** The read [obj.name] that comes before a call [obj.name(...)] of a
    method of the class.  When the read gives the function [name] of the
    type bound to an instance, the call runs that function on that
    instance, and [bound_method] is the instance; when it gives something
    that cannot be called, the call raises [TypeError].  A call of any other
    callable (an entry of [__dict__] that holds another bound function, the
    class or a component) is not followed. *)
Definition bound_method (depth : nat) (h : heap) (obj : value)
  (name : string) : result positive :=
  f ← getattr depth h obj name;
  match f with
  | VMethod l n => if String.eqb n name then Ok l else Raise SystemError
  | _ => if is_callable f then Raise SystemError
         else Raise (TypeError not_callable)
  end.

(** ** Commands: a heap threaded through, an exception keeps the heap *)

Definition M (A : Type) : Type := gmap positive object → result A * gmap positive object.

Definition ret {A} (a : A) : M A := fun h => (Ok a, h).
Definition raise {A} (e : exception) : M A := fun h => (Raise e, h).
Definition bind {A B} (c : M A) (k : A → M B) : M B :=
  fun h => match c h with
           | (Ok a, h') => k a h'
           | (Raise e, h') => (Raise e, h')
           end.
(** An expression that only reads the heap. *)
Definition read {A} (f : heap → result A) : M A := fun h => (f h, h).
Definition pure {A} (r : result A) : M A := fun h => (r, h).

Notation "'let*' x := c 'in' k" := (bind c (fun x => k))
  (at level 10, x name, c at level 100, k at level 200, only parsing).
Notation "c ;; k" := (bind c (fun _ => k))
  (at level 100, k at level 200, right associativity, only parsing).

Fixpoint for_each {A} (l : list A) (body : A → M unit) : M unit :=
  match l with
  | [] => ret tt
  | x :: r => body x ;; for_each r body
  end.

(** ** Generators *)

Module Gen.

(** What a generator yields, and the exception that ended it, if one did. *)
Definition t (A : Type) : Type := list A * option exception.

Definition empty {A} : t A := ([], None).
Definition yield {A} (a : A) : t A := ([a], None).
Definition fail {A} (e : exception) : t A := ([], Some e).

(** One generator after the other; the second does not start when the
    first raised. *)
Definition seq {A} (g1 g2 : t A) : t A :=
  match g1 with
  | (xs, Some e) => (xs, Some e)
  | (xs, None) => (xs ++ g2.1, g2.2)
  end.

(** [for x in l: yield from body(x)] *)
Fixpoint for_list {A B} (l : list A) (body : A → t B) : t B :=
  match l with
  | [] => empty
  | x :: r => seq (body x) (for_list r body)
  end.

(** [for x in g: yield from body(x)]: the items of [g] are consumed as
    they come, the exception of [g] arrives after them. *)
Definition for_gen {A B} (g : t A) (body : A → t B) : t B :=
  seq (for_list g.1 body)
      (match g.2 with Some e => fail e | None => empty end).

Definition of_result {A} (r : result (list A)) : t A :=
  match r with
  | Ok l => (l, None)
  | Raise e => fail e
  end.

(** [yield from k(a)] where [a] is the outcome of an expression that may
    raise. *)
Definition bind_result {A B} (r : result A) (k : A → t B) : t B :=
  match r with
  | Ok a => k a
  | Raise e => fail e
  end.

End Gen.

(** [for x in g: body(x)] where the body is a command. *)
Definition for_gen_do {A} (g : Gen.t A) (body : A → M unit) : M unit :=
  for_each g.1 body ;;
  match g.2 with Some e => raise e | None => ret tt end.

(** ** Objects *)

(** A fresh object. *)
Definition alloc (o : object) : M positive :=
  fun h => let l := fresh (dom h) in (Ok l, <[l := o]> h).

(** [self.__dict__[key] = v] *)
Definition dict_store (self : loc) (key : string) (v : value) : M unit :=
  fun h => match h !! self with
           | Some (OModule dict) =>
               (Ok tt, <[self := OModule (<[key := v]> dict)]> h)
           | _ => (Raise SystemError, h)
           end.

(** [self.attr[key] = v] for a dictionary-valued attribute. *)
Definition setitem_attr (depth : nat) (self : loc) (attr key : string)
  (v : value) : M unit :=
  let* d := read (fun h => getattr depth h (VModule self) attr) in
  match d with
  | VDict d => dict_store self attr (VDict (OrderedDict.set d key v))
  | _ => raise (TypeError not_a_container)
  end.

(** [box.data = v] *)
Definition set_data (box : value) (v : value) : M unit :=
  match box with
  | VParameter l =>
      fun h => match h !! l with
               | Some (OParameter _) => (Ok tt, <[l := OParameter v]> h)
               | _ => (Raise SystemError, h)
               end
  | _ => raise (AttributeError (no_attribute "data"))
  end.

(** Modelled from the spec: the constructor [Parameter(value)] of
    [dvitch/parameter.py] makes a new box around the value. *)
Definition Parameter_new (v : value) : M value :=
  let* l := alloc (OParameter v) in ret (VParameter l).

(** [Module.__new__]: an instance whose [__init__] has not run. *)
Definition Module_new : M positive := alloc (OModule ∅).

Definition is_empty_string (s : string) : bool :=
  match s with EmptyString => true | _ => false end.

(** ** Registration *)

Definition add_module (depth : nat) (self : loc) (name : string)
  (module : value) : M unit :=
  pure (assert (negb (is_empty_string name)) name_not_empty) ;;
  pure (assert (negb (Path.has_sep name)) name_without_dot) ;;
  pure (assert (is_None module || is_Module module) argument_type) ;;
  (let* ms := read (fun h => getattr depth h (VModule self) "_modules") in
   let* c := pure (contains ms name) in
   pure (assert (negb c) already_exists)) ;;
  let* has := read (fun h => hasattr depth h (VModule self) "_modules") in
  if negb has then raise (AttributeError before_initialized)
  else setitem_attr depth self "_modules" name module.

Definition register_parameter (depth : nat) (self : loc) (name : string)
  (parameter : value) : M unit :=
  pure (assert (negb (is_empty_string name)) name_not_empty) ;;
  pure (assert (negb (Path.has_sep name)) name_without_dot) ;;
  pure (assert (is_ParameterLike parameter) argument_type) ;;
  (let* ps := read (fun h => getattr depth h (VModule self) "_parameters") in
   let* c := pure (contains ps name) in
   pure (assert (negb c) already_exists)) ;;
  let* parameter :=
    if negb (is_Parameter parameter) && negb (is_None parameter)
    then Parameter_new parameter else ret parameter in
  let* has := read (fun h => hasattr depth h (VModule self) "_parameters") in
  if negb has then raise (AttributeError before_initialized)
  else setitem_attr depth self "_parameters" name parameter.

Definition register_buffer (depth : nat) (self : loc) (name : string)
  (buffer : value) : M unit :=
  pure (assert (negb (is_empty_string name)) name_not_empty) ;;
  pure (assert (negb (Path.has_sep name)) name_without_dot) ;;
  pure (assert (is_None buffer || is_TTensorLike buffer) argument_type) ;;
  (let* bs := read (fun h => getattr depth h (VModule self) "_buffers") in
   let* c := pure (contains bs name) in
   pure (assert (negb c) already_exists)) ;;
  let* has := read (fun h => hasattr depth h (VModule self) "_buffers") in
  if negb has then raise (AttributeError before_initialized)
  else setitem_attr depth self "_buffers" name buffer.

(** ** Traversal *)

(** The body of [named_modules(self, prefix, include_self,
    include_children)].  For a child, line 189 reads the attribute
    [named_modules] of the child and calls it: a registry may hold [None],
    which has no such attribute. *)
Fixpoint named_modules (depth : nat) (h : heap) (obj : value)
  (prefix : string) (include_self include_children : bool)
  : Gen.t (string * value) :=
  match depth with
  | O => Gen.fail RecursionError
  | S d =>
      match obj with
      | VModule _ =>
          Gen.seq
            (if include_self then Gen.yield (prefix, obj) else Gen.empty)
            (Gen.for_gen
               (Gen.of_result (ms ← getattr d h obj "_modules"; items ms))
               (fun '(key, module) =>
                  let module_prefix := Path.join prefix key in
                  if include_children
                  then Gen.bind_result (bound_method d h module "named_modules")
                         (fun l =>
                            named_modules d h (VModule l) module_prefix
                              true true)
                  else Gen.yield (module_prefix, module)))
      | _ => Gen.fail (AttributeError (no_attribute "named_modules"))
      end
  end.

(** The body of [modules(self, include_children)]; line 194 calls
    [self.named_modules]. *)
Definition modules (depth : nat) (h : heap) (self : value)
  (include_children : bool) : Gen.t value :=
  Gen.bind_result (bound_method depth h self "named_modules")
    (fun l =>
       Gen.for_gen
         (named_modules depth h (VModule l) "" false include_children)
         (fun '(_, module) => Gen.yield module)).

(** The body of [_named_members(self, get_members_fn, prefix, recursive)];
    line 206 calls [self.named_modules]. *)
Definition _named_members (depth : nat) (h : heap) (self : value)
  (get_members_fn : value → result (list (string * value)))
  (prefix : string) (recursive : bool) : Gen.t (string * value) :=
  Gen.bind_result (bound_method depth h self "named_modules")
    (fun l =>
       Gen.for_gen (named_modules depth h (VModule l) prefix true recursive)
         (fun '(module_prefix, module) =>
            Gen.for_gen (Gen.of_result (get_members_fn module))
              (fun '(key, member) =>
                 let submodule_prefix := Path.join module_prefix key in
                 Gen.yield (submodule_prefix, member)))).

(** The bodies of [named_parameters] and [named_buffers]; lines 220 and
    235 call [self._named_members]. *)
Definition named_parameters (depth : nat) (h : heap) (self : value)
  (prefix : string) (recursive : bool) : Gen.t (string * value) :=
  Gen.bind_result (bound_method depth h self "_named_members")
    (fun l =>
       _named_members depth h (VModule l)
         (fun module => ps ← getattr depth h module "_parameters"; items ps)
         prefix recursive).

Definition named_buffers (depth : nat) (h : heap) (self : value)
  (prefix : string) (recursive : bool) : Gen.t (string * value) :=
  Gen.bind_result (bound_method depth h self "_named_members")
    (fun l =>
       _named_members depth h (VModule l)
         (fun module => bs ← getattr depth h module "_buffers"; items bs)
         prefix recursive).

(** ** Attribute assignment *)

(** The setter of the [training] property.  [setattr] is the assignment
    [o.key = v] of the interpreter, one call deeper; line 37 calls
    [self.modules]. *)
Definition training_setter (setattr : positive → string → value → M unit)
  (depth : nat) (self : loc) (mode : value) : M unit :=
  setattr self "_training" mode ;;
  let* l := read (fun h => bound_method depth h (VModule self) "modules") in
  let* ms := read (fun h => Ok (modules depth h (VModule l) false)) in
  for_gen_do ms
    (fun m => match m with
              | VModule l => setattr l "training" mode
              | _ => raise (AttributeError (no_attribute "training"))
              end).

(** [self.__dict__ = d]: the instance gets the entries of [d]. *)
Definition dict_replace (self : loc) (d : gmap string value) : M unit :=
  fun h => match h !! self with
           | Some (OModule _) => (Ok tt, <[self := OModule d]> h)
           | _ => (Raise SystemError, h)
           end.

(** [object.__setattr__], reached as [super().__setattr__]: a data
    descriptor of the type takes the assignment (the setter of [training];
    the three properties without setter; [__class__], which takes a class;
    [__dict__], which takes a dictionary, kept by value as every
    dictionary is; [__weakref__], which takes nothing), any other name goes
    to [__dict__]. *)
Definition object_setattr (setter : value → M unit) (self : loc)
  (key : string) (v : value) : M unit :=
  if String.eqb key "training" then setter v
  else if String.eqb key "classname" || String.eqb key "name"
          || String.eqb key "props"
  then raise (AttributeError (no_setter key))
  else if String.eqb key "__class__" then
    match v with
    | VClass => ret tt
    | _ => raise (TypeError class_assignment)
    end
  else if String.eqb key "__dict__" then
    match v with
    | VDict d => dict_replace self (list_to_map d)
    | VInstanceDict l =>
        fun h => match h !! l with
                 | Some (OModule d) => dict_replace self d h
                 | _ => (Raise SystemError, h)
                 end
    | _ => raise (TypeError dict_assignment)
    end
  else if String.eqb key "__weakref__"
  then raise (AttributeError (not_writable key))
  else dict_store self key v.

(** [Module.__setattr__]; lines 64 and 66 call [self.register_parameter]
    and [self.add_module]. *)
Fixpoint __setattr__ (depth : nat) (self : loc) (key : string) (v : value)
  : M unit :=
  match depth with
  | O => raise RecursionError
  | S d =>
      if is_Parameter v then
        let* ps := read (fun h => getattr d h (VModule self) "_parameters") in
        let* c := pure (contains ps key) in
        if c : bool then
          let* data := read (fun h => getattr d h v "data") in
          let* ps := read (fun h => getattr d h (VModule self) "_parameters") in
          let* box := pure (getitem ps key) in
          set_data box data
        else
          let* l :=
            read (fun h => bound_method d h (VModule self) "register_parameter") in
          register_parameter d l key v
      else if is_Module v then
        let* l := read (fun h => bound_method d h (VModule self) "add_module") in
        add_module d l key v
      else
        let* bs := read (fun h => getattr d h (VModule self) "_buffers") in
        let* c := pure (contains bs key) in
        if c : bool then
          if is_None v || is_TTensorLike v
          then setitem_attr d self "_buffers" key v
          else raise (TypeError buffer_assignment)
        else object_setattr (training_setter (__setattr__ d) d self) self key v
  end.

(** [self.train(mode)] *)
Definition train (depth : nat) (self : loc) (mode : bool) : M unit :=
  __setattr__ depth self "training" (VBool mode).

(** [Module.__init__(self, *args, **kwargs)] *)
Definition __init__ (self : loc) (args : list value)
  (kwargs : list (string * value)) : M unit :=
  match args, kwargs with
  | _ :: _, _ => raise (TypeError init_arguments)
  | [], _ :: _ => raise (TypeError init_arguments)
  | [], [] =>
      dict_store self "_parameters" (VDict []) ;;
      dict_store self "_modules" (VDict []) ;;
      dict_store self "_buffers" (VDict []) ;;
      dict_store self "_training" (VBool false)
  end.

(** [Module()] *)
Definition Module_ (args : list value) (kwargs : list (string * value))
  : M value :=
  let* l := Module_new in
  __init__ l args kwargs ;;
  ret (VModule l).

(** ** Path resolution *)

Fixpoint get_module_loop (depth : nat) (h : heap) (atom : value)
  (bars : list string) : result value :=
  match bars with
  | [] => Ok atom
  | bar :: rest =>
      has ← hasattr depth h atom bar;
      if negb has then Raise (AttributeError (no_attribute bar))
      else
        atom ← getattr depth h atom bar;
        if negb (is_Module atom) then Raise (TypeError not_a_module)
        else get_module_loop depth h atom rest
  end.

Definition get_module (depth : nat) (h : heap) (self : value)
  (ladder : string) : result value :=
  get_module_loop depth h self (Path.split ladder).

(** Line 100 calls [self.get_module]. *)
Definition get_parameter (depth : nat) (h : heap) (self : value)
  (ladder : string) : result value :=
  match Path.rsplit1 ladder with
  | [ladder; param_name] =>
      l ← bound_method depth h self "get_module";
      module ← get_module depth h (VModule l) ladder;
      has ← hasattr depth h module param_name;
      if negb has then Raise (AttributeError (no_attribute param_name))
      else
        param ← getattr depth h module param_name;
        if negb (is_ParameterLike param) then Raise (TypeError not_a_parameter)
        else Ok param
  | _ => Raise ValueError
  end.

(** ** Functional dispatch *)

(** The three overridable tiers of a component. *)
Class Tiers := {
  forward_nb : value → value → value → M value;  (* self, params, inputs *)
  forward_np : value → value → value → M value;  (* self, buffs, inputs *)
  forward_nm : value → value → M value           (* self, inputs *)
}.

(** [class Module] itself overrides none of them. *)
Definition Module_tiers : Tiers := {|
  forward_nb := fun _ _ _ => raise NotImplementedError;
  forward_np := fun _ _ _ => raise NotImplementedError;
  forward_nm := fun _ _ => raise NotImplementedError
|}.

(** [try: return c  except NotImplementedError: pass], followed by [k]. *)
Definition try_tier {A} (c : M A) (k : M A) : M A :=
  fun h => match c h with
           | (Raise NotImplementedError, h') => k h'
           | r => r
           end.

Section Dispatch.

Context {tiers : Tiers}.

Definition forward (self params buffs inputs : value) : M value :=
  try_tier (forward_nb self params inputs)
    (try_tier (forward_np self buffs inputs)
       (try_tier (forward_nm self inputs)
          (raise NotImplementedError))).

End Dispatch.

(** ** Deregistration *)

(** [self.attr.pop(key)] for a dictionary-valued attribute. *)
Definition pop_attr (depth : nat) (self : loc) (attr key : string) : M value :=
  let* d := read (fun h => getattr depth h (VModule self) attr) in
  match d with
  | VDict d =>
      match OrderedDict.get d key with
      | Some v =>
          dict_store self attr (VDict (OrderedDict.remove d key)) ;; ret v
      | None => raise (KeyError key)
      end
  | _ => raise (AttributeError (no_attribute "pop"))
  end.

Definition pop_module (depth : nat) (self : loc) (name : string) : M value :=
  (let* ms := read (fun h => getattr depth h (VModule self) "_modules") in
   let* c := pure (contains ms name) in
   pure (assert c does_not_exist)) ;;
  pop_attr depth self "_modules" name.

Definition deregister_parameter (depth : nat) (self : loc) (name : string)
  : M value :=
  (let* ps := read (fun h => getattr depth h (VModule self) "_parameters") in
   let* c := pure (contains ps name) in
   pure (assert c does_not_exist)) ;;
  pop_attr depth self "_parameters" name.

Definition deregister_buffer (depth : nat) (self : loc) (name : string)
  : M value :=
  (let* bs := read (fun h => getattr depth h (VModule self) "_buffers") in
   let* c := pure (contains bs name) in
   pure (assert c does_not_exist)) ;;
  pop_attr depth self "_buffers" name.

(** ** Projections of the traversals *)

(** The bodies of [parameters] and [buffers]; lines 226 and 241 call
    [self.named_parameters] and [self.named_buffers]. *)
Definition parameters (depth : nat) (h : heap) (self : value)
  (recursive : bool) : Gen.t value :=
  Gen.bind_result (bound_method depth h self "named_parameters")
    (fun l =>
       Gen.for_gen (named_parameters depth h (VModule l) "" recursive)
         (fun '(_, parameter) => Gen.yield parameter)).

Definition buffers (depth : nat) (h : heap) (self : value)
  (recursive : bool) : Gen.t value :=
  Gen.bind_result (bound_method depth h self "named_buffers")
    (fun l =>
       Gen.for_gen (named_buffers depth h (VModule l) "" recursive)
         (fun '(_, buffer) => Gen.yield buffer)).

(** ** Taking a flattened mapping apart *)

(** [p] with its first characters [s] removed, when it starts with them. *)
Fixpoint strip_prefix (s p : string) : option string :=
  match s with
  | EmptyString => Some p
  | String a s' =>
      match p with
      | EmptyString => None
      | String b p' => if Ascii.eqb a b then strip_prefix s' p' else None
      end
  end.

(** [key.removeprefix(s)] *)
Definition removeprefix (key s : string) : string :=
  match strip_prefix s key with
  | Some rest => rest
  | None => key
  end.

(** [cls.decompose_members(members, prefix)] *)
Definition decompose_members (members : value) (prefix : string)
  : Gen.t (string * value) :=
  Gen.for_gen (Gen.of_result (items members))
    (fun '(key, member) =>
       if String.prefix prefix key
       then Gen.yield (removeprefix key (prefix +:+ "."), member)
       else Gen.empty).

Definition decompose_params (params : value) (prefix : string)
  : Gen.t (string * value) :=
  decompose_members params prefix.

Definition decompose_buffs (buffs : value) (prefix : string)
  : Gen.t (string * value) :=
  decompose_params buffs prefix.

(** * Vocabulary of the properties *)

(** ** Components before and after [__init__] *)

(** [__init__] has bound the four attributes in the instance's [__dict__];
    [ps], [ms] and [bs] are the current contents of the registries. *)
Record initialized (h : heap) (l : loc) (dict : gmap string value)
  (ps ms bs : list (string * value)) (tr : value) : Prop := {
  init_object : h !! l = Some (OModule dict);
  init_parameters : dict !! "_parameters" = Some (VDict ps);
  init_modules : dict !! "_modules" = Some (VDict ms);
  init_buffers : dict !! "_buffers" = Some (VDict bs);
  init_training : dict !! "_training" = Some tr
}.

(** An instance whose [__init__] has not bound the registries. *)
Definition uninitialized (h : heap) (l : loc) : Prop :=
  ∃ dict, h !! l = Some (OModule dict)
          ∧ dict !! "_parameters" = None
          ∧ dict !! "_modules" = None
          ∧ dict !! "_buffers" = None.

Definition dict_of (h : heap) (l : loc) : gmap string value :=
  match h !! l with
  | Some (OModule dict) => dict
  | _ => ∅
  end.

Definition is_property (key : string) : bool :=
  String.eqb key "training" || String.eqb key "classname"
  || String.eqb key "name" || String.eqb key "props".

Definition is_method (key : string) : bool :=
  existsb (String.eqb key) Module_methods.

(** The attributes that the interpreter keeps for every instance. *)
Definition is_slot (key : string) : bool :=
  String.eqb key "__class__" || String.eqb key "__dict__"
  || String.eqb key "__weakref__".

(** The names that the type decides before the instance is asked. *)
Definition is_data_descriptor (key : string) : bool :=
  is_property key || is_slot key.

(** No entry of the instance's [__dict__] has one of the [names]: for
    the name [m] of a function of the class, a call [self.m(...)] then runs
    that function. *)
Definition intact (names : list string) (dict : gmap string value) : Prop :=
  Forall (fun m => dict !! m = None) names.

(** A name that the registration operations accept. *)
Definition valid_name (n : string) : Prop :=
  n ≠ "" ∧ Path.has_sep n = false.

(** ** The order of an attribute read *)

(** What the ordinary lookup finds on the initialized component at [self]:
    a property of the class or one of [__class__], [__dict__],
    [__weakref__]; else an entry of [__dict__]; else an attribute of the
    type: a function of the class or of [object], or a value that the class
    statement binds. *)
Definition ordinary_attribute (self : loc) (dict : gmap string value)
  (key : string) : option value :=
  if String.eqb key "training" then dict !! "_training"
  else if String.eqb key "classname" then Some (VStr "Module")
  else if String.eqb key "name" then Some (VStr "")
  else if String.eqb key "props" then Some (VDict [])
  else if String.eqb key "__class__" then Some VClass
  else if String.eqb key "__dict__" then Some (VInstanceDict self)
  else if String.eqb key "__weakref__" then Some VNone
  else match dict !! key with
       | Some v => Some v
       | None => class_attribute self key
       end.

(** The registries in the order [__getattr__] asks them. *)
Definition registry_lookup (ps ms bs : list (string * value)) (key : string)
  : result value :=
  match OrderedDict.get ps key with
  | Some v => Ok v
  | None =>
      match OrderedDict.get ms key with
      | Some v => Ok v
      | None =>
          match OrderedDict.get bs key with
          | Some v => Ok v
          | None => Raise (AttributeError (no_attribute key))
          end
      end
  end.

(** The order in which a read resolves: the ordinary lookup, and only when
    it finds nothing the parameter, child and buffer registries. *)
Definition resolution_order (self : loc) (dict : gmap string value)
  (ps ms bs : list (string * value)) (key : string) : result value :=
  match ordinary_attribute self dict key with
  | Some v => Ok v
  | None => registry_lookup ps ms bs key
  end.

(** ** Registration *)

(** What [register_parameter] stores for [v]: a box or the empty
    placeholder is stored as it is, a bare tensor in a box allocated for it. *)
Definition stored_as (h h' : heap) (v stored : value) : Prop :=
  if is_Parameter v || is_None v then stored = v
  else ∃ l, stored = VParameter l ∧ h !! l = None
            ∧ h' !! l = Some (OParameter v).

(** ** Tiers *)

(** What a tier did: it declined with [NotImplementedError], or it
    settled the call by returning or by raising anything else. *)
Definition declines (c : M value) (h h' : heap) : Prop :=
  c h = (Raise NotImplementedError, h').

Definition settles (c : M value) (h : heap) (r : result value)
  (h' : heap) : Prop :=
  c h = (r, h') ∧ r ≠ Raise NotImplementedError.

(** A component that computes from its parameters alone: it returns the
    mapping it was given. *)
Definition echo_tiers : Tiers := {|
  forward_nb := fun _ params _ => ret params;
  forward_np := fun _ _ _ => raise NotImplementedError;
  forward_nm := fun _ _ => raise NotImplementedError
|}.

(** ** Generators that raise *)

Definition raised {A} (g : Gen.t A) : Prop := ∃ e, g.2 = Some e.

(** The body of the loop in the [training] setter, [m.training = mode],
    with the calls it makes bounded by [depth]. *)
Definition cascade_body (depth : nat) (mode : value) (m : value) : M unit :=
  match m with
  | VModule l => __setattr__ depth l "training" mode
  | _ => raise (AttributeError (no_attribute "training"))
  end.

(** What the traversal raises on the absent child: [None] has no method
    [named_modules]. *)
Definition absent_child_error : exception :=
  AttributeError (no_attribute "named_modules").

(** ** Component trees *)

(** The shape of what hangs below a component: its location and, in
    registration order, the named subtrees of its children. *)
Inductive tree :=
| Node (l : loc) (children : list (string * tree)).

Definition root (t : tree) : positive :=
  match t with Node l _ => l end.

(** The number of components. *)
Fixpoint size (t : tree) : nat :=
  match t with
  | Node _ cs => S (list_sum (map (fun kc => size kc.2) cs))
  end.

Fixpoint height (t : tree) : nat :=
  match t with
  | Node _ cs => S (list_max (map (fun kc => height kc.2) cs))
  end.

(** Depth-first enumeration as the design words it: the pair of the root
    first, then every child in registration order, enumerated the same way
    under its qualified path. *)
Fixpoint preorder (prefix : string) (t : tree) : list (string * value) :=
  match t with
  | Node l cs =>
      (prefix, VModule l)
      :: concat (map (fun kc => preorder (Path.join prefix kc.1) kc.2) cs)
  end.

Fixpoint paths (prefix : string) (t : tree) : list string :=
  match t with
  | Node _ cs =>
      prefix :: concat (map (fun kc => paths (Path.join prefix kc.1) kc.2) cs)
  end.

(** The heap holds the tree: every node is a component whose child registry
    lists exactly its children, under names that [add_module] accepts
    (non-empty, without separator) and that are distinct, as the keys of a
    dictionary are.  A finite tree has no cycle. *)
Inductive shape (h : heap) : tree → Prop :=
| shape_node l dict cs :
    h !! l = Some (OModule dict) →
    dict !! "_modules"
      = Some (VDict (map (fun kc => (kc.1, VModule (root kc.2))) cs)) →
    Forall valid_name (map fst cs) →
    NoDup (map fst cs) →
    Forall (fun kc => shape h kc.2) cs →
    shape h (Node l cs).

(** What may follow a component's path in the path of a descendant:
    nothing, or a separator and more. *)
Definition tail_ok (s : string) : Prop :=
  s = "" ∨ ∃ r, s = String Path.sep r.

Definition extends (p q : string) : Prop :=
  ∃ s, tail_ok s ∧ q = p +:+ s.

(** ** Concrete heaps *)

(** The scenario of the design: a root with the parameter [w] and the
    child [C], which has the parameter [w2].  The root is at location 1,
    the child at 2, the boxes at 3 and 4. *)
Definition scenario : M unit :=
  let* R := Module_new in
  __init__ R [] [] ;;
  let* C := Module_new in
  __init__ C [] [] ;;
  let* w := Parameter_new (VTensor 2) in
  let* w2 := Parameter_new (VTensor 3) in
  __setattr__ 4 R "w" w ;;
  __setattr__ 4 C "w2" w2 ;;
  __setattr__ 4 R "C" (VModule C).

Definition scenario_heap : gmap positive object := (scenario ∅).2.

Definition scenario_tree : tree := Node 1 [("C", Node 2 [])].

(** A component with an ordinary attribute [x] and, registered after it,
    a parameter [x]. *)
Definition shadowed : M unit :=
  let* R := Module_new in
  __init__ R [] [] ;;
  __setattr__ 4 R "x" (VInt 5) ;;
  register_parameter 4 R "x" (VTensor 7).

Definition shadowed_heap : gmap positive object := (shadowed ∅).2.

(** An instance before its [__init__], as a subclass constructor sees it
    when it assigns attributes first. *)
Definition fresh_instance : gmap positive object := (Module_new ∅).2.

(** The scenario with the buffer [b] registered on the root. *)
Definition buffered_heap : gmap positive object :=
  (register_buffer 4 1 "b" (VTensor 5) scenario_heap).2.

(** The scenario with an absent child [z] added to the root. *)
Definition absent_heap : gmap positive object :=
  (add_module 4 1 "z" VNone scenario_heap).2.

(** A root with the absent child [z] and, added after it, the child [C]. *)
Definition absent_first : M unit :=
  let* R := Module_new in
  __init__ R [] [] ;;
  let* C := Module_new in
  __init__ C [] [] ;;
  add_module 4 R "z" VNone ;;
  __setattr__ 4 R "C" (VModule C).

Definition absent_first_heap : gmap positive object := (absent_first ∅).2.

(** The scenario after [C.named_modules = 5]. *)
Definition hidden_method_heap : gmap positive object :=
  (__setattr__ 4 2 "named_modules" (VInt 5) scenario_heap).2.

(** The scenario after [R.w = t] for a bare tensor [t]. *)
Definition bare_tensor_heap : gmap positive object :=
  (__setattr__ 4 1 "w" (VTensor 7) scenario_heap).2.

(** A component on which a parameter is registered under the name of a
    method of the class. *)
Definition method_name : M unit :=
  let* R := Module_new in
  __init__ R [] [] ;;
  register_parameter 4 R "forward" (VTensor 7).

Definition method_name_heap : gmap positive object := (method_name ∅).2.

(** ** Registries and trees, continued *)

(** The keys of a registry as the registration operations leave them:
    distinct, non-empty, without separator. *)
Definition registry_ok (d : list (string * value)) : Prop :=
  NoDup (map fst d) ∧ Forall valid_name (map fst d).

(** The entries of a registry under the path of their component. *)
Definition qualify (path : string) (d : list (string * value))
  : list (string * value) :=
  map (fun kv => (Path.join path kv.1, kv.2)) d.

(** The registry [attr] of a component, as the heap has it. *)
Definition registry_of (attr : string) (h : heap) (m : value)
  : list (string * value) :=
  match m with
  | VModule l =>
      match dict_of h l !! attr with
      | Some (VDict d) => d
      | _ => []
      end
  | _ => []
  end.

(** The flattening the design describes: for every enumerated component,
    in order, its entries under its path. *)
Definition flatten (attr : string) (h : heap)
  (components : list (string * value)) : list (string * value) :=
  concat (map (fun pm => qualify pm.1 (registry_of attr h pm.2)) components).

(** The locations of the components of a tree, depth-first. *)
Fixpoint nodes (t : tree) : list positive :=
  match t with
  | Node l cs => l :: concat (map (fun kc => nodes kc.2) cs)
  end.

(** Every component of the tree has been constructed. *)
Definition constructed (h : heap) (t : tree) : Prop :=
  ∀ l, l ∈ nodes t →
    ∃ dict ps ms bs tr, initialized h l dict ps ms bs tr.

(** No ordinary attribute and no parameter of a component of the tree has
    the name of one of its children. *)
Definition children_visible (h : heap) (t : tree) : Prop :=
  ∀ l, l ∈ nodes t →
    ∃ dict ps ms bs tr,
      initialized h l dict ps ms bs tr
      ∧ ∀ k, OrderedDict.mem ms k = true →
          ordinary_attribute l dict k = None ∧ OrderedDict.get ps k = None.

(** No component of the tree has a buffer named [training] or
    [_training]. *)
Definition mode_assignable (h : heap) (t : tree) : Prop :=
  ∀ l, l ∈ nodes t →
    ∃ dict ps ms bs tr,
      initialized h l dict ps ms bs tr
      ∧ OrderedDict.mem bs "training" = false
      ∧ OrderedDict.mem bs "_training" = false.

(** No component of the tree hides one of the [names] behind an entry of
    its [__dict__]. *)
Definition unshadowed (names : list string) (h : heap) (t : tree) : Prop :=
  ∀ l, l ∈ nodes t → intact names (dict_of h l).

(** The values that [add_module] stores: components and [None]. *)
Definition children_ok (ms : list (string * value)) : bool :=
  forallb (fun kv => is_None kv.2 || is_Module kv.2) ms.

(** Every child registry of the heap is a dictionary of such values, as
    [__init__] and [add_module] leave it. *)
Definition registries_ok (h : heap) : Prop :=
  map_Forall
    (fun _ o =>
       match o with
       | OModule dict =>
           match dict !! "_modules" with
           | Some (VDict ms) => children_ok ms = true
           | Some _ => False
           | None => True
           end
       | OParameter _ => True
       end) h.

(** An entry of an instance under the name of a method is followed by
    [bound_method] when it cannot be called or is that method bound to an
    instance; so is the method of the class, when there is no entry. *)
Definition followed (dict : gmap string value) (m : string) : bool :=
  match dict !! m with
  | Some (VMethod _ n) => String.eqb n m
  | Some v => negb (is_callable v)
  | None => true
  end.

(** The calls [self.m(...)] with [m] among the names are followed on every
    instance of the heap. *)
Definition calls_followed (names : list string) (h : heap) : Prop :=
  map_Forall
    (fun _ o =>
       match o with
       | OModule dict => forallb (followed dict) names = true
       | OParameter _ => True
       end) h.

(** [self._training = mode] on one component. *)
Definition mark(mode : value) (l : loc) (h : heap) : gmap positive object :=
  match h !! l with
  | Some (OModule dict) => <[l := OModule (<["_training" := mode]> dict)]> h
  | _ => h
  end.

Definition marked (mode : value) (ls : list positive) (h : heap)
  : gmap positive object :=
  fold_left (fun h l => mark mode l h) ls h.

(** The names [__init__] binds and the properties of the class: assigning
    to one of them does not create an ordinary attribute of that name. *)
Definition is_reserved (key : string) : bool :=
  is_property key || String.eqb key "_parameters" || String.eqb key "_modules"
  || String.eqb key "_buffers" || String.eqb key "_training".

(** * Properties *)

(** ** Unfolding one call *)

Lemma getattr_S d h obj key :
  getattr (S d) h obj key =
  match obj with
  | VModule l =>
      match h !! l with
      | Some (OModule dict) =>
          match object_getattribute l (getattr d h obj) dict key with
          | Raise (AttributeError _) => __getattr__ (getattr d h obj) key
          | r => r
          end
      | _ => Raise SystemError
      end
  | VParameter l =>
      match h !! l with
      | Some (OParameter data) =>
          if String.eqb key "data" then Ok data
          else Raise (AttributeError (no_attribute key))
      | _ => Raise SystemError
      end
  | _ => Raise (AttributeError (no_attribute key))
  end.
Proof. reflexivity. Qed.

Lemma named_modules_S d h obj prefix include_self include_children :
  named_modules (S d) h obj prefix include_self include_children =
  match obj with
  | VModule _ =>
      Gen.seq
        (if include_self then Gen.yield (prefix, obj) else Gen.empty)
        (Gen.for_gen
           (Gen.of_result (ms ← getattr d h obj "_modules"; items ms))
           (fun '(key, module) =>
              let module_prefix := Path.join prefix key in
              if include_children
              then Gen.bind_result (bound_method d h module "named_modules")
                     (fun l =>
                        named_modules d h (VModule l) module_prefix true true)
              else Gen.yield (module_prefix, module)))
  | _ => Gen.fail (AttributeError (no_attribute "named_modules"))
  end.
Proof. reflexivity. Qed.

Lemma setattr_S d self key v :
  __setattr__ (S d) self key v =
  if is_Parameter v then
    let* ps := read (fun h => getattr d h (VModule self) "_parameters") in
    let* c := pure (contains ps key) in
    if c : bool then
      let* data := read (fun h => getattr d h v "data") in
      let* ps := read (fun h => getattr d h (VModule self) "_parameters") in
      let* box := pure (getitem ps key) in
      set_data box data
    else
      let* l :=
        read (fun h => bound_method d h (VModule self) "register_parameter") in
      register_parameter d l key v
  else if is_Module v then
    let* l := read (fun h => bound_method d h (VModule self) "add_module") in
    add_module d l key v
  else
    let* bs := read (fun h => getattr d h (VModule self) "_buffers") in
    let* c := pure (contains bs key) in
    if c : bool then
      if is_None v || is_TTensorLike v
      then setitem_attr d self "_buffers" key v
      else raise (TypeError buffer_assignment)
    else object_setattr (training_setter (__setattr__ d) d self) self key v.
Proof. reflexivity. Qed.

Global Arguments getattr : simpl never.
Global Arguments named_modules : simpl never.
Global Arguments __setattr__ : simpl never.

(** ** Ordered dictionaries *)

Lemma mem_get d k : OrderedDict.mem d k = false → OrderedDict.get d k = None.
Proof. unfold OrderedDict.mem. by destruct (OrderedDict.get d k). Qed.

Lemma get_mem d k v : OrderedDict.get d k = Some v → OrderedDict.mem d k = true.
Proof. unfold OrderedDict.mem. by intros ->. Qed.

(** A new key goes last. *)
Lemma set_fresh d k v :
  OrderedDict.mem d k = false → OrderedDict.set d k v = d ++ [(k, v)].
Proof.
  unfold OrderedDict.mem. induction d as [|[k' w] d IH]; simpl; [done|].
  destruct (String.eqb k' k); [done|]. intros H. by rewrite IH.
Qed.

Lemma get_fresh d k v :
  OrderedDict.mem d k = false → OrderedDict.get (d ++ [(k, v)]) k = Some v.
Proof.
  unfold OrderedDict.mem. induction d as [|[k' w] d IH]; simpl.
  - by rewrite String.eqb_refl.
  - destruct (String.eqb k' k); [done|]. apply IH.
Qed.

(** ** Reading the attributes [__init__] has bound *)

Lemma is_property_false key :
  is_property key = false →
  String.eqb key "training" = false ∧ String.eqb key "classname" = false
  ∧ String.eqb key "name" = false ∧ String.eqb key "props" = false.
Proof.
  unfold is_property. intros H.
  repeat (apply orb_false_elim in H as [H ?]). auto.
Qed.

Lemma is_slot_false key :
  is_slot key = false →
  String.eqb key "__class__" = false ∧ String.eqb key "__dict__" = false
  ∧ String.eqb key "__weakref__" = false.
Proof.
  unfold is_slot. intros H.
  repeat (apply orb_false_elim in H as [H ?]). auto.
Qed.

(** The ordinary lookup of a name that the type does not decide first. *)
Lemma object_getattribute_plain l self_attr dict key :
  is_data_descriptor key = false →
  object_getattribute l self_attr dict key
  = match dict !! key with
    | Some v => Ok v
    | None =>
        match class_attribute l key with
        | Some v => Ok v
        | None => Raise (AttributeError (no_attribute key))
        end
    end.
Proof.
  unfold is_data_descriptor.
  intros [(E1 & E2 & E3 & E4)%is_property_false
          (E5 & E6 & E7)%is_slot_false]%orb_false_elim.
  unfold object_getattribute. by rewrite E1, E2, E3, E4, E5, E6, E7.
Qed.

(** An entry of [__dict__] that no data descriptor shadows is what the
    read returns. *)
Lemma getattr_dict d h l dict key v :
  h !! l = Some (OModule dict) →
  dict !! key = Some v →
  is_data_descriptor key = false →
  getattr (S d) h (VModule l) key = Ok v.
Proof.
  intros Hl Hk Hd.
  by rewrite getattr_S, Hl, object_getattribute_plain, Hk.
Qed.

(** ** Calling a method *)

Lemma intact_lookup names dict m :
  intact names dict → existsb (String.eqb m) names = true → dict !! m = None.
Proof.
  unfold intact. rewrite Forall_forall.
  intros H (x & Hx & ->%String.eqb_eq)%existsb_exists.
  apply H. by apply list_elem_of_In.
Qed.

Lemma intact_insert names dict k v :
  intact names dict → existsb (String.eqb k) names = false →
  intact names (<[k := v]> dict).
Proof.
  unfold intact. rewrite !Forall_forall.
  intros H Hk m Hm. rewrite lookup_insert_ne; [by apply H|].
  intros ->. apply not_true_iff_false in Hk. apply Hk.
  apply existsb_exists. exists m. split; [by apply list_elem_of_In|].
  apply String.eqb_refl.
Qed.

Lemma intact_weaken names names' dict :
  intact names dict →
  forallb (fun m => existsb (String.eqb m) names) names' = true →
  intact names' dict.
Proof.
  intros H Hsub. unfold intact. apply Forall_forall. intros m Hm.
  apply (intact_lookup names); [done|].
  rewrite forallb_forall in Hsub. by apply Hsub, list_elem_of_In.
Qed.

(** On a component that does not hide the function [m] of the class, the
    read before a call gives the function bound to the component. *)
Lemma getattr_method d h l dict names m :
  h !! l = Some (OModule dict) →
  intact names dict →
  existsb (String.eqb m) names = true →
  is_method m = true →
  is_data_descriptor m = false →
  getattr (S d) h (VModule l) m = Ok (VMethod l m).
Proof.
  intros Hl Hi Hin Hm Hd.
  rewrite getattr_S, Hl, object_getattribute_plain by done.
  rewrite (intact_lookup _ _ _ Hi Hin).
  unfold class_attribute. unfold is_method in Hm. by rewrite Hm.
Qed.

Lemma bound_method_intact d h l dict names m :
  h !! l = Some (OModule dict) →
  intact names dict →
  existsb (String.eqb m) names = true →
  is_method m = true →
  is_data_descriptor m = false →
  bound_method (S d) h (VModule l) m = Ok l.
Proof.
  intros Hl Hi Hin Hm Hd. unfold bound_method.
  rewrite (getattr_method _ _ _ _ _ _ Hl Hi Hin Hm Hd). simpl.
  by rewrite String.eqb_refl.
Qed.

Lemma getattr_data d h l data :
  h !! l = Some (OParameter data) →
  getattr (S d) h (VParameter l) "data" = Ok data.
Proof. intros Hl. by rewrite getattr_S, Hl. Qed.

Section Initialized.

Context {h : gmap positive object} {l : positive} {dict : gmap string value}
        {ps ms bs : list (string * value)} {tr : value}.
Hypothesis I : initialized h l dict ps ms bs tr.

Lemma getattr_parameters d :
  getattr (S d) h (VModule l) "_parameters" = Ok (VDict ps).
Proof. destruct I. by eapply getattr_dict. Qed.

Lemma getattr_modules d :
  getattr (S d) h (VModule l) "_modules" = Ok (VDict ms).
Proof. destruct I. by eapply getattr_dict. Qed.

Lemma getattr_buffers d :
  getattr (S d) h (VModule l) "_buffers" = Ok (VDict bs).
Proof. destruct I. by eapply getattr_dict. Qed.

Lemma getattr_training d :
  getattr (S d) h (VModule l) "_training" = Ok tr.
Proof. destruct I. by eapply getattr_dict. Qed.

(** Another object is stored or replaced: the component is untouched. *)
Lemma initialized_insert_ne l' o :
  l' ≠ l → initialized (<[l' := o]> h) l dict ps ms bs tr.
Proof.
  intros Hne. destruct I. split; try done. by rewrite lookup_insert_ne.
Qed.

Lemma initialized_alloc o :
  initialized (<[fresh (dom h) := o]> h) l dict ps ms bs tr.
Proof.
  apply initialized_insert_ne. intros E.
  destruct I as [Hl _ _ _ _].
  apply (is_fresh (dom h)). rewrite E. apply elem_of_dom. by eexists.
Qed.

(** [__getattr__] on a component whose registries are readable. *)
Lemma getattr_hook_initialized d key :
  __getattr__ (getattr (S d) h (VModule l)) key
  = registry_lookup ps ms bs key.
Proof.
  unfold __getattr__, in_registry, registry_lookup.
  rewrite !getattr_parameters, !getattr_modules, !getattr_buffers.
  simpl. unfold OrderedDict.mem.
  destruct (OrderedDict.get ps key); [done|].
  destruct (OrderedDict.get ms key); [done|].
  by destruct (OrderedDict.get bs key).
Qed.

Lemma initialized_set_parameters ps' :
  initialized (<[l := OModule (<["_parameters" := VDict ps']> dict)]> h) l
    (<["_parameters" := VDict ps']> dict) ps' ms bs tr.
Proof.
  destruct I. split.
  - by rewrite lookup_insert_eq.
  - by rewrite lookup_insert_eq.
  - by rewrite lookup_insert_ne.
  - by rewrite lookup_insert_ne.
  - by rewrite lookup_insert_ne.
Qed.

Lemma initialized_set_modules ms' :
  initialized (<[l := OModule (<["_modules" := VDict ms']> dict)]> h) l
    (<["_modules" := VDict ms']> dict) ps ms' bs tr.
Proof.
  destruct I. split.
  - by rewrite lookup_insert_eq.
  - by rewrite lookup_insert_ne.
  - by rewrite lookup_insert_eq.
  - by rewrite lookup_insert_ne.
  - by rewrite lookup_insert_ne.
Qed.

Lemma initialized_set_training tr' :
  initialized (<[l := OModule (<["_training" := tr']> dict)]> h) l
    (<["_training" := tr']> dict) ps ms bs tr'.
Proof.
  destruct I. split.
  - by rewrite lookup_insert_eq.
  - by rewrite lookup_insert_ne.
  - by rewrite lookup_insert_ne.
  - by rewrite lookup_insert_ne.
  - by rewrite lookup_insert_eq.
Qed.

Lemma setitem_parameters d key v :
  setitem_attr (S d) l "_parameters" key v h
  = (Ok tt, <[l := OModule (<["_parameters" := VDict (OrderedDict.set ps key v)]> dict)]> h).
Proof.
  unfold setitem_attr, bind, read.
  rewrite getattr_parameters. unfold dict_store.
  by rewrite (init_object _ _ _ _ _ _ _ I).
Qed.

Lemma setitem_modules d key v :
  setitem_attr (S d) l "_modules" key v h
  = (Ok tt, <[l := OModule (<["_modules" := VDict (OrderedDict.set ms key v)]> dict)]> h).
Proof.
  unfold setitem_attr, bind, read.
  rewrite getattr_modules. unfold dict_store.
  by rewrite (init_object _ _ _ _ _ _ _ I).
Qed.

(** Assigning a value that is neither a parameter nor a component: a
    buffer of that name takes a tensor or [None] and rejects anything else,
    and any other name goes to [object.__setattr__]. *)
Lemma setattr_other d key v :
  is_Parameter v = false → is_Module v = false →
  __setattr__ (S (S d)) l key v h
  = if OrderedDict.mem bs key
    then if is_None v || is_TTensorLike v
         then setitem_attr (S d) l "_buffers" key v h
         else (Raise (TypeError buffer_assignment), h)
    else object_setattr (training_setter (__setattr__ (S d)) (S d) l) l key v h.
Proof.
  intros Hp Hm. rewrite setattr_S, Hp, Hm. unfold bind, read, pure.
  cbv beta iota. rewrite getattr_buffers. simpl.
  destruct (OrderedDict.mem bs key); [|done].
  by destruct (is_None v || is_TTensorLike v).
Qed.

End Initialized.

(** ** Generators *)

Lemma seq_empty_r {A} (g : Gen.t A) : Gen.seq g Gen.empty = g.
Proof. destruct g as [xs [e|]]; simpl; [done|]. by rewrite app_nil_r. Qed.

Lemma for_gen_list {A B} (l : list A) (body : A → Gen.t B) :
  Gen.for_gen (l, None) body = Gen.for_list l body.
Proof. unfold Gen.for_gen. simpl. apply seq_empty_r. Qed.

Lemma for_list_cons {A B} x (l : list A) (body : A → Gen.t B) :
  Gen.for_list (x :: l) body = Gen.seq (body x) (Gen.for_list l body).
Proof. reflexivity. Qed.

Lemma for_list_app {A B} (l1 l2 : list A) (body : A → Gen.t B) :
  Gen.for_list (l1 ++ l2) body
  = Gen.seq (Gen.for_list l1 body) (Gen.for_list l2 body).
Proof.
  induction l1 as [|x l1 IH]; simpl.
  - by destruct (Gen.for_list l2 body).
  - rewrite IH. destruct (body x) as [xs [e|]]; simpl; [done|].
    destruct (Gen.for_list l1 body) as [ys [e|]]; simpl; [done|].
    by rewrite app_assoc.
Qed.

Lemma for_list_ext {A B} (l : list A) (f g : A → Gen.t B) :
  (∀ x, f x = g x) → Gen.for_list l f = Gen.for_list l g.
Proof.
  intros H. induction l as [|x l IH]; [done|]. simpl. by rewrite H, IH.
Qed.

Lemma for_list_yield {A B} (f : A → B) (l : list A) :
  Gen.for_list l (fun x => Gen.yield (f x)) = (map f l, None).
Proof.
  induction l as [|x l IH]; [done|]. simpl. by rewrite IH.
Qed.

Lemma seq_items {A} (g1 g2 : Gen.t A) (P : A → Prop) :
  Forall P g1.1 → Forall P g2.1 → Forall P (Gen.seq g1 g2).1.
Proof.
  destruct g1 as [xs [e|]]; simpl; [done|]. intros. by apply Forall_app.
Qed.

Lemma for_list_items {A B} (l : list A) (body : A → Gen.t B) (P : B → Prop) :
  (∀ x, Forall P (body x).1) → Forall P (Gen.for_list l body).1.
Proof.
  intros H. induction l as [|x l IH]; simpl; [done|]. by apply seq_items.
Qed.

Lemma raised_seq_r {A} (g1 g2 : Gen.t A) : raised g2 → raised (Gen.seq g1 g2).
Proof.
  intros [e He]. destruct g1 as [xs [e1|]]; simpl; [by exists e1|by exists e].
Qed.

Lemma raised_fail {A} e : raised (@Gen.fail A e).
Proof. by exists e. Qed.

(** A loop whose last item makes the body raise. *)
Lemma for_each_last_raises {A} (l : list A) (x : A) (body : A → M unit) :
  (∀ h, ∃ e, body x h = (Raise e, h)) →
  ∀ h, ∃ e h', for_each (l ++ [x]) body h = (Raise e, h').
Proof.
  intros Hx. induction l as [|y l IH]; intros h; simpl; unfold bind.
  - destruct (Hx h) as [e ->]. by exists e, h.
  - destruct (body y h) as [[[]|e] h1]; [apply IH|by exists e, h1].
Qed.

(** A loop runs its last item after the items before it, if they did not
    raise. *)
Lemma for_each_snoc {A} (l : list A) (x : A) (body : A → M unit) h :
  for_each (l ++ [x]) body h
  = match for_each l body h with
    | (Ok _, h1) => body x h1
    | (Raise e, h1) => (Raise e, h1)
    end.
Proof.
  revert h. induction l as [|y l IH]; intros h; simpl; unfold bind.
  - by destruct (body x h) as [[[]|e] h1].
  - destruct (body y h) as [[[]|e] h1]; [apply IH|done].
Qed.

(** ** Traversal of one node *)

(** A component whose child registry is readable: its own pair, then the
    children in the order of the registry. *)
Lemma named_modules_node d h l dict ms prefix include_self include_children :
  h !! l = Some (OModule dict) →
  dict !! "_modules" = Some (VDict ms) →
  named_modules (S (S d)) h (VModule l) prefix include_self include_children
  = Gen.seq
      (if include_self then Gen.yield (prefix, VModule l) else Gen.empty)
      (Gen.for_list ms
         (fun '(key, module) =>
            if include_children
            then Gen.bind_result (bound_method (S d) h module "named_modules")
                   (fun c =>
                      named_modules (S d) h (VModule c) (Path.join prefix key)
                        true true)
            else Gen.yield (Path.join prefix key, module))).
Proof.
  intros Hl Hm. rewrite named_modules_S.
  rewrite (getattr_dict _ _ _ _ _ _ Hl Hm eq_refl).
  change (Gen.of_result _) with (ms, @None exception).
  by rewrite for_gen_list.
Qed.

(** A call [c.m(...)] of a generator method on a component that hides no
    function of the class runs the body of [m] on [c]. *)
Lemma method_call {B} d h c dict names m (k : positive → Gen.t B) :
  h !! c = Some (OModule dict) →
  intact names dict →
  existsb (String.eqb m) names = true →
  is_method m = true →
  is_data_descriptor m = false →
  Gen.bind_result (bound_method (S d) h (VModule c) m) k = k c.
Proof.
  intros Hc Hi Hin Hm Hd.
  by rewrite (bound_method_intact d h c dict names m Hc Hi Hin Hm Hd).
Qed.

Lemma named_modules_call {B} d h c dict names (k : positive → Gen.t B) :
  h !! c = Some (OModule dict) →
  intact names dict →
  existsb (String.eqb "named_modules") names = true →
  Gen.bind_result (bound_method (S d) h (VModule c) "named_modules") k = k c.
Proof. intros Hc Hi Hin. by apply (method_call d h c dict names). Qed.

(** The recursive traversal only yields components. *)
Lemma named_modules_items depth h obj prefix include_self :
  Forall (fun item => is_Module item.2 = true)
    (named_modules depth h obj prefix include_self true).1.
Proof.
  revert obj prefix include_self.
  induction depth as [|d IH]; intros obj prefix include_self; [done|].
  rewrite named_modules_S. destruct obj; try done.
  apply seq_items.
  - destruct include_self; simpl; [|done]. by constructor.
  - unfold Gen.for_gen. apply seq_items; [|by destruct (_ : option exception)].
    apply for_list_items. intros [key module]. unfold Gen.bind_result.
    destruct (bound_method _ _ _ _); [apply IH|done].
Qed.

(** The direct children, as the cascade of the [training] setter visits
    them. *)
Lemma modules_direct d h l dict names ms :
  h !! l = Some (OModule dict) →
  dict !! "_modules" = Some (VDict ms) →
  intact names dict →
  existsb (String.eqb "named_modules") names = true →
  modules (S (S d)) h (VModule l) false = (map snd ms, None).
Proof.
  intros Hl Hm Hi Hin. unfold modules.
  rewrite (named_modules_call _ _ _ _ _ _ Hl Hi Hin).
  rewrite (named_modules_node _ _ _ _ _ _ _ _ Hl Hm).
  rewrite (for_list_ext _ _ (fun x => Gen.yield (Path.join "" x.1, x.2))).
  2: { by intros [??]. }
  rewrite for_list_yield. simpl. rewrite for_gen_list.
  rewrite (for_list_ext _ _ (fun x => Gen.yield x.2)).
  2: { by intros [??]. }
  rewrite for_list_yield. by rewrite map_map.
Qed.

(** ** The concrete heaps *)

Lemma scenario_root :
  initialized scenario_heap 1 (dict_of scenario_heap 1)
    [("w", VParameter 3)] [("C", VModule 2)] [] (VBool false).
Proof. split; vm_compute; reflexivity. Defined.

Lemma scenario_child :
  initialized scenario_heap 2 (dict_of scenario_heap 2)
    [("w2", VParameter 4)] [] [] (VBool false).
Proof. split; vm_compute; reflexivity. Defined.

(** An instance of the scenario has no entry under the name of a function
    of the class. *)
Lemma scenario_root_intact : intact Module_methods (dict_of scenario_heap 1).
Proof. repeat (constructor; [vm_compute; reflexivity|]). constructor. Defined.

Lemma scenario_child_intact : intact Module_methods (dict_of scenario_heap 2).
Proof. repeat (constructor; [vm_compute; reflexivity|]). constructor. Defined.

Lemma scenario_root_without names :
  forallb (fun m => existsb (String.eqb m) Module_methods) names = true →
  intact names (dict_of scenario_heap 1).
Proof. apply intact_weaken, scenario_root_intact. Defined.

Lemma scenario_child_without names :
  forallb (fun m => existsb (String.eqb m) Module_methods) names = true →
  intact names (dict_of scenario_heap 2).
Proof. apply intact_weaken, scenario_child_intact. Defined.

Lemma scenario_registries_ok : registries_ok scenario_heap.
Proof.
  apply map_Forall_to_list. vm_compute. repeat constructor.
Defined.

Lemma scenario_named_modules_followed :
  calls_followed ["named_modules"] scenario_heap.
Proof.
  apply map_Forall_to_list. vm_compute. repeat constructor.
Defined.

Lemma scenario_modules_followed : calls_followed ["modules"] scenario_heap.
Proof.
  apply map_Forall_to_list. vm_compute. repeat constructor.
Defined.

Lemma scenario_shape : shape scenario_heap scenario_tree.
Proof.
  apply (shape_node _ 1 (dict_of scenario_heap 1)).
  - vm_compute; reflexivity.
  - vm_compute; reflexivity.
  - constructor; [split; [discriminate|reflexivity]|constructor].
  - apply NoDup_singleton.
  - repeat constructor. apply (shape_node _ 2 (dict_of scenario_heap 2)).
    + vm_compute; reflexivity.
    + vm_compute; reflexivity.
    + constructor.
    + constructor.
    + constructor.
Defined.

Lemma scenario_unshadowed names :
  forallb (fun m => existsb (String.eqb m) Module_methods) names = true →
  unshadowed names scenario_heap scenario_tree.
Proof.
  intros Hn l Hl. simpl in Hl.
  apply elem_of_cons in Hl as [->|Hl]; [|apply elem_of_cons in Hl as [->|Hl]].
  - by apply scenario_root_without.
  - by apply scenario_child_without.
  - by apply elem_of_nil in Hl.
Defined.

Lemma shadowed_component :
  initialized shadowed_heap 1 (dict_of shadowed_heap 1)
    [("x", VParameter 2)] [] [] (VBool false).
Proof. split; vm_compute; reflexivity. Defined.

Lemma fresh_instance_uninitialized : uninitialized fresh_instance 1.
Proof. exists ∅. by vm_compute. Defined.

(** ** Flattening the parameters *)

(** C1. A root holding the parameter [w] and the child [C], which holds
    the parameter [w2] and no child, both as the scenario builds them, with
    no entry of their own under the names [_named_members] and
    [named_modules] that the enumeration calls: the parameters are
    enumerated as [w], then [C.w2]; the root's own entry carries no
    separator. *)
Theorem named_parameters_scenario d h R C dictR dictC pw pw2 bsR bsC trR trC :
  initialized h R dictR [("w", pw)] [("C", VModule C)] bsR trR →
  initialized h C dictC [("w2", pw2)] [] bsC trC →
  intact ["_named_members"; "named_modules"] dictR →
  intact ["named_modules"] dictC →
  named_parameters (S (S (S d))) h (VModule R) "" true
  = ([("w", pw); ("C.w2", pw2)], None).
Proof.
  intros [HR HRp HRm _ _] [HC HCp HCm _ _] HRi HCi.
  unfold named_parameters.
  rewrite (method_call _ _ _ _ _ "_named_members" _ HR HRi eq_refl eq_refl
             eq_refl).
  unfold _named_members.
  rewrite (named_modules_call _ _ _ _ _ _ HR HRi eq_refl).
  rewrite (named_modules_node _ _ _ _ _ _ _ _ HR HRm).
  rewrite for_list_cons, (named_modules_call _ _ _ _ _ _ HC HCi eq_refl).
  rewrite (named_modules_node _ _ _ _ _ _ _ _ HC HCm).
  change (Gen.seq _ _) with ([("", VModule R); ("C", VModule C)], @None exception).
  rewrite for_gen_list, !for_list_cons.
  rewrite (getattr_dict _ _ _ _ _ _ HR HRp eq_refl).
  rewrite (getattr_dict _ _ _ _ _ _ HC HCp eq_refl).
  reflexivity.
Qed.

Lemma named_parameters_scenario_witness :
  named_parameters 3 scenario_heap (VModule 1) "" true
  = ([("w", VParameter 3); ("C.w2", VParameter 4)], None).
Proof.
  exact (named_parameters_scenario 0 scenario_heap 1 2 _ _ _ _ _ _ _ _
           scenario_root scenario_child
           (scenario_root_without ["_named_members"; "named_modules"] eq_refl)
           (scenario_child_without ["named_modules"] eq_refl)).
Defined.

(** ** Enumerating the components of a tree *)

Lemma tree_induction (P : tree → Prop) :
  (∀ l cs, Forall (fun kc => P kc.2) cs → P (Node l cs)) →
  ∀ t, P t.
Proof.
  intros step. fix IH 1. intros [l cs]. apply step.
  induction cs as [|[k c] cs IHcs]; constructor; [apply IH|apply IHcs].
Qed.

Lemma shape_inv h l cs :
  shape h (Node l cs) →
  ∃ dict, h !! l = Some (OModule dict)
    ∧ dict !! "_modules"
        = Some (VDict (map (fun kc => (kc.1, VModule (root kc.2))) cs))
    ∧ Forall valid_name (map fst cs)
    ∧ NoDup (map fst cs)
    ∧ Forall (fun kc => shape h kc.2) cs.
Proof. inversion 1; subst. by eexists. Qed.

Lemma list_max_le_elem (l : list nat) x : x ∈ l → x ≤ list_max l.
Proof.
  induction 1 as [x l|x y l _ IH]; simpl; lia.
Qed.

Lemma elem_of_concat_map {A B} (f : A → list B) (l : list A) (b : B) :
  b ∈ concat (map f l) ↔ ∃ x, x ∈ l ∧ b ∈ f x.
Proof.
  induction l as [|a l IH]; simpl.
  - split; [by intros ?%elem_of_nil|by intros (? & ?%elem_of_nil & _)].
  - rewrite elem_of_app, IH. split.
    + intros [H|(x & Hx & H)]; [exists a|exists x]; split; try done.
      * by left.
      * by right.
    + intros (x & [->|Hx]%elem_of_cons & H); [by left|right; by exists x].
Qed.

Lemma nodes_child l cs k c x :
  (k, c) ∈ cs → x ∈ nodes c → x ∈ nodes (Node l cs).
Proof.
  intros Hkc Hx. simpl. right. apply elem_of_concat_map. by exists (k, c).
Qed.

Lemma nodes_root t : root t ∈ nodes t.
Proof. destruct t. by left. Qed.

Lemma shape_root h t :
  shape h t → h !! root t = Some (OModule (dict_of h (root t))).
Proof.
  destruct t as [l cs]. intros (dict & Hl & _)%shape_inv. simpl.
  unfold dict_of. by rewrite Hl.
Qed.

Lemma unshadowed_inv names h l cs :
  unshadowed names h (Node l cs) →
  intact names (dict_of h l) ∧ Forall (fun kc => unshadowed names h kc.2) cs.
Proof.
  intros H. split; [apply H, (nodes_root (Node l cs))|].
  apply Forall_forall. intros [k c] Hkc x Hx. apply H.
  by apply (nodes_child l cs k c).
Qed.

(** The traversal computes the depth-first enumeration, given a bound on
    nested calls that the height of the tree does not exceed. *)
Lemma named_modules_preorder names h t :
  existsb (String.eqb "named_modules") names = true →
  shape h t →
  unshadowed names h t →
  ∀ d prefix, height t ≤ d →
    named_modules (S d) h (VModule (root t)) prefix true true
    = (preorder prefix t, None).
Proof.
  intros Hnm. induction t as [l cs IH] using tree_induction.
  intros (dict & Hl & Hm & _ & _ & Hcs)%shape_inv
         [_ Hus]%unshadowed_inv d prefix Hd.
  simpl in Hd. destruct d as [|d]; [lia|].
  simpl root. rewrite (named_modules_node _ _ _ _ _ _ _ _ Hl Hm).
  assert (Hcs' : Gen.for_list
            (map (fun kc => (kc.1, VModule (root kc.2))) cs)
            (fun '(key, module) =>
               Gen.bind_result (bound_method (S d) h module "named_modules")
                 (fun c =>
                    named_modules (S d) h (VModule c) (Path.join prefix key)
                      true true))
          = (concat (map (fun kc => preorder (Path.join prefix kc.1) kc.2) cs),
             None)).
  { assert (Hle : Forall (fun kc => height kc.2 ≤ d) cs).
    { apply Forall_forall. intros kc Hin.
      assert (height kc.2 ≤ list_max (map (fun kc => height kc.2) cs)).
      { apply list_max_le_elem. apply list_elem_of_fmap. by exists kc. }
      lia. }
    clear Hd Hm. induction cs as [|[k c] cs IHcs]; [done|].
    apply Forall_cons in IH as [IHc IH].
    apply Forall_cons in Hcs as [Hc Hcs].
    apply Forall_cons in Hus as [Huc Hus].
    apply Forall_cons in Hle as [Hlc Hle].
    cbn [map concat]. rewrite for_list_cons. cbn [fst snd] in *.
    rewrite (named_modules_call _ _ _ _ _ _ (shape_root _ _ Hc)
               (Huc _ (nodes_root c)) Hnm).
    rewrite (IHc Hc Huc d _ Hlc), (IHcs IH Hcs Hus Hle). done. }
  rewrite Hcs'. done.
Qed.

(** *** Strings *)

Lemma append_cons x (a b : string) : String x a +:+ b = String x (a +:+ b).
Proof. reflexivity. Qed.

Lemma append_nil_l (b : string) : "" +:+ b = b.
Proof. reflexivity. Qed.

Lemma append_nil_r (a : string) : a +:+ "" = a.
Proof.
  induction a as [|x a IH]; [done|]. by rewrite append_cons, IH.
Qed.

Lemma append_assoc (a b c : string) : (a +:+ b) +:+ c = a +:+ (b +:+ c).
Proof.
  induction a as [|x a IH]; [done|]. by rewrite !append_cons, IH.
Qed.

Lemma length_append (a b : string) :
  String.length (a +:+ b) = String.length a + String.length b.
Proof.
  induction a as [|x a IH]; [done|]. rewrite append_cons. simpl. by rewrite IH.
Qed.

Lemma append_empty (a b : string) : a +:+ b = "" → a = "".
Proof. by destruct a. Qed.

Lemma has_sep_head r : Path.has_sep (String Path.sep r) = true.
Proof. reflexivity. Qed.

(** A name without separator is determined by any path that starts with
    it and continues at a separator. *)
Lemma key_unique k1 k2 s1 s2 :
  Path.has_sep k1 = false → Path.has_sep k2 = false →
  tail_ok s1 → tail_ok s2 →
  k1 +:+ s1 = k2 +:+ s2 → k1 = k2.
Proof.
  revert k2. induction k1 as [|a k1 IH]; intros [|b k2] H1 H2 T1 T2 E;
    rewrite ?append_cons, ?append_nil_l in E.
  - done.
  - destruct T1 as [->|[r ->]]; [done|]. injection E as <- _.
    by rewrite has_sep_head in H2.
  - destruct T2 as [->|[r ->]]; [done|]. injection E as -> _.
    by rewrite has_sep_head in H1.
  - injection E as -> E. f_equal. simpl in H1, H2.
    destruct (Ascii.eqb b Path.sep); [done|]. by apply IH.
Qed.

Lemma join_nonempty p k : k ≠ "" → Path.join p k ≠ "".
Proof. destruct p; simpl; [done|]. done. Qed.

Lemma join_nonempty_prefix p k : p ≠ "" → Path.join p k = p +:+ String Path.sep k.
Proof. by destruct p. Qed.

(** *** Qualified paths are distinct *)

(** Every path below a node with a non-empty path extends that path. *)
Lemma paths_extend t :
  ∀ p q, p ≠ "" → q ∈ paths p t → extends p q.
Proof.
  induction t as [l cs IH] using tree_induction. intros p q Hp. simpl.
  intros [->|Hq]%elem_of_cons.
  { exists "". split; [by left|]. by rewrite append_nil_r. }
  apply elem_of_concat_map in Hq as ([k c] & Hkc & Hq).
  rewrite Forall_forall in IH. simpl in Hq.
  assert (Hj : Path.join p k ≠ "").
  { rewrite join_nonempty_prefix by done. by destruct p. }
  destruct (IH _ Hkc _ _ Hj Hq) as (s & Hs & ->).
  rewrite join_nonempty_prefix by done. rewrite append_assoc.
  eexists. split; [|done]. right. by eexists.
Qed.

Lemma child_paths_extend p k c q :
  valid_name k → q ∈ paths (Path.join p k) c → extends (Path.join p k) q.
Proof.
  intros [N S]. apply paths_extend. by apply join_nonempty.
Qed.

(** Two children whose subtrees share a path have the same name. *)
Lemma siblings_disjoint p k1 k2 q :
  valid_name k1 → valid_name k2 →
  extends (Path.join p k1) q → extends (Path.join p k2) q → k1 = k2.
Proof.
  intros [N1 S1] [N2 S2] (s1 & T1 & ->) (s2 & T2 & E).
  destruct p as [|a p].
  - exact (key_unique k1 k2 s1 s2 S1 S2 T1 T2 E).
  - rewrite !join_nonempty_prefix in E by done.
    rewrite !append_assoc in E. apply (inj (String.append _)) in E.
    injection E as E. exact (key_unique k1 k2 s1 s2 S1 S2 T1 T2 E).
Qed.

(** The path of a component is not the path of one of its descendants. *)
Lemma root_not_below p k :
  valid_name k → ¬ extends (Path.join p k) p.
Proof.
  intros [N S] (s & T & E). destruct p as [|a p].
  - change ("" = k +:+ s) in E. symmetry in E. by apply append_empty in E.
  - rewrite join_nonempty_prefix in E by done.
    apply (f_equal String.length) in E.
    rewrite !length_append in E. simpl in E. lia.
Qed.

Lemma paths_NoDup h t : shape h t → ∀ p, NoDup (paths p t).
Proof.
  induction t as [l cs IH] using tree_induction.
  intros (dict & _ & _ & Hv & Hk & Hcs)%shape_inv p. simpl.
  rewrite Forall_forall in IH. rewrite Forall_forall in Hcs.
  apply NoDup_cons. split.
  - intros Hq. apply elem_of_concat_map in Hq as ([k c] & Hkc & Hq).
    assert (Vk : valid_name k).
    { rewrite Forall_forall in Hv. apply Hv.
      apply list_elem_of_fmap. by exists (k, c). }
    eapply root_not_below; [exact Vk|]. by eapply child_paths_extend.
  - clear l dict. induction cs as [|[k c] cs IHcs]; [constructor|].
    cbn [map concat fst snd].
    apply Forall_cons in Hv as [Vk Hv]. apply NoDup_cons in Hk as [Nk Hk].
    apply NoDup_app. split; [|split].
    + apply (IH (k, c)); [by left|]. apply (Hcs (k, c)). by left.
    + intros q Hq1 Hq2.
      apply elem_of_concat_map in Hq2 as ([k' c'] & Hkc & Hq2).
      assert (Vk' : valid_name k').
      { rewrite Forall_forall in Hv. apply Hv.
        apply list_elem_of_fmap. by exists (k', c'). }
      assert (k = k') as ->.
      { eapply siblings_disjoint; [done|done|..];
          by eapply child_paths_extend. }
      apply Nk. apply list_elem_of_fmap. by exists (k', c').
    + apply IHcs; try done.
      * intros x Hx. apply IH. by right.
      * intros x Hx. apply Hcs. by right.
Qed.

Lemma preorder_paths p t : map fst (preorder p t) = paths p t.
Proof.
  revert p. induction t as [l cs IH] using tree_induction. intros p. simpl.
  f_equal. rewrite concat_map, map_map. f_equal.
  apply map_ext_Forall. rewrite Forall_forall in IH.
  apply Forall_forall. intros kc Hkc. by apply IH.
Qed.

Lemma preorder_length p t : length (preorder p t) = size t.
Proof.
  revert p. induction t as [l cs IH] using tree_induction. intros p. simpl.
  f_equal. rewrite length_concat, map_map. f_equal.
  apply map_ext_Forall. rewrite Forall_forall in IH.
  apply Forall_forall. intros kc Hkc. by apply IH.
Qed.

(** The names a child registry can hold: [add_module] only succeeds for a
    valid name. *)
Lemma add_module_accepts depth c n v h h' :
  add_module depth c n v h = (Ok tt, h') → valid_name n.
Proof.
  unfold add_module, bind, pure, valid_name.
  destruct n as [|a n]; [done|].
  destruct (Path.has_sep (String a n)); [done|]. done.
Qed.

(** The claim does not hold of every tree that assignments and
    [add_module] build.  After [C.named_modules = 5] the scenario is still
    a tree of two components, and the traversal yields the pair of the root
    and raises [TypeError]; with an absent child slot registered before [C],
    it yields the pair of the root and raises [AttributeError]. *)
Lemma every_tree_counterexample :
  shape hidden_method_heap scenario_tree
  ∧ size scenario_tree = 2
  ∧ named_modules 4 hidden_method_heap (VModule 1) "" true true
    = ([("", VModule 1)], Some (TypeError not_callable))
  ∧ dict_of absent_first_heap 1 !! "_modules"
    = Some (VDict [("z", VNone); ("C", VModule 2)])
  ∧ named_modules 4 absent_first_heap (VModule 1) "" true true
    = ([("", VModule 1)], Some absent_child_error).
Proof.
  split; [|split; [reflexivity|split; [vm_compute; reflexivity|
            split; vm_compute; reflexivity]]].
  apply (shape_node _ 1 (dict_of hidden_method_heap 1)).
  - vm_compute; reflexivity.
  - vm_compute; reflexivity.
  - constructor; [split; [discriminate|reflexivity]|constructor].
  - apply NoDup_singleton.
  - repeat constructor. apply (shape_node _ 2 (dict_of hidden_method_heap 2)).
    + vm_compute; reflexivity.
    + vm_compute; reflexivity.
    + constructor.
    + constructor.
    + constructor.
Qed.

(** C2, as the code has it. On a heap that holds a tree of components,
    every child slot holding a component and no component having an entry
    of its own under the name [named_modules], the traversal with
    [include_self] and [include_children] yields the depth-first
    enumeration in registration order and ends normally: the root comes
    first, no path comes twice, and there are as many pairs as the tree
    has components.  The bound on nested calls has to cover the height of
    the tree. *)
Theorem named_modules_tree h t d prefix :
  shape h t →
  unshadowed ["named_modules"] h t →
  height t ≤ d →
  ∃ items,
    named_modules (S d) h (VModule (root t)) prefix true true = (items, None)
    ∧ items = preorder prefix t
    ∧ head items = Some (prefix, VModule (root t))
    ∧ NoDup (map fst items)
    ∧ length items = size t.
Proof.
  intros Hs Hu Hd.
  exists (preorder prefix t). split; [|split; [|split; [|split]]].
  - by apply (named_modules_preorder ["named_modules"]).
  - done.
  - by destruct t.
  - rewrite preorder_paths. by eapply paths_NoDup.
  - apply preorder_length.
Qed.

Lemma named_modules_tree_witness :
  ∃ items,
    named_modules 3 scenario_heap (VModule 1) "" true true = (items, None)
    ∧ items = [("", VModule 1); ("C", VModule 2)]
    ∧ head items = Some ("", VModule 1)
    ∧ NoDup (map fst items)
    ∧ length items = 2.
Proof.
  apply (named_modules_tree scenario_heap scenario_tree 2 "" scenario_shape
           (scenario_unshadowed ["named_modules"] eq_refl)).
  vm_compute. lia.
Defined.

(** ** Path resolution of a parameter *)

Lemma rsplit_last_no_sep s :
  Path.has_sep s = false → Path.rsplit_last s = None.
Proof.
  induction s as [|c r IH]; simpl; [done|].
  destruct (Ascii.eqb c Path.sep); [done|].
  intros H. by rewrite (IH H).
Qed.

(** C10. A path without separator never resolves to a parameter:
    [ladder.rsplit(".", 1)] has a single piece, and unpacking it into the
    two names [ladder, param_name] raises [ValueError], whatever the
    component holds. *)
Theorem get_parameter_single_segment depth h self (path : string) :
  Path.has_sep path = false →
  get_parameter depth h self path = Raise ValueError.
Proof.
  intros H. unfold get_parameter, Path.rsplit1.
  by rewrite (rsplit_last_no_sep _ H).
Qed.

(** The root of the scenario holds [w], and [get_parameter] does not find
    it; the dotted path to the child's parameter resolves. *)
Lemma get_parameter_single_segment_witness :
  OrderedDict.get [("w", VParameter 3)] "w" = Some (VParameter 3)
  ∧ get_parameter 4 scenario_heap (VModule 1) "w" = Raise ValueError.
Proof.
  split; [reflexivity|].
  apply (get_parameter_single_segment 4 scenario_heap (VModule 1) "w").
  reflexivity.
Defined.

Example get_parameter_dotted :
  get_parameter 4 scenario_heap (VModule 1) "C.w2" = Ok (VParameter 4).
Proof. vm_compute. reflexivity. Qed.

(** ** The three tiers of [forward] *)

Section ForwardTiers.

Context {tiers : Tiers}.
Variables self params buffs inputs : value.

Lemma forward_unfold h :
  forward self params buffs inputs h =
  match forward_nb self params inputs h with
  | (Raise NotImplementedError, h1) =>
      match forward_np self buffs inputs h1 with
      | (Raise NotImplementedError, h2) =>
          match forward_nm self inputs h2 with
          | (Raise NotImplementedError, h3) => (Raise NotImplementedError, h3)
          | r => r
          end
      | r => r
      end
  | r => r
  end.
Proof.
  unfold forward, try_tier, raise.
  destruct (forward_nb _ _ _ _) as [[?|[]] ?]; reflexivity.
Qed.

Lemma declined_dec (r : result value) :
  {r = Raise NotImplementedError} + {r ≠ Raise NotImplementedError}.
Proof. destruct r as [?|[]]; (by left) || (by right). Defined.

Lemma forward_first h r h' :
  settles (forward_nb self params inputs) h r h' →
  forward self params buffs inputs h = (r, h').
Proof.
  intros [E N]. rewrite forward_unfold, E. by destruct r as [?|[]].
Qed.

Lemma forward_second h h1 r h' :
  declines (forward_nb self params inputs) h h1 →
  settles (forward_np self buffs inputs) h1 r h' →
  forward self params buffs inputs h = (r, h').
Proof.
  intros E1 [E N]. rewrite forward_unfold, E1, E. by destruct r as [?|[]].
Qed.

Lemma forward_third h h1 h2 r h' :
  declines (forward_nb self params inputs) h h1 →
  declines (forward_np self buffs inputs) h1 h2 →
  forward_nm self inputs h2 = (r, h') →
  forward self params buffs inputs h = (r, h').
Proof.
  intros E1 E2 E. rewrite forward_unfold, E1, E2, E. by destruct r as [?|[]].
Qed.

(** C3. [forward] asks the params-only tier, then the buffers-only tier,
    then the stateless tier, each one only when the tier before declined
    with [NotImplementedError].  The first tier that returns or raises
    anything else decides the outcome, unchanged; [forward] raises
    [NotImplementedError] exactly when all three tiers declined. *)
Theorem forward_tiers h :
  (∀ r h', r ≠ Raise NotImplementedError →
     forward self params buffs inputs h = (r, h') ↔
     settles (forward_nb self params inputs) h r h'
     ∨ (∃ h1, declines (forward_nb self params inputs) h h1
              ∧ settles (forward_np self buffs inputs) h1 r h')
     ∨ (∃ h1 h2, declines (forward_nb self params inputs) h h1
                 ∧ declines (forward_np self buffs inputs) h1 h2
                 ∧ settles (forward_nm self inputs) h2 r h'))
  ∧ (∀ h', forward self params buffs inputs h = (Raise NotImplementedError, h') ↔
       ∃ h1 h2, declines (forward_nb self params inputs) h h1
                ∧ declines (forward_np self buffs inputs) h1 h2
                ∧ declines (forward_nm self inputs) h2 h').
Proof.
  destruct (forward_nb self params inputs h) as [r1 h1] eqn:E1.
  destruct (declined_dec r1) as [->|N1].
  - destruct (forward_np self buffs inputs h1) as [r2 h2] eqn:E2.
    destruct (declined_dec r2) as [->|N2].
    + destruct (forward_nm self inputs h2) as [r3 h3] eqn:E3.
      rewrite (forward_third h h1 h2 r3 h3 E1 E2 E3).
      unfold settles, declines. rewrite E1. split.
      * intros r h' Hr. split.
        -- intros [= <- <-]. right; right. exists h1, h2.
           by rewrite E2, E3.
        -- intros [[? ?]|[(x & [= <-] & Hs & ?)|(x & y & [= <-] & Hs & Ht & ?)]].
           ++ congruence.
           ++ rewrite E2 in Hs. congruence.
           ++ rewrite E2 in Hs. injection Hs as <-.
              rewrite E3 in Ht. congruence.
      * intros h'. split.
        -- intros [= -> <-]. exists h1, h2. by rewrite E2, E3.
        -- intros (x & y & [= <-] & Hs & Ht).
           rewrite E2 in Hs. injection Hs as <-.
           rewrite E3 in Ht. congruence.
    + rewrite (forward_second h h1 r2 h2 E1 (conj E2 N2)).
      unfold settles, declines. rewrite E1. split.
      * intros r h' Hr. split.
        -- intros [= <- <-]. right; left. exists h1. by rewrite E2.
        -- intros [[? ?]|[(x & [= <-] & Hs & ?)|(x & y & [= <-] & Hs & Ht & ?)]].
           ++ congruence.
           ++ rewrite E2 in Hs. congruence.
           ++ rewrite E2 in Hs. congruence.
      * intros h'. split.
        -- intros [= -> <-]. done.
        -- intros (x & y & [= <-] & Hs & Ht). rewrite E2 in Hs. congruence.
  - rewrite (forward_first h r1 h1 (conj E1 N1)).
    unfold settles, declines. rewrite E1. split.
    + intros r h' Hr. split.
      * intros [= <- <-]. by left.
      * intros [[? ?]|[(x & ? & ?)|(x & y & ? & ?)]]; congruence.
    + intros h'. split.
      * intros [= -> <-]. done.
      * intros (x & y & ? & ?). congruence.
Qed.

End ForwardTiers.

(** With the tiers of [class Module] itself, nothing is computed. *)
Example forward_default self params buffs inputs h :
  forward (tiers := Module_tiers) self params buffs inputs h
  = (Raise NotImplementedError, h).
Proof. reflexivity. Qed.

Lemma forward_tiers_witness :
  forward (tiers := Module_tiers) (VModule 1) (VDict []) (VDict []) VNone ∅
  = (Raise NotImplementedError, ∅)
  ∧ forward (tiers := echo_tiers) (VModule 1) (VDict []) (VDict []) VNone ∅
    = (Ok (VDict []), ∅).
Proof.
  split.
  - apply (forward_tiers (tiers := Module_tiers)).
    exists ∅, ∅. repeat split.
  - apply (forward_tiers (tiers := echo_tiers)); [discriminate|].
    left. split; [reflexivity|discriminate].
Defined.

(** ** Reads on an initialized component *)

Lemma getattr_initialized d h c dict ps ms bs tr key :
  initialized h c dict ps ms bs tr →
  getattr (S (S d)) h (VModule c) key = resolution_order c dict ps ms bs key.
Proof.
  intros I. rewrite getattr_S, (init_object _ _ _ _ _ _ _ I).
  rewrite (getattr_hook_initialized I).
  unfold resolution_order, ordinary_attribute, object_getattribute.
  rewrite (getattr_training I), (init_training _ _ _ _ _ _ _ I).
  destruct (String.eqb key "training"); [done|].
  destruct (String.eqb key "classname"); [done|].
  destruct (String.eqb key "name"); [done|].
  destruct (String.eqb key "props"); [done|].
  destruct (String.eqb key "__class__"); [done|].
  destruct (String.eqb key "__dict__"); [done|].
  destruct (String.eqb key "__weakref__"); [done|].
  destruct (dict !! key); [done|].
  destruct (class_attribute c key); [done|].
  unfold registry_lookup.
  destruct (OrderedDict.get ps key); [done|].
  destruct (OrderedDict.get ms key); [done|].
  by destruct (OrderedDict.get bs key).
Qed.

(** Rebinding a registry leaves alone where the ordinary lookup finds
    nothing. *)
Lemma ordinary_attribute_rebind c dict attr w v key :
  attr ≠ "_training" → dict !! attr = Some w →
  ordinary_attribute c dict key = None →
  ordinary_attribute c (<[attr := v]> dict) key = None.
Proof.
  intros Ht Ha. unfold ordinary_attribute.
  rewrite (lookup_insert_ne dict attr "_training") by done.
  destruct (String.eqb key "training"); [done|].
  destruct (String.eqb key "classname"); [done|].
  destruct (String.eqb key "name"); [done|].
  destruct (String.eqb key "props"); [done|].
  destruct (String.eqb key "__class__"); [done|].
  destruct (String.eqb key "__dict__"); [done|].
  destruct (String.eqb key "__weakref__"); [done|].
  destruct (decide (key = attr)) as [->|Hne].
  - by rewrite Ha.
  - by rewrite lookup_insert_ne.
Qed.

(** ** Reassigning a parameter *)

(** The claim fails for a parameter-like value that is no box.  In the
    scenario [R.w = t] with a bare tensor [t] leaves the box of [w] with the
    value it had: the test of line 60 is [isinstance(value, Parameter)], the
    tensor goes to the last branch and becomes an ordinary attribute, which
    the read of [w] returns from then on. *)
Lemma bare_tensor_counterexample :
  is_ParameterLike (VTensor 7) = true
  ∧ OrderedDict.get [("w", VParameter 3)] "w" = Some (VParameter 3)
  ∧ scenario_heap !! 3%positive = Some (OParameter (VTensor 2))
  ∧ __setattr__ 4 1 "w" (VTensor 7) scenario_heap = (Ok tt, bare_tensor_heap)
  ∧ bare_tensor_heap !! 3%positive = Some (OParameter (VTensor 2))
  ∧ initialized bare_tensor_heap 1 (dict_of bare_tensor_heap 1)
      [("w", VParameter 3)] [("C", VModule 2)] [] (VBool false)
  ∧ getattr 4 bare_tensor_heap (VModule 1) "w" = Ok (VTensor 7).
Proof.
  split; [reflexivity|]. split; [reflexivity|].
  split; [vm_compute; reflexivity|]. split; [vm_compute; reflexivity|].
  split; [vm_compute; reflexivity|].
  split; [split; vm_compute; reflexivity|].
  vm_compute. reflexivity.
Qed.

(** C5, as the code has it. When the parameter registry binds [key] to a
    box, assigning a box (an instance of [Parameter]) to [key] leaves the
    registry as it is, the same box under the same name, and only replaces
    the value the box wraps by the value the assigned box wraps. *)
Theorem setattr_keeps_box d h c dict ps ms bs tr key box old l2 new :
  initialized h c dict ps ms bs tr →
  OrderedDict.get ps key = Some (VParameter box) →
  h !! box = Some (OParameter old) →
  h !! l2 = Some (OParameter new) →
  let h' := <[box := OParameter new]> h in
  __setattr__ (S (S d)) c key (VParameter l2) h = (Ok tt, h')
  ∧ initialized h' c dict ps ms bs tr
  ∧ __getattr__ (getattr (S d) h' (VModule c)) key = Ok (VParameter box)
  ∧ getattr (S d) h' (VParameter box) "data" = Ok new.
Proof.
  intros I Hk Hb Hl h'.
  assert (Hne : box ≠ c).
  { intros ->. destruct I as [Hc _ _ _ _]. congruence. }
  assert (I' : initialized h' c dict ps ms bs tr)
    by by apply initialized_insert_ne.
  split; [|split; [done|split]].
  - rewrite setattr_S. simpl. unfold bind, read, pure.
    rewrite !(getattr_parameters I). simpl.
    rewrite (get_mem _ _ _ Hk), (getattr_data _ _ _ _ Hl).
    rewrite (getattr_parameters I). simpl. rewrite Hk. simpl. by rewrite Hb.
  - rewrite (getattr_hook_initialized I'). unfold registry_lookup.
    by rewrite Hk.
  - apply getattr_data. apply lookup_insert_eq.
Qed.

Lemma setattr_keeps_box_witness :
  __setattr__ 2 1 "w" (VParameter 4) scenario_heap
  = (Ok tt, <[3%positive := OParameter (VTensor 3)]> scenario_heap).
Proof.
  apply (setattr_keeps_box 0 scenario_heap 1 _ _ _ _ _ "w" 3 (VTensor 2) 4
           (VTensor 3) scenario_root).
  - reflexivity.
  - vm_compute; reflexivity.
  - vm_compute; reflexivity.
Defined.

(** ** The order of an attribute read *)

(** The claim that a registry entry wins over an ordinary attribute of the
    same name fails: here [x] is both, and the read returns the ordinary
    attribute, not the box of the registry. *)
Lemma registry_first_counterexample :
  initialized shadowed_heap 1 (dict_of shadowed_heap 1)
    [("x", VParameter 2)] [] [] (VBool false)
  ∧ dict_of shadowed_heap 1 !! "x" = Some (VInt 5)
  ∧ getattr 4 shadowed_heap (VModule 1) "x" = Ok (VInt 5)
  ∧ getattr 4 shadowed_heap (VModule 1) "x" ≠ Ok (VParameter 2).
Proof.
  split; [exact shadowed_component|].
  split; [vm_compute; reflexivity|].
  split; [vm_compute; reflexivity|].
  vm_compute. discriminate.
Qed.

(** C6, as the code has it. On an initialized component the ordinary
    lookup comes first: a property of the class or one of [__class__],
    [__dict__], [__weakref__], then an entry of [__dict__], then an
    attribute of the type (a function of the class or of [object], a value
    that the class statement binds) decides the read.  Only a name it does
    not find goes to the parameter registry, then the child registry, then
    the buffer registry, and a name in none of them raises
    [AttributeError].  A name that is both an ordinary attribute and a
    registry entry resolves to the ordinary attribute. *)
Theorem getattr_resolution d h c dict ps ms bs tr key :
  initialized h c dict ps ms bs tr →
  getattr (S (S d)) h (VModule c) key = resolution_order c dict ps ms bs key
  ∧ (∀ v, ordinary_attribute c dict key = Some v →
       getattr (S (S d)) h (VModule c) key = Ok v)
  ∧ (ordinary_attribute c dict key = None →
       getattr (S (S d)) h (VModule c) key = registry_lookup ps ms bs key).
Proof.
  intros I. rewrite (getattr_initialized _ _ _ _ _ _ _ _ key I).
  unfold resolution_order. split; [done|]. split.
  - by intros v ->.
  - by intros ->.
Qed.

Lemma getattr_resolution_witness :
  getattr 2 shadowed_heap (VModule 1) "x" = Ok (VInt 5)
  ∧ getattr 2 scenario_heap (VModule 1) "w" = Ok (VParameter 3)
  ∧ getattr 2 scenario_heap (VModule 1) "q"
    = Raise (AttributeError (no_attribute "q")).
Proof.
  split; [|split].
  - apply (getattr_resolution 0 _ _ _ _ _ _ _ "x" shadowed_component).
    vm_compute. reflexivity.
  - rewrite (proj1 (getattr_resolution 0 _ _ _ _ _ _ _ "w" scenario_root)).
    vm_compute. reflexivity.
  - rewrite (proj1 (getattr_resolution 0 _ _ _ _ _ _ _ "q" scenario_root)).
    vm_compute. reflexivity.
Defined.

(** ** Registering a parameter *)

Lemma register_parameter_invalid_name depth c n v h :
  n = "" ∨ Path.has_sep n = true →
  ∃ e, register_parameter depth c n v h = (Raise e, h)
       ∧ kind_of e = InvalidName.
Proof.
  intros [->|H].
  - by exists (AssertionError name_not_empty).
  - destruct n as [|a n]; [done|].
    exists (AssertionError name_without_dot).
    unfold register_parameter, bind, pure. simpl is_empty_string. simpl negb at 1.
    simpl assert at 1. cbv iota beta. by rewrite H.
Qed.

Lemma register_parameter_fresh d h c dict ps ms bs tr n v :
  initialized h c dict ps ms bs tr →
  n ≠ "" → Path.has_sep n = false →
  OrderedDict.mem ps n = false →
  is_ParameterLike v = true →
  ∃ stored h',
    register_parameter (S d) c n v h = (Ok tt, h')
    ∧ stored_as h h' v stored
    ∧ initialized h' c (<["_parameters" := VDict (ps ++ [(n, stored)])]> dict)
        (ps ++ [(n, stored)]) ms bs tr.
Proof.
  intros I Hn Hs Hf Hv.
  assert (En : is_empty_string n = false) by by destruct n.
  unfold register_parameter, bind, pure, read, hasattr.
  rewrite En, Hs, Hv. simpl.
  rewrite (getattr_parameters I). simpl. rewrite Hf. simpl.
  destruct (negb (is_Parameter v) && negb (is_None v)) eqn:Ew.
  - unfold Parameter_new, alloc, bind, ret.
    set (l := fresh (dom h)).
    pose proof (initialized_alloc I (OParameter v)) as I'. fold l in I'.
    exists (VParameter l). eexists. split.
    { rewrite (getattr_parameters I'). simpl.
      rewrite (setitem_parameters I').
      by rewrite (set_fresh _ _ _ Hf). }
    split.
    + unfold stored_as.
      apply andb_true_iff in Ew as [E1 E2].
      apply negb_true_iff in E1, E2. rewrite E1, E2. simpl.
      exists l. split; [done|]. split.
      * apply not_elem_of_dom, is_fresh.
      * rewrite lookup_insert_ne; [by rewrite lookup_insert_eq|].
        intros E. pose proof (is_fresh (dom h)) as F. fold l in F.
        rewrite <- E in F. apply F, elem_of_dom.
        destruct I. by eexists.
    + exact (initialized_set_parameters I' _).
  - unfold ret. exists v. eexists. split.
    { rewrite (getattr_parameters I). simpl.
      rewrite (setitem_parameters I).
      by rewrite (set_fresh _ _ _ Hf). }
    split.
    + unfold stored_as.
      destruct (is_Parameter v), (is_None v); simpl in *; done.
    + exact (initialized_set_parameters I _).
Qed.

Lemma register_parameter_taken d h c dict ps ms bs tr n v :
  initialized h c dict ps ms bs tr →
  n ≠ "" → Path.has_sep n = false →
  OrderedDict.mem ps n = true →
  is_ParameterLike v = true →
  register_parameter (S d) c n v h = (Raise (AssertionError already_exists), h).
Proof.
  intros I Hn Hs Hf Hv.
  assert (En : is_empty_string n = false) by by destruct n.
  unfold register_parameter, bind, pure, read, hasattr.
  rewrite En, Hs, Hv. simpl.
  rewrite (getattr_parameters I). simpl. by rewrite Hf.
Qed.

(** The claim that the read returns the registered box for every valid
    name fails: [forward] is a valid name, the registration succeeds and
    the registry holds the box, but the read [c.forward] gives the method of
    the class. *)
Lemma method_name_counterexample :
  valid_name "forward"
  ∧ initialized method_name_heap 1 (dict_of method_name_heap 1)
      [("forward", VParameter 2)] [] [] (VBool false)
  ∧ getattr 4 method_name_heap (VModule 1) "forward"
    = Ok (VMethod 1 "forward")
  ∧ getattr 4 method_name_heap (VModule 1) "forward" ≠ Ok (VParameter 2).
Proof.
  split; [split; [discriminate|reflexivity]|].
  split; [split; vm_compute; reflexivity|].
  split; [vm_compute; reflexivity|].
  vm_compute. discriminate.
Qed.

(** C7, as the code has it. On an initialized component, registering a
    parameter-like value under a valid name that the parameter registry
    does not hold succeeds; the hook [__getattr__] then returns the entry
    that was stored (the box itself, or the new box made around a bare
    tensor), and so does the read [c.n] when the ordinary lookup finds
    nothing under [n]: no property, no entry of [__dict__], no attribute of
    the type.  Registering the name again fails with the name-conflict
    assertion; and an empty name or a name with the separator fails with
    the invalid-name assertion, the heap, and with it the registry, being
    left as it was. *)
Theorem register_parameter_contract d h c dict ps ms bs tr n v :
  initialized h c dict ps ms bs tr →
  n ≠ "" → Path.has_sep n = false →
  OrderedDict.mem ps n = false →
  is_ParameterLike v = true →
  ∃ stored h',
    register_parameter (S d) c n v h = (Ok tt, h')
    ∧ stored_as h h' v stored
    ∧ __getattr__ (getattr (S d) h' (VModule c)) n = Ok stored
    ∧ (ordinary_attribute c dict n = None →
       getattr (S (S d)) h' (VModule c) n = Ok stored)
    ∧ (∀ v2, is_ParameterLike v2 = true →
         ∃ e, register_parameter (S d) c n v2 h' = (Raise e, h')
              ∧ kind_of e = NameConflict)
    ∧ (∀ bad v3 h0, bad = "" ∨ Path.has_sep bad = true →
         ∃ e, register_parameter (S d) c bad v3 h0 = (Raise e, h0)
              ∧ kind_of e = InvalidName).
Proof.
  intros I Hn Hs Hf Hv.
  destruct (register_parameter_fresh d h c dict ps ms bs tr n v I Hn Hs Hf Hv)
    as (stored & h' & Hr & Hst & I').
  exists stored, h'. repeat split; try done.
  - rewrite (getattr_hook_initialized I'). unfold registry_lookup.
    by rewrite (get_fresh _ _ _ Hf).
  - intros Ho. rewrite (getattr_initialized _ _ _ _ _ _ _ _ n I').
    unfold resolution_order, registry_lookup.
    rewrite (ordinary_attribute_rebind c dict "_parameters" _ _ n
               ltac:(done) (init_parameters _ _ _ _ _ _ _ I) Ho).
    by rewrite (get_fresh _ _ _ Hf).
  - intros v2 Hv2. exists (AssertionError already_exists). split; [|done].
    apply (register_parameter_taken _ _ _ _ _ _ _ _ _ _ I'); try done.
    unfold OrderedDict.mem. by rewrite (get_fresh _ _ _ Hf).
  - intros bad v3 h0 Hbad. by apply register_parameter_invalid_name.
Qed.

Lemma register_parameter_contract_witness :
  ∃ stored h',
    register_parameter 1 1 "b" (VTensor 9) scenario_heap = (Ok tt, h')
    ∧ stored_as scenario_heap h' (VTensor 9) stored
    ∧ __getattr__ (getattr 1 h' (VModule 1)) "b" = Ok stored
    ∧ getattr 2 h' (VModule 1) "b" = Ok stored
    ∧ (∃ e, register_parameter 1 1 "b" (VTensor 8) h' = (Raise e, h')
            ∧ kind_of e = NameConflict)
    ∧ (∃ e, register_parameter 1 1 "a.b" (VTensor 8) h' = (Raise e, h')
            ∧ kind_of e = InvalidName).
Proof.
  destruct (register_parameter_contract 0 scenario_heap 1 _ _ _ _ _ "b"
              (VTensor 9) scenario_root)
    as (stored & h' & H1 & H2 & H3 & H3' & H4 & H5);
    [discriminate|reflexivity|reflexivity|reflexivity|].
  exists stored, h'. split; [exact H1|]. split; [exact H2|].
  split; [exact H3|]. split; [|split].
  - apply H3'. vm_compute. reflexivity.
  - apply H4. reflexivity.
  - apply H5. right. reflexivity.
Defined.

(** ** Registration before [__init__] *)

(** Reading [_parameters] when [__dict__] lacks it: the ordinary lookup
    fails, [__getattr__] asks [hasattr(self, "_parameters")], which reads
    the attribute again, and so on until the interpreter gives up. *)
Lemma getattr_parameters_unbound depth h l dict :
  h !! l = Some (OModule dict) →
  dict !! "_parameters" = None →
  getattr depth h (VModule l) "_parameters" = Raise RecursionError.
Proof.
  intros Hl Hp. induction depth as [|d IH]; [done|].
  rewrite getattr_S, Hl, object_getattribute_plain, Hp by done.
  change (class_attribute l "_parameters") with (@None value).
  cbv iota. unfold __getattr__, in_registry. by rewrite IH.
Qed.

(** Any other name the ordinary lookup does not find ends the same way:
    [__getattr__] starts with [hasattr(self, "_parameters")]. *)
Lemma getattr_unbound depth h l dict key :
  h !! l = Some (OModule dict) →
  dict !! "_parameters" = None →
  dict !! key = None →
  is_data_descriptor key = false →
  class_attribute l key = None →
  getattr depth h (VModule l) key = Raise RecursionError.
Proof.
  intros Hl Hp Hk Hd Hm.
  destruct depth as [|d]; [done|].
  rewrite getattr_S, Hl, object_getattribute_plain, Hk, Hm by done.
  unfold __getattr__, in_registry.
  by rewrite (getattr_parameters_unbound _ _ _ _ Hl Hp).
Qed.

(** C8, what the code does. Before [__init__] has bound the registries, no
    registration operation ever fails with the not-initialized error: the
    assertion on the name or on the argument fails first, and otherwise the
    assertion that the name is new reads the registry, which ends in
    [RecursionError].  The check that would raise the not-initialized error
    comes after them and is never reached. *)
Theorem registration_before_init depth h l name v :
  uninitialized h l →
  (∃ e, register_parameter depth l name v h = (Raise e, h)
        ∧ kind_of e ≠ NotInitialized
        ∧ (name ≠ "" → Path.has_sep name = false →
           is_ParameterLike v = true → e = RecursionError))
  ∧ (∃ e, register_buffer depth l name v h = (Raise e, h)
          ∧ kind_of e ≠ NotInitialized
          ∧ (name ≠ "" → Path.has_sep name = false →
             is_None v || is_TTensorLike v = true → e = RecursionError))
  ∧ (∃ e, add_module depth l name v h = (Raise e, h)
          ∧ kind_of e ≠ NotInitialized
          ∧ (name ≠ "" → Path.has_sep name = false →
             is_None v || is_Module v = true → e = RecursionError)).
Proof.
  intros (dict & Hl & Hp & Hm & Hb).
  pose proof (getattr_parameters_unbound depth _ _ _ Hl Hp) as Gp.
  pose proof (getattr_unbound depth _ _ _ "_modules" Hl Hp Hm eq_refl eq_refl) as Gm.
  pose proof (getattr_unbound depth _ _ _ "_buffers" Hl Hp Hb eq_refl eq_refl) as Gb.
  unfold register_parameter, register_buffer, add_module, bind, pure, read.
  rewrite Gp, Gm, Gb.
  destruct (is_empty_string name) eqn:En.
  { assert (name = "") as -> by by destruct name.
    split; [|split]; exists (AssertionError name_not_empty);
      (split; [reflexivity|split; [discriminate|congruence]]). }
  destruct (Path.has_sep name) eqn:Hs.
  { split; [|split]; exists (AssertionError name_without_dot);
      (split; [reflexivity|split; [discriminate|congruence]]). }
  cbn [negb assert].
  split; [|split].
  - destruct (is_ParameterLike v).
    + exists RecursionError. split; [reflexivity|split; [discriminate|done]].
    + exists (AssertionError argument_type).
      split; [reflexivity|split; [discriminate|congruence]].
  - destruct (is_None v || is_TTensorLike v).
    + exists RecursionError. split; [reflexivity|split; [discriminate|done]].
    + exists (AssertionError argument_type).
      split; [reflexivity|split; [discriminate|congruence]].
  - destruct (is_None v || is_Module v).
    + exists RecursionError. split; [reflexivity|split; [discriminate|done]].
    + exists (AssertionError argument_type).
      split; [reflexivity|split; [discriminate|congruence]].
Qed.

Lemma registration_before_init_witness :
  ∃ e, register_parameter 1000 1 "w" (VTensor 2) fresh_instance
       = (Raise e, fresh_instance)
       ∧ kind_of e ≠ NotInitialized
       ∧ e = RecursionError.
Proof.
  destruct (registration_before_init 1000 fresh_instance 1 "w" (VTensor 2)
              fresh_instance_uninitialized)
    as [(e & He & Hk & Hr) _].
  exists e. split; [exact He|]. split; [exact Hk|].
  apply Hr; [discriminate|reflexivity|reflexivity].
Defined.

(** The same on the three operations, evaluated. *)
Example registration_before_init_evaluated :
  (register_parameter 50 1 "w" (VTensor 2) fresh_instance).1
    = Raise RecursionError
  ∧ (register_buffer 50 1 "b" (VTensor 2) fresh_instance).1
    = Raise RecursionError
  ∧ (add_module 50 1 "m" VNone fresh_instance).1 = Raise RecursionError
  ∧ (__setattr__ 50 1 "w" (VInt 1) fresh_instance).1 = Raise RecursionError.
Proof. vm_compute. done. Qed.

(** ** An absent child *)

(** Adding a child, or the absent sentinel, under a valid name that the
    child registry lacks: the entry goes last. *)
Lemma add_module_fresh d h c dict ps ms bs tr n v :
  initialized h c dict ps ms bs tr →
  valid_name n →
  OrderedDict.mem ms n = false →
  is_None v || is_Module v = true →
  add_module (S d) c n v h
  = (Ok tt, <[c := OModule (<["_modules" := VDict (ms ++ [(n, v)])]> dict)]> h).
Proof.
  intros I [Hn Hs] Hf Hv.
  assert (En : is_empty_string n = false) by by destruct n.
  unfold add_module, bind, pure, read, hasattr.
  rewrite En, Hs, Hv. simpl.
  rewrite (getattr_modules I). simpl. rewrite Hf. simpl.
  rewrite (getattr_modules I). simpl.
  rewrite (setitem_modules I).
  by rewrite (set_fresh _ _ _ Hf).
Qed.

Section AbsentChild.

Context {h : gmap positive object} {c : positive} {dict : gmap string value}
        {ps ms bs : list (string * value)} {tr : value} {n : string}.

(** The child registry ends with the absent child [n]. *)
Hypothesis I : initialized h c dict ps (ms ++ [(n, VNone)]) bs tr.

(** The traversal yields what the children before the absent one yield,
    and raises when it reads [named_modules] on [None]. *)
Lemma traversal_reaches_absent_child d prefix include_self :
  named_modules (S (S d)) h (VModule c) prefix include_self true
  = Gen.seq
      (if include_self then Gen.yield (prefix, VModule c) else Gen.empty)
      (Gen.seq
         (Gen.for_list ms
            (fun '(key, module) =>
               Gen.bind_result (bound_method (S d) h module "named_modules")
                 (fun l =>
                    named_modules (S d) h (VModule l) (Path.join prefix key)
                      true true)))
         (Gen.fail absent_child_error)).
Proof.
  destruct I as [Hc _ Hm _ _].
  rewrite (named_modules_node _ _ _ _ _ _ _ _ Hc Hm).
  by rewrite for_list_app.
Qed.

Lemma traversal_raises depth prefix include_self :
  raised (named_modules depth h (VModule c) prefix include_self true).
Proof.
  destruct depth as [|[|d]].
  - apply raised_fail.
  - rewrite named_modules_S. apply raised_seq_r.
    change (getattr 0 _ _ _) with (@Raise value RecursionError).
    apply raised_fail.
  - rewrite traversal_reaches_absent_child.
    do 2 apply raised_seq_r. apply raised_fail.
Qed.

(** The loop of the [training] setter over the direct children raises:
    assigning [training] on [None] is an [AttributeError]. *)
Lemma cascade_raises depth (setattr : positive → string → value → M unit)
  (mode : value) h0 dict0 tr0 :
  initialized h0 c dict0 ps (ms ++ [(n, VNone)]) bs tr0 →
  intact ["modules"; "named_modules"] dict0 →
  ∃ e h', for_gen_do (modules depth h0 (VModule c) false)
            (fun m => match m with
                      | VModule l => setattr l "training" mode
                      | _ => raise (AttributeError (no_attribute "training"))
                      end) h0 = (Raise e, h').
Proof.
  intros I0 Hi0. destruct depth as [|[|d]].
  - by exists RecursionError, h0.
  - exists RecursionError, h0. unfold modules.
    by rewrite (named_modules_call _ _ _ _ _ _ (init_object _ _ _ _ _ _ _ I0)
                  Hi0 eq_refl).
  - rewrite (modules_direct _ _ _ _ _ _ (init_object _ _ _ _ _ _ _ I0)
               (init_modules _ _ _ _ _ _ _ I0) Hi0 eq_refl).
    rewrite map_app. unfold for_gen_do, bind. simpl fst.
    edestruct (for_each_last_raises (map snd ms) VNone) as (e & h' & ->).
    2: by exists e, h'.
    intros h1. by eexists.
Qed.

(** The component has no entry of its own under the names [modules] and
    [named_modules], so that the setter visits the children of the component
    itself. *)
Hypothesis Hi : intact ["modules"; "named_modules"] dict.

Lemma training_cascade_raises depth b :
  ∃ e h', __setattr__ depth c "training" (VBool b) h = (Raise e, h').
Proof.
  destruct depth as [|[|d]].
  - by exists RecursionError, h.
  - by exists RecursionError, h.
  - rewrite (setattr_other I d "training" (VBool b) eq_refl eq_refl).
    destruct (OrderedDict.mem bs "training").
    { simpl. by eauto. }
    change (object_setattr ?s c "training" ?v) with (s v).
    unfold training_setter, bind, read.
    destruct d as [|d]; [by exists RecursionError, h|].
    rewrite (setattr_other I d "_training" (VBool b) eq_refl eq_refl).
    destruct (OrderedDict.mem bs "_training").
    { simpl. by eauto. }
    change (object_setattr ?s c "_training" ?v) with (dict_store c "_training" v).
    unfold dict_store. rewrite (init_object _ _ _ _ _ _ _ I).
    pose proof (initialized_set_training I (VBool b)) as I'.
    pose proof (intact_insert _ dict "_training" (VBool b) Hi eq_refl)
      as Hi'.
    rewrite (bound_method_intact _ _ _ _ _ "modules"
               (init_object _ _ _ _ _ _ _ I') Hi' eq_refl eq_refl eq_refl).
    by apply cascade_raises with (tr0 := VBool b)
      (dict0 := <["_training" := VBool b]> dict).
Qed.

(** When no buffer is in the way, the cascade sets the mode of the
    component, then of the children before the absent one, and raises on
    the absent child. *)
Lemma training_cascade_reaches_absent_child d b :
  OrderedDict.mem bs "training" = false →
  OrderedDict.mem bs "_training" = false →
  __setattr__ (S (S (S d))) c "training" (VBool b) h
  = match for_each (map snd ms) (cascade_body (S (S d)) (VBool b))
            (<[c := OModule (<["_training" := VBool b]> dict)]> h) with
    | (Ok _, h2) => (Raise (AttributeError (no_attribute "training")), h2)
    | (Raise e, h2) => (Raise e, h2)
    end.
Proof.
  intros Et Eu.
  rewrite (setattr_other I (S d) "training" (VBool b) eq_refl eq_refl), Et.
  change (object_setattr ?s c "training" ?v) with (s v).
  unfold training_setter, bind, read.
  rewrite (setattr_other I d "_training" (VBool b) eq_refl eq_refl), Eu.
  change (object_setattr ?s c "_training" ?v) with (dict_store c "_training" v).
  unfold dict_store. rewrite (init_object _ _ _ _ _ _ _ I).
  pose proof (initialized_set_training I (VBool b)) as I'.
  pose proof (intact_insert _ dict "_training" (VBool b) Hi eq_refl)
    as Hi'.
  rewrite (bound_method_intact _ _ _ _ _ "modules"
             (init_object _ _ _ _ _ _ _ I') Hi' eq_refl eq_refl eq_refl).
  rewrite (modules_direct _ _ _ _ _ _ (init_object _ _ _ _ _ _ _ I')
             (init_modules _ _ _ _ _ _ _ I') Hi' eq_refl).
  rewrite map_app. unfold for_gen_do, bind. cbn [fst snd map].
  change (fun m : value => match m with
                           | VModule l => __setattr__ (S (S d)) l "training" (VBool b)
                           | _ => raise (AttributeError (no_attribute "training"))
                           end)
    with (cascade_body (S (S d)) (VBool b)).
  rewrite for_each_snoc.
  by destruct (for_each _ _ _) as [[[]|e] h2].
Qed.

End AbsentChild.

(** C9. [add_module] accepts the absent sentinel as a child of a
    component, on a heap whose child registries hold what [add_module]
    stores and where an entry that hides [named_modules] on an instance is
    one whose call the traversal follows.  From then on every traversal of
    the component that descends into the children ends with an exception:
    it yields what the calls [child.named_modules(...)] on the children
    registered before yield, then raises on the absent child, for which it
    yields no pair.  Setting the training mode of the component raises as
    well, on the absent child once the mode of the children before it has
    been set, when the component has no entry of its own under the names
    [modules] and [named_modules], so that the setter visits the children
    of the component itself, and the calls of [modules] are followed as
    well. *)
Theorem absent_child_breaks_traversal d h c dict ps ms bs tr n :
  initialized h c dict ps ms bs tr →
  registries_ok h →
  calls_followed ["named_modules"] h →
  valid_name n →
  OrderedDict.mem ms n = false →
  ∃ h',
    add_module (S d) c n VNone h = (Ok tt, h')
    ∧ (∀ d' prefix include_self,
         named_modules (S (S d')) h' (VModule c) prefix include_self true
         = Gen.seq
             (if include_self then Gen.yield (prefix, VModule c)
              else Gen.empty)
             (Gen.seq
                (Gen.for_list ms
                   (fun '(key, module) =>
                      Gen.bind_result
                        (bound_method (S d') h' module "named_modules")
                        (fun l =>
                           named_modules (S d') h' (VModule l)
                             (Path.join prefix key) true true)))
                (Gen.fail absent_child_error)))
    ∧ (∀ depth prefix include_self,
         raised (named_modules depth h' (VModule c) prefix include_self true)
         ∧ Forall (fun item => is_Module item.2 = true)
             (named_modules depth h' (VModule c) prefix include_self true).1)
    ∧ (intact ["modules"; "named_modules"] dict →
       calls_followed ["modules"] h →
       (∀ depth mode, ∃ e h'', train depth c mode h' = (Raise e, h''))
       ∧ (OrderedDict.mem bs "training" = false →
          OrderedDict.mem bs "_training" = false →
          ∀ d' mode, ∃ h1,
            train (S (S (S d'))) c mode h'
            = match for_each (map snd ms)
                      (cascade_body (S (S d')) (VBool mode)) h1 with
              | (Ok _, h2) =>
                  (Raise (AttributeError (no_attribute "training")), h2)
              | (Raise e, h2) => (Raise e, h2)
              end)).
Proof.
  intros I _ _ Hn Hf.
  rewrite (add_module_fresh d h c dict ps ms bs tr n VNone I Hn Hf eq_refl).
  eexists. split; [reflexivity|].
  pose proof (initialized_set_modules I (ms ++ [(n, VNone)])) as I'.
  split; [|split].
  - intros d' prefix include_self.
    apply (traversal_reaches_absent_child I').
  - intros depth prefix include_self. split.
    + apply (traversal_raises I').
    + apply named_modules_items.
  - intros Hi _. pose proof (intact_insert _ dict "_modules"
                  (VDict (ms ++ [(n, VNone)])) Hi eq_refl) as Hi'.
    split.
    + intros depth mode. apply (training_cascade_raises I' Hi').
    + intros Et Eu d' mode. eexists.
      apply (training_cascade_reaches_absent_child I' Hi' d' mode Et Eu).
Qed.

Lemma absent_child_breaks_traversal_witness :
  add_module 4 1 "z" VNone scenario_heap = (Ok tt, absent_heap)
  ∧ raised (named_modules 4 absent_heap (VModule 1) "" true true)
  ∧ (∃ e h'', train 4 1 true absent_heap = (Raise e, h'')).
Proof.
  destruct (absent_child_breaks_traversal 3 scenario_heap 1 _ _ _ _ _ "z"
              scenario_root scenario_registries_ok
              scenario_named_modules_followed)
    as (h' & H1 & _ & H3 & H4);
    [split; [discriminate|reflexivity]|reflexivity|].
  assert (E : h' = absent_heap).
  { unfold absent_heap. by rewrite H1. }
  rewrite E in *. split; [exact H1|]. split.
  - apply H3.
  - apply H4.
    + exact (scenario_root_without ["modules"; "named_modules"] eq_refl).
    + exact scenario_modules_followed.
Defined.

(** In the scenario the traversal yields the root and the child [C], then
    raises on the absent child [z]; without descent the absent child is
    yielded as it is; the cascade raises on it after it has set the mode
    of the root and of [C]. *)
Example absent_child_evaluated :
  named_modules 4 absent_heap (VModule 1) "" true true
  = ([("", VModule 1); ("C", VModule 2)], Some absent_child_error)
  ∧ named_modules 4 absent_heap (VModule 1) "" false false
    = ([("C", VModule 2); ("z", VNone)], None)
  ∧ (train 6 1 true absent_heap).1
    = Raise (AttributeError (no_attribute "training"))
  ∧ getattr 4 (train 6 1 true absent_heap).2 (VModule 2) "training"
    = Ok (VBool true).
Proof. vm_compute. done. Qed.

(** * Further properties of the code *)

(** ** Construction *)

Lemma fresh_instance_object : fresh_instance !! 1%positive = Some (OModule ∅).
Proof. vm_compute. reflexivity. Defined.

Lemma dict_store_ok h l dict key v :
  h !! l = Some (OModule dict) →
  dict_store l key v h = (Ok tt, <[l := OModule (<[key := v]> dict)]> h).
Proof. intros Hl. unfold dict_store. by rewrite Hl. Qed.

(** X1. [__init__] on an instance binds the three registries to empty
    dictionaries and the mode to [False], whatever the instance held under
    those names before, and leaves every other attribute of the instance
    and every other object alone; given any positional or keyword argument
    it raises the [TypeError] of a wrong call and changes nothing. *)
Theorem init_constructs l dict args kwargs h :
  h !! l = Some (OModule dict) →
  match args, kwargs with
  | [], [] =>
      ∃ dict',
        __init__ l args kwargs h = (Ok tt, <[l := OModule dict']> h)
        ∧ initialized (<[l := OModule dict']> h) l dict' [] [] [] (VBool false)
        ∧ ∀ key, is_reserved key = false → dict' !! key = dict !! key
  | _, _ =>
      ∃ e, __init__ l args kwargs h = (Raise e, h) ∧ kind_of e = UsageError
  end.
Proof.
  intros Hl. destruct args as [|a args]; [destruct kwargs as [|kw kwargs]|].
  2, 3: by exists (TypeError init_arguments).
  exists (<["_training" := VBool false]>
            (<["_buffers" := VDict []]>
               (<["_modules" := VDict []]>
                  (<["_parameters" := VDict []]> dict)))).
  split; [|split].
  - unfold __init__, bind.
    rewrite (dict_store_ok _ _ _ _ _ Hl). cbv beta iota.
    erewrite dict_store_ok by apply lookup_insert_eq. cbv beta iota.
    rewrite insert_insert_eq.
    erewrite dict_store_ok by apply lookup_insert_eq. cbv beta iota.
    rewrite insert_insert_eq.
    erewrite dict_store_ok by apply lookup_insert_eq.
    by rewrite insert_insert_eq.
  - split.
    + by rewrite lookup_insert_eq.
    + rewrite !lookup_insert_ne by done. by rewrite lookup_insert_eq.
    + rewrite !lookup_insert_ne by done. by rewrite lookup_insert_eq.
    + rewrite !lookup_insert_ne by done. by rewrite lookup_insert_eq.
    + by rewrite lookup_insert_eq.
  - intros key Hk. unfold is_reserved in Hk.
    repeat (apply orb_false_elim in Hk as [Hk ?]).
    rewrite !lookup_insert_ne; [done|..];
      intros <-; by rewrite String.eqb_refl in *.
Qed.

Lemma init_constructs_witness :
  (∃ dict',
     __init__ 1 [] [] fresh_instance = (Ok tt, <[1%positive := OModule dict']> fresh_instance)
     ∧ initialized (<[1%positive := OModule dict']> fresh_instance) 1 dict' [] [] []
         (VBool false)
     ∧ ∀ key, is_reserved key = false → dict' !! key = (∅ : gmap string value) !! key)
  ∧ (∃ e, __init__ 1 [VInt 3] [] fresh_instance = (Raise e, fresh_instance)
          ∧ kind_of e = UsageError).
Proof.
  split.
  - exact (init_constructs 1 ∅ [] [] fresh_instance fresh_instance_object).
  - exact (init_constructs 1 ∅ [VInt 3] [] fresh_instance fresh_instance_object).
Defined.

(** ** What a registration does, case by case *)

Lemma initialized_set_buffers h l dict ps ms bs tr bs' :
  initialized h l dict ps ms bs tr →
  initialized (<[l := OModule (<["_buffers" := VDict bs']> dict)]> h) l
    (<["_buffers" := VDict bs']> dict) ps ms bs' tr.
Proof.
  intros [? ? ? ? ?]. split.
  - by rewrite lookup_insert_eq.
  - by rewrite lookup_insert_ne.
  - by rewrite lookup_insert_ne.
  - by rewrite lookup_insert_eq.
  - by rewrite lookup_insert_ne.
Qed.

Lemma setitem_buffers d h l dict ps ms bs tr key v :
  initialized h l dict ps ms bs tr →
  setitem_attr (S d) l "_buffers" key v h
  = (Ok tt, <[l := OModule (<["_buffers" := VDict (OrderedDict.set bs key v)]> dict)]> h).
Proof.
  intros I. unfold setitem_attr, bind, read.
  rewrite (getattr_buffers I). unfold dict_store.
  by rewrite (init_object _ _ _ _ _ _ _ I).
Qed.

Lemma add_module_outcome d h c dict ps ms bs tr n v :
  initialized h c dict ps ms bs tr →
  add_module (S d) c n v h =
  if is_empty_string n then (Raise (AssertionError name_not_empty), h)
  else if Path.has_sep n then (Raise (AssertionError name_without_dot), h)
  else if negb (is_None v || is_Module v)
  then (Raise (AssertionError argument_type), h)
  else if OrderedDict.mem ms n then (Raise (AssertionError already_exists), h)
  else (Ok tt, <[c := OModule (<["_modules" := VDict (ms ++ [(n, v)])]> dict)]> h).
Proof.
  intros I. unfold add_module, bind, pure, read, hasattr.
  destruct (is_empty_string n); [done|].
  destruct (Path.has_sep n); [done|].
  destruct (is_None v || is_Module v); [|done].
  cbn [negb assert]. cbv beta iota.
  rewrite (getattr_modules I). cbn [contains assert]. cbv beta iota.
  destruct (OrderedDict.mem ms n) eqn:Hf; [done|].
  cbn [negb]. cbv beta iota.
  rewrite (getattr_modules I). cbn [hasattr_of negb]. cbv beta iota.
  rewrite (setitem_modules I). by rewrite (set_fresh _ _ _ Hf).
Qed.

Lemma register_buffer_outcome d h c dict ps ms bs tr n v :
  initialized h c dict ps ms bs tr →
  register_buffer (S d) c n v h =
  if is_empty_string n then (Raise (AssertionError name_not_empty), h)
  else if Path.has_sep n then (Raise (AssertionError name_without_dot), h)
  else if negb (is_None v || is_TTensorLike v)
  then (Raise (AssertionError argument_type), h)
  else if OrderedDict.mem bs n then (Raise (AssertionError already_exists), h)
  else (Ok tt, <[c := OModule (<["_buffers" := VDict (bs ++ [(n, v)])]> dict)]> h).
Proof.
  intros I. unfold register_buffer, bind, pure, read, hasattr.
  destruct (is_empty_string n); [done|].
  destruct (Path.has_sep n); [done|].
  destruct (is_None v || is_TTensorLike v); [|done].
  cbn [negb assert]. cbv beta iota.
  rewrite (getattr_buffers I). cbn [contains assert]. cbv beta iota.
  destruct (OrderedDict.mem bs n) eqn:Hf; [done|].
  cbn [negb]. cbv beta iota.
  rewrite (getattr_buffers I). cbn [hasattr_of negb]. cbv beta iota.
  rewrite (setitem_buffers _ _ _ _ _ _ _ _ _ _ I). by rewrite (set_fresh _ _ _ Hf).
Qed.

(** A successful [register_parameter] was given a valid new name. *)
Lemma register_parameter_accepts d h c dict ps ms bs tr n v h' :
  initialized h c dict ps ms bs tr →
  register_parameter (S d) c n v h = (Ok tt, h') →
  n ≠ "" ∧ Path.has_sep n = false ∧ OrderedDict.mem ps n = false
  ∧ is_ParameterLike v = true.
Proof.
  intros I. unfold register_parameter, bind, pure, read, hasattr.
  destruct n as [|a n]; [done|].
  destruct (Path.has_sep (String a n)); [done|].
  destruct (is_ParameterLike v); [|done].
  cbn [is_empty_string negb assert]. cbv beta iota.
  rewrite (getattr_parameters I). cbn [contains assert]. cbv beta iota.
  destruct (OrderedDict.mem ps (String a n)); [done|]. done.
Qed.

Lemma registry_ok_snoc d n v :
  registry_ok d → valid_name n → OrderedDict.mem d n = false →
  registry_ok (d ++ [(n, v)]).
Proof.
  intros [Hd Hv] Hn Hf. unfold registry_ok. rewrite map_app. simpl. split.
  - apply NoDup_app. split; [done|]. split; [|apply NoDup_singleton].
    intros k Hk ->%list_elem_of_singleton.
    apply list_elem_of_fmap in Hk as ([k' w] & -> & Hin).
    apply mem_get in Hf. clear Hd Hv.
    induction d as [|[k0 w0] d IH]; [by apply elem_of_nil in Hin|].
    simpl in Hf. apply elem_of_cons in Hin as [[= <- <-]|Hin].
    + simpl in Hf. by rewrite String.eqb_refl in Hf.
    + destruct (String.eqb k0 k'); [done|]. by apply IH.
  - apply Forall_app. split; [done|]. by constructor.
Qed.

Lemma valid_name_bool n :
  is_empty_string n = false → Path.has_sep n = false → valid_name n.
Proof. intros E S. split; [by destruct n|done]. Qed.

(** X2. The registration operations keep the keys of their registry
    distinct, non-empty and free of the separator: when one succeeds, the
    new entry is last, the entries before it are as they were, and the two
    other registries are untouched. *)
Theorem registration_keeps_keys_valid d h c dict ps ms bs tr n v h' :
  initialized h c dict ps ms bs tr →
  registry_ok ps → registry_ok ms → registry_ok bs →
  (register_parameter (S d) c n v h = (Ok tt, h') →
   ∃ dict' stored,
     initialized h' c dict' (ps ++ [(n, stored)]) ms bs tr
     ∧ registry_ok (ps ++ [(n, stored)]))
  ∧ (add_module (S d) c n v h = (Ok tt, h') →
     ∃ dict',
       initialized h' c dict' ps (ms ++ [(n, v)]) bs tr
       ∧ registry_ok (ms ++ [(n, v)]))
  ∧ (register_buffer (S d) c n v h = (Ok tt, h') →
     ∃ dict',
       initialized h' c dict' ps ms (bs ++ [(n, v)]) tr
       ∧ registry_ok (bs ++ [(n, v)])).
Proof.
  intros I Hps Hms Hbs. split; [|split].
  - intros Hr.
    destruct (register_parameter_accepts _ _ _ _ _ _ _ _ _ _ _ I Hr)
      as (Hn & Hs & Hf & Hv).
    destruct (register_parameter_fresh d h c dict ps ms bs tr n v I Hn Hs Hf Hv)
      as (stored & h'' & Hr' & _ & I').
    rewrite Hr in Hr'. injection Hr' as <-.
    eexists _, stored. split; [exact I'|].
    by apply registry_ok_snoc.
  - rewrite (add_module_outcome _ _ _ _ _ _ _ _ _ _ I).
    destruct (is_empty_string n) eqn:En; [done|].
    destruct (Path.has_sep n) eqn:Hs; [done|].
    destruct (negb (is_None v || is_Module v)); [done|].
    destruct (OrderedDict.mem ms n) eqn:Hf; [done|].
    intros [= <-]. eexists. split.
    + exact (initialized_set_modules I _).
    + apply registry_ok_snoc; [done| |done]. by apply valid_name_bool.
  - rewrite (register_buffer_outcome _ _ _ _ _ _ _ _ _ _ I).
    destruct (is_empty_string n) eqn:En; [done|].
    destruct (Path.has_sep n) eqn:Hs; [done|].
    destruct (negb (is_None v || is_TTensorLike v)); [done|].
    destruct (OrderedDict.mem bs n) eqn:Hf; [done|].
    intros [= <-]. eexists. split.
    + exact (initialized_set_buffers _ _ _ _ _ _ _ _ I).
    + apply registry_ok_snoc; [done| |done]. by apply valid_name_bool.
Qed.

(** ** Ordered dictionaries, continued *)

Lemma get_app_fresh d k v k' :
  k' ≠ k → OrderedDict.get (d ++ [(k, v)]) k' = OrderedDict.get d k'.
Proof.
  intros Hne. induction d as [|[k0 w] d IH]; simpl.
  - by destruct (String.eqb_spec k k') as [->|].
  - by rewrite IH.
Qed.

Lemma remove_snoc_fresh d n v :
  OrderedDict.mem d n = false → OrderedDict.remove (d ++ [(n, v)]) n = d.
Proof.
  unfold OrderedDict.mem. induction d as [|[k w] d IH]; simpl.
  - by rewrite String.eqb_refl.
  - destruct (String.eqb k n); [done|]. intros H. by rewrite IH.
Qed.

(** Removing a key cuts its entry out and leaves the others in order. *)
Lemma remove_split d n v :
  OrderedDict.get d n = Some v →
  ∃ d1 d2, d = d1 ++ (n, v) :: d2
           ∧ OrderedDict.mem d1 n = false
           ∧ OrderedDict.remove d n = d1 ++ d2.
Proof.
  induction d as [|[k w] d IH]; simpl; [done|].
  destruct (String.eqb k n) eqn:E.
  - intros [= ->]. apply String.eqb_eq in E as ->. by exists [], d.
  - intros (d1 & d2 & -> & Hf & Hr)%IH. exists ((k, w) :: d1), d2.
    split; [done|]. split; [|by rewrite Hr].
    unfold OrderedDict.mem in *. simpl. by rewrite E.
Qed.

Lemma get_remove_ne d n k :
  k ≠ n → OrderedDict.get (OrderedDict.remove d n) k = OrderedDict.get d k.
Proof.
  intros Hne. induction d as [|[k0 w] d IH]; simpl; [done|].
  destruct (String.eqb k0 n) eqn:E; simpl.
  - apply String.eqb_eq in E as ->.
    by destruct (String.eqb_spec n k) as [->|].
  - by rewrite IH.
Qed.

Lemma get_elem_of d k v : OrderedDict.get d k = Some v → (k, v) ∈ d.
Proof.
  induction d as [|[k0 w] d IH]; simpl; [done|].
  destruct (String.eqb k0 k) eqn:E.
  - intros [= ->]. apply String.eqb_eq in E as ->. by left.
  - intros ?%IH. by right.
Qed.

Lemma get_remove_eq d n :
  NoDup (map fst d) → OrderedDict.get (OrderedDict.remove d n) n = None.
Proof.
  induction d as [|[k w] d IH]; simpl; [done|].
  intros [Hk Hd]%NoDup_cons. destruct (String.eqb k n) eqn:E; simpl.
  - apply String.eqb_eq in E as ->.
    destruct (OrderedDict.get d n) eqn:G; [|done].
    apply get_elem_of in G. exfalso. apply Hk.
    apply list_elem_of_fmap. by eexists (_, _).
  - rewrite E. by apply IH.
Qed.

Lemma set_keys d k v :
  OrderedDict.mem d k = true →
  map fst (OrderedDict.set d k v) = map fst d.
Proof.
  unfold OrderedDict.mem. induction d as [|[k0 w] d IH]; simpl; [done|].
  destruct (String.eqb k0 k); simpl; [done|]. intros H. by rewrite IH.
Qed.

Lemma get_set_eq d k v : OrderedDict.get (OrderedDict.set d k v) k = Some v.
Proof.
  induction d as [|[k0 w] d IH]; simpl.
  - by rewrite String.eqb_refl.
  - destruct (String.eqb k0 k) eqn:E; simpl; by rewrite E.
Qed.

Lemma get_set_ne d k v k' :
  k' ≠ k → OrderedDict.get (OrderedDict.set d k v) k' = OrderedDict.get d k'.
Proof.
  intros Hne. induction d as [|[k0 w] d IH]; simpl.
  - by destruct (String.eqb_spec k k') as [->|].
  - destruct (String.eqb k0 k) eqn:E; simpl.
    + apply String.eqb_eq in E as ->.
      by destruct (String.eqb_spec k k') as [->|].
    + by rewrite IH.
Qed.

(** ** Deregistration *)

Lemma pop_attr_registry d h c dict attr reg n :
  h !! c = Some (OModule dict) →
  dict !! attr = Some (VDict reg) →
  is_data_descriptor attr = false →
  ((let* r := read (fun h => getattr (S d) h (VModule c) attr) in
    let* b := pure (contains r n) in
    pure (assert b does_not_exist)) ;;
   pop_attr (S d) c attr n) h
  = match OrderedDict.get reg n with
    | Some v =>
        (Ok v, <[c := OModule (<[attr := VDict (OrderedDict.remove reg n)]> dict)]> h)
    | None => (Raise (AssertionError does_not_exist), h)
    end.
Proof.
  intros Hc Ha Hp. unfold pop_attr, bind, pure, read, ret.
  rewrite (getattr_dict _ _ _ _ _ _ Hc Ha Hp). cbn [contains].
  unfold OrderedDict.mem.
  destruct (OrderedDict.get reg n) as [v|] eqn:G; [|done].
  cbn [assert]. cbv beta iota.
  rewrite (getattr_dict _ _ _ _ _ _ Hc Ha Hp), G.
  unfold dict_store. by rewrite Hc.
Qed.

Lemma deregister_parameter_outcome d h c dict ps ms bs tr n :
  initialized h c dict ps ms bs tr →
  deregister_parameter (S d) c n h
  = match OrderedDict.get ps n with
    | Some v =>
        (Ok v, <[c := OModule (<["_parameters" := VDict (OrderedDict.remove ps n)]> dict)]> h)
    | None => (Raise (AssertionError does_not_exist), h)
    end.
Proof.
  intros [Hc Hp _ _ _]. by apply pop_attr_registry.
Qed.

Lemma pop_module_outcome d h c dict ps ms bs tr n :
  initialized h c dict ps ms bs tr →
  pop_module (S d) c n h
  = match OrderedDict.get ms n with
    | Some v =>
        (Ok v, <[c := OModule (<["_modules" := VDict (OrderedDict.remove ms n)]> dict)]> h)
    | None => (Raise (AssertionError does_not_exist), h)
    end.
Proof.
  intros [Hc _ Hm _ _]. by apply pop_attr_registry.
Qed.

Lemma deregister_buffer_outcome d h c dict ps ms bs tr n :
  initialized h c dict ps ms bs tr →
  deregister_buffer (S d) c n h
  = match OrderedDict.get bs n with
    | Some v =>
        (Ok v, <[c := OModule (<["_buffers" := VDict (OrderedDict.remove bs n)]> dict)]> h)
    | None => (Raise (AssertionError does_not_exist), h)
    end.
Proof.
  intros [Hc _ _ Hb _]. by apply pop_attr_registry.
Qed.

(** X3. Adding a child under a new valid name and popping that name
    returns the child and gives back the heap as it was. *)
Theorem pop_module_after_add_module d h c dict ps ms bs tr n v :
  initialized h c dict ps ms bs tr →
  valid_name n →
  OrderedDict.mem ms n = false →
  is_None v || is_Module v = true →
  (add_module (S d) c n v ;; pop_module (S d) c n) h = (Ok v, h).
Proof.
  intros I Hn Hf Hv. unfold bind at 1.
  rewrite (add_module_fresh d h c dict ps ms bs tr n v I Hn Hf Hv).
  rewrite (pop_module_outcome _ _ _ _ _ _ _ _ _ (initialized_set_modules I _)).
  rewrite (get_fresh _ _ _ Hf), (remove_snoc_fresh _ _ _ Hf).
  rewrite insert_insert_eq, insert_insert_eq.
  rewrite (insert_id dict "_modules" (VDict ms)) by apply I.
  by rewrite (insert_id h c (OModule dict)) by apply I.
Qed.

(** X4. Deregistering a parameter, popping a child or deregistering a
    buffer under a name the registry does not hold fails with the
    "does not exist" assertion and changes nothing. *)
Theorem deregistration_of_missing_name d h c dict ps ms bs tr n :
  initialized h c dict ps ms bs tr →
  (OrderedDict.mem ps n = false →
   ∃ e, deregister_parameter (S d) c n h = (Raise e, h) ∧ kind_of e = NotFound)
  ∧ (OrderedDict.mem ms n = false →
     ∃ e, pop_module (S d) c n h = (Raise e, h) ∧ kind_of e = NotFound)
  ∧ (OrderedDict.mem bs n = false →
     ∃ e, deregister_buffer (S d) c n h = (Raise e, h) ∧ kind_of e = NotFound).
Proof.
  intros I. split; [|split]; intros Hf%mem_get;
    exists (AssertionError does_not_exist); (split; [|done]).
  - by rewrite (deregister_parameter_outcome _ _ _ _ _ _ _ _ _ I), Hf.
  - by rewrite (pop_module_outcome _ _ _ _ _ _ _ _ _ I), Hf.
  - by rewrite (deregister_buffer_outcome _ _ _ _ _ _ _ _ _ I), Hf.
Qed.

(** X5. [deregister_parameter] returns the entry of the name and cuts
    exactly it out of the registry: the name is no longer bound, every
    other entry keeps its value and its place in the order, and no other
    object, the box included, is touched. *)
Theorem deregister_parameter_removes d h c dict ps ms bs tr n v :
  initialized h c dict ps ms bs tr →
  NoDup (map fst ps) →
  OrderedDict.get ps n = Some v →
  ∃ ps1 ps2 h',
    ps = ps1 ++ (n, v) :: ps2
    ∧ deregister_parameter (S d) c n h = (Ok v, h')
    ∧ initialized h' c (<["_parameters" := VDict (ps1 ++ ps2)]> dict)
        (ps1 ++ ps2) ms bs tr
    ∧ OrderedDict.get (ps1 ++ ps2) n = None
    ∧ (∀ k, k ≠ n → OrderedDict.get (ps1 ++ ps2) k = OrderedDict.get ps k)
    ∧ (∀ l, l ≠ c → h' !! l = h !! l).
Proof.
  intros I Hd Hg.
  destruct (remove_split _ _ _ Hg) as (ps1 & ps2 & Hps & _ & Hr).
  exists ps1, ps2. eexists. split; [done|]. split.
  { by rewrite (deregister_parameter_outcome _ _ _ _ _ _ _ _ _ I), Hg, Hr. }
  split; [exact (initialized_set_parameters I _)|].
  split; [|split].
  - rewrite <- Hr. by apply get_remove_eq.
  - intros k Hk. rewrite <- Hr. by apply get_remove_ne.
  - intros l Hl. by rewrite lookup_insert_ne.
Qed.

(** The direct children, without descent. *)
Lemma named_modules_direct d h l dict ms prefix :
  h !! l = Some (OModule dict) →
  dict !! "_modules" = Some (VDict ms) →
  named_modules (S (S d)) h (VModule l) prefix false false
  = (qualify prefix ms, None).
Proof.
  intros Hl Hm. rewrite (named_modules_node _ _ _ _ _ _ _ _ Hl Hm).
  rewrite (for_list_ext _ _ (fun x => Gen.yield (Path.join prefix x.1, x.2))).
  2: { by intros [??]. }
  by rewrite for_list_yield.
Qed.

(** X6. [register_buffer] on an initialized component, with a valid new
    name and a tensor or [None]: the entry goes last in the buffer
    registry and the read of the name returns it, unless the ordinary
    lookup finds the name (a property, an entry of [__dict__], an attribute
    of the type or of [object]) or a parameter or a child has that name;
    registering the name again fails; a value that is neither a tensor nor
    [None] fails the type assertion, for every valid name. *)
Theorem register_buffer_contract d h c dict ps ms bs tr n v :
  initialized h c dict ps ms bs tr →
  valid_name n →
  OrderedDict.mem bs n = false →
  is_None v || is_TTensorLike v = true →
  ∃ h',
    register_buffer (S d) c n v h = (Ok tt, h')
    ∧ initialized h' c (<["_buffers" := VDict (bs ++ [(n, v)])]> dict)
        ps ms (bs ++ [(n, v)]) tr
    ∧ (ordinary_attribute c dict n = None → OrderedDict.get ps n = None →
       OrderedDict.get ms n = None →
       getattr (S (S d)) h' (VModule c) n = Ok v)
    ∧ (∀ w, ∃ e, register_buffer (S d) c n w h' = (Raise e, h')
                 ∧ (kind_of e = NameConflict ∨ kind_of e = TypeKind))
    ∧ (∀ k w h0, is_None w || is_TTensorLike w = false → valid_name k →
         ∃ e, register_buffer (S d) c k w h0 = (Raise e, h0)
              ∧ kind_of e = TypeKind).
Proof.
  intros I [Hn Hs] Hf Hv.
  assert (En : is_empty_string n = false) by by destruct n.
  pose proof (initialized_set_buffers _ _ _ _ _ _ _ (bs ++ [(n, v)]) I) as I'.
  eexists. split; [|split; [exact I'|split; [|split]]].
  - rewrite (register_buffer_outcome _ _ _ _ _ _ _ _ _ _ I).
    by rewrite En, Hs, Hv, Hf.
  - intros Ho Hp Hm.
    rewrite (getattr_initialized _ _ _ _ _ _ _ _ n I').
    unfold resolution_order, registry_lookup.
    rewrite (ordinary_attribute_rebind c dict "_buffers" _ _ n
               ltac:(done) (init_buffers _ _ _ _ _ _ _ I) Ho), Hp, Hm.
    by rewrite (get_fresh _ _ _ Hf).
  - intros w. rewrite (register_buffer_outcome _ _ _ _ _ _ _ _ _ _ I').
    rewrite En, Hs. unfold OrderedDict.mem. rewrite (get_fresh _ _ _ Hf).
    destruct (negb (is_None w || is_TTensorLike w)).
    + exists (AssertionError argument_type). split; [done|by right].
    + exists (AssertionError already_exists). split; [done|by left].
  - intros k w h0 Hw [Hk Hks].
    exists (AssertionError argument_type). split; [|done].
    unfold register_buffer, bind, pure.
    assert (is_empty_string k = false) as -> by by destruct k.
    by rewrite Hks, Hw.
Qed.

(** X7. [add_module] on an initialized component, with a valid new name
    and a component or [None]: the child is enumerated last among the
    direct children, the read of the name returns it unless the ordinary
    lookup finds the name (a property, an entry of [__dict__], an attribute
    of the type or of [object]) or a parameter has that name; adding the
    name again fails; a value that is neither a component nor [None] fails
    the type assertion, for every valid name. *)
Theorem add_module_contract d h c dict ps ms bs tr n v :
  initialized h c dict ps ms bs tr →
  valid_name n →
  OrderedDict.mem ms n = false →
  is_None v || is_Module v = true →
  ∃ h',
    add_module (S d) c n v h = (Ok tt, h')
    ∧ initialized h' c (<["_modules" := VDict (ms ++ [(n, v)])]> dict)
        ps (ms ++ [(n, v)]) bs tr
    ∧ (∀ prefix,
         named_modules (S (S d)) h' (VModule c) prefix false false
         = (qualify prefix ms ++ [(Path.join prefix n, v)], None))
    ∧ (ordinary_attribute c dict n = None → OrderedDict.get ps n = None →
       getattr (S (S d)) h' (VModule c) n = Ok v)
    ∧ (∀ w, ∃ e, add_module (S d) c n w h' = (Raise e, h')
                 ∧ (kind_of e = NameConflict ∨ kind_of e = TypeKind))
    ∧ (∀ k w h0, is_None w || is_Module w = false → valid_name k →
         ∃ e, add_module (S d) c k w h0 = (Raise e, h0)
              ∧ kind_of e = TypeKind).
Proof.
  intros I Hn Hf Hv.
  pose proof Hn as [Hne Hs].
  assert (En : is_empty_string n = false) by by destruct n.
  pose proof (initialized_set_modules I (ms ++ [(n, v)])) as I'.
  eexists. split; [|split; [exact I'|split; [|split; [|split]]]].
  - exact (add_module_fresh d h c dict ps ms bs tr n v I Hn Hf Hv).
  - intros prefix.
    rewrite (named_modules_direct _ _ _ _ _ _ (init_object _ _ _ _ _ _ _ I')
               (init_modules _ _ _ _ _ _ _ I')).
    unfold qualify. by rewrite map_app.
  - intros Ho Hp.
    rewrite (getattr_initialized _ _ _ _ _ _ _ _ n I').
    unfold resolution_order, registry_lookup.
    rewrite (ordinary_attribute_rebind c dict "_modules" _ _ n
               ltac:(done) (init_modules _ _ _ _ _ _ _ I) Ho), Hp.
    by rewrite (get_fresh _ _ _ Hf).
  - intros w. rewrite (add_module_outcome _ _ _ _ _ _ _ _ _ _ I').
    rewrite En, Hs. unfold OrderedDict.mem. rewrite (get_fresh _ _ _ Hf).
    destruct (negb (is_None w || is_Module w)).
    + exists (AssertionError argument_type). split; [done|by right].
    + exists (AssertionError already_exists). split; [done|by left].
  - intros k w h0 Hw [Hk Hks].
    exists (AssertionError argument_type). split; [|done].
    unfold add_module, bind, pure.
    assert (is_empty_string k = false) as -> by by destruct k.
    by rewrite Hks, Hw.
Qed.

(** ** Attribute assignment, the other branches *)

(** X8. On a component that has no entry of its own under the name
    [add_module], assigning a component to an attribute registers it as a
    child; when the name already is a child the assignment raises the
    "already exists" assertion and the child is not replaced. *)
Theorem setattr_component d h c dict ps ms bs tr key m :
  initialized h c dict ps ms bs tr →
  intact ["add_module"] dict →
  valid_name key →
  __setattr__ (S (S d)) c key (VModule m) h
  = if OrderedDict.mem ms key
    then (Raise (AssertionError already_exists), h)
    else (Ok tt, <[c := OModule (<["_modules" := VDict (ms ++ [(key, VModule m)])]> dict)]> h).
Proof.
  intros I Hi [Hn Hs]. rewrite setattr_S. cbn [is_Parameter is_Module].
  unfold bind at 1. unfold read at 1.
  rewrite (bound_method_intact _ _ _ _ _ "add_module"
             (init_object _ _ _ _ _ _ _ I) Hi eq_refl eq_refl eq_refl).
  rewrite (add_module_outcome _ _ _ _ _ _ _ _ _ _ I).
  assert (is_empty_string key = false) as -> by by destruct key.
  by rewrite Hs.
Qed.

(** X9. Assigning to the name of a buffer a value that is neither a
    parameter nor a component: a tensor or [None] replaces the buffer in
    place, the keys and their order being kept and the other buffers
    unchanged; anything else raises [TypeError] and changes nothing. *)
Theorem setattr_buffer d h c dict ps ms bs tr key v :
  initialized h c dict ps ms bs tr →
  OrderedDict.mem bs key = true →
  is_Parameter v = false → is_Module v = false →
  if is_None v || is_TTensorLike v
  then ∃ bs',
         __setattr__ (S (S d)) c key v h
         = (Ok tt, <[c := OModule (<["_buffers" := VDict bs']> dict)]> h)
         ∧ map fst bs' = map fst bs
         ∧ OrderedDict.get bs' key = Some v
         ∧ ∀ k, k ≠ key → OrderedDict.get bs' k = OrderedDict.get bs k
  else ∃ e, __setattr__ (S (S d)) c key v h = (Raise e, h)
            ∧ kind_of e = TypeKind.
Proof.
  intros I Hb Hp Hm.
  rewrite (setattr_other I d key v Hp Hm), Hb.
  destruct (is_None v || is_TTensorLike v).
  - exists (OrderedDict.set bs key v). split; [|split; [|split]].
    + by rewrite (setitem_buffers _ _ _ _ _ _ _ _ _ _ I).
    + by apply set_keys.
    + apply get_set_eq.
    + intros k Hk. by apply get_set_ne.
  - by exists (TypeError buffer_assignment).
Qed.

Lemma is_reserved_false key :
  is_reserved key = false →
  is_property key = false ∧ key ≠ "_parameters" ∧ key ≠ "_modules"
  ∧ key ≠ "_buffers" ∧ key ≠ "_training".
Proof.
  unfold is_reserved. intros H.
  apply orb_false_elim in H as [H H4]. apply orb_false_elim in H as [H H3].
  apply orb_false_elim in H as [H H2]. apply orb_false_elim in H as [H H1].
  split; [done|].
  repeat split; intros ->; by rewrite String.eqb_refl in *.
Qed.

(** X10. Assigning a plain value (neither a parameter nor a component,
    for instance a bare tensor) to a name that is no buffer, none of the
    names that [__init__] binds, no property, and none of [__class__],
    [__dict__], [__weakref__], stores an ordinary attribute and updates no
    registry: when the name is a registered parameter, the box stays in the
    registry with its value, and the read of the name returns the assigned
    value from then on. *)
Theorem setattr_plain_value_shadows d h c dict ps ms bs tr key v :
  initialized h c dict ps ms bs tr →
  is_Parameter v = false → is_Module v = false →
  OrderedDict.mem bs key = false →
  is_reserved key = false →
  is_slot key = false →
  let h' := <[c := OModule (<[key := v]> dict)]> h in
  __setattr__ (S (S d)) c key v h = (Ok tt, h')
  ∧ initialized h' c (<[key := v]> dict) ps ms bs tr
  ∧ getattr (S (S d)) h' (VModule c) key = Ok v
  ∧ __getattr__ (getattr (S d) h' (VModule c)) key
    = registry_lookup ps ms bs key.
Proof.
  intros I Hp Hm Hb (Hprop & K1 & K2 & K3 & K4)%is_reserved_false Hslot h'.
  assert (I' : initialized h' c (<[key := v]> dict) ps ms bs tr).
  { destruct I. split.
    - apply lookup_insert_eq.
    - by rewrite lookup_insert_ne.
    - by rewrite lookup_insert_ne.
    - by rewrite lookup_insert_ne.
    - by rewrite lookup_insert_ne. }
  split; [|split; [done|split]].
  - rewrite (setattr_other I d key v Hp Hm), Hb.
    unfold object_setattr.
    apply is_property_false in Hprop as (E1 & E2 & E3 & E4).
    apply is_slot_false in Hslot as (E5 & E6 & E7).
    rewrite E1, E2, E3, E4, E5, E6, E7. cbn [orb].
    unfold dict_store. by rewrite (init_object _ _ _ _ _ _ _ I).
  - rewrite (getattr_initialized _ _ _ _ _ _ _ _ key I').
    unfold resolution_order, ordinary_attribute.
    apply is_property_false in Hprop as (E1 & E2 & E3 & E4).
    apply is_slot_false in Hslot as (E5 & E6 & E7).
    by rewrite E1, E2, E3, E4, E5, E6, E7, lookup_insert_eq.
  - apply (getattr_hook_initialized I').
Qed.

(** ** Resolving dotted paths *)

Lemma split_nonempty s : Path.split s ≠ [].
Proof.
  destruct s as [|c r]; simpl; [done|].
  destruct (Ascii.eqb c Path.sep); [done|]. by destruct (Path.split r).
Qed.

Lemma split_no_sep k : Path.has_sep k = false → Path.split k = [k].
Proof.
  induction k as [|c r IH]; simpl; [done|].
  destruct (Ascii.eqb c Path.sep); [done|]. intros H. by rewrite (IH H).
Qed.

Lemma split_app a b :
  Path.split (a +:+ String Path.sep b) = Path.split a ++ Path.split b.
Proof.
  induction a as [|c a IH].
  - reflexivity.
  - rewrite append_cons. simpl. destruct (Ascii.eqb c Path.sep).
    + by rewrite IH.
    + rewrite IH. pose proof (split_nonempty a).
      by destruct (Path.split a).
Qed.

Lemma rsplit_last_join a k :
  Path.has_sep k = false →
  Path.rsplit_last (a +:+ String Path.sep k) = Some (a, k).
Proof.
  intros Hk. induction a as [|c a IH].
  - change ("" +:+ String Path.sep k) with (String Path.sep k). simpl.
    by rewrite (rsplit_last_no_sep _ Hk).
  - rewrite append_cons. simpl. by rewrite IH.
Qed.

Lemma get_module_loop_app depth h atom l1 l2 :
  get_module_loop depth h atom (l1 ++ l2)
  = (m ← get_module_loop depth h atom l1; get_module_loop depth h m l2).
Proof.
  revert atom. induction l1 as [|bar l1 IH]; intros atom; simpl; [done|].
  destruct (hasattr depth h atom bar) as [[]|e]; simpl; try done.
  destruct (getattr depth h atom bar) as [v|e]; simpl; [|done].
  destruct (is_Module v); simpl; [apply IH|done].
Qed.

Lemma get_module_join depth h self a b :
  get_module depth h self (a +:+ String Path.sep b)
  = (m ← get_module depth h self a; get_module depth h m b).
Proof.
  unfold get_module. by rewrite split_app, get_module_loop_app.
Qed.

(** X11. Resolving [a.b] is resolving [a] and then [b] from the
    component found, with the errors of either step: a path resolves only
    through components, and the first step that fails decides. *)
Theorem get_module_compose depth h self a b :
  get_module depth h self (a +:+ String Path.sep b)
  = match get_module depth h self a with
    | Ok m => get_module depth h m b
    | Raise e => Raise e
    end.
Proof.
  unfold get_module. rewrite split_app, get_module_loop_app.
  by destruct (get_module_loop depth h self (Path.split a)).
Qed.

(** One step from an initialized component. *)
Lemma get_module_step d h c dict ps ms bs tr k :
  initialized h c dict ps ms bs tr →
  Path.has_sep k = false →
  get_module (S (S d)) h (VModule c) k
  = match resolution_order c dict ps ms bs k with
    | Ok v => if is_Module v then Ok v else Raise (TypeError not_a_module)
    | Raise (AttributeError _) => Raise (AttributeError (no_attribute k))
    | Raise e => Raise e
    end.
Proof.
  intros I Hk. unfold get_module.
  rewrite (split_no_sep _ Hk). simpl. unfold hasattr.
  rewrite !(getattr_initialized _ _ _ _ _ _ _ _ k I).
  destruct (resolution_order c dict ps ms bs k) as [v|[]]; simpl; try done.
  by destruct (is_Module v).
Qed.

Lemma get_of_NoDup d k v :
  NoDup (map fst d) → (k, v) ∈ d → OrderedDict.get d k = Some v.
Proof.
  induction d as [|[k0 w] d IH]; simpl; [by intros _ ?%elem_of_nil|].
  intros [Hk Hd]%NoDup_cons [[= -> ->]|Hin]%elem_of_cons.
  - by rewrite String.eqb_refl.
  - destruct (String.eqb_spec k0 k) as [->|]; [|by apply IH].
    exfalso. apply Hk. apply list_elem_of_fmap. by exists (k, v).
Qed.

(** A child of a component of a tree, read by its name. *)
Lemma child_resolves d h l cs k c :
  shape h (Node l cs) →
  children_visible h (Node l cs) →
  (k, c) ∈ cs →
  get_module (S (S d)) h (VModule l) k = Ok (VModule (root c)).
Proof.
  intros (dict0 & Hl & Hm & Hv & Hk & Hcs)%shape_inv Hvis Hkc.
  destruct (Hvis l (nodes_root (Node l cs)))
    as (dict & ps & ms & bs & tr & I & Hfree).
  assert (dict = dict0) as ->.
  { destruct I as [Hl' _ _ _ _]. congruence. }
  assert (ms = map (fun kc => (kc.1, VModule (root kc.2))) cs) as ->.
  { destruct I as [_ _ Hm' _ _]. congruence. }
  assert (Hg : OrderedDict.get
                 (map (fun kc => (kc.1, VModule (root kc.2))) cs) k
               = Some (VModule (root c))).
  { apply get_of_NoDup.
    - by rewrite map_map.
    - apply list_elem_of_fmap. by exists (k, c). }
  destruct (Hfree k (get_mem _ _ _ Hg)) as [Ho Hp].
  assert (Hs : Path.has_sep k = false).
  { rewrite Forall_forall in Hv. apply (Hv k).
    apply list_elem_of_fmap. by exists (k, c). }
  rewrite (get_module_step _ _ _ _ _ _ _ _ _ I Hs).
  unfold resolution_order, registry_lookup. by rewrite Ho, Hp, Hg.
Qed.

Lemma get_module_descends h t :
  shape h t → children_visible h t →
  ∀ d self p,
    (p = "" ∧ self = VModule (root t))
    ∨ (p ≠ "" ∧ get_module (S (S d)) h self p = Ok (VModule (root t))) →
    ∀ q m, (q, m) ∈ preorder p t → q ≠ "" →
      get_module (S (S d)) h self q = Ok m.
Proof.
  induction t as [l cs IH] using tree_induction.
  intros Hs Hvis d self p Hp q m Hq Hne. simpl in Hq.
  apply elem_of_cons in Hq as [[= -> ->]|Hq].
  { destruct Hp as [[-> _]|[_ Hp]]; [done|exact Hp]. }
  apply elem_of_concat_map in Hq as ([k c] & Hkc & Hq). simpl in Hq.
  pose proof Hs as (dict0 & _ & _ & Hv & _ & Hcs)%shape_inv.
  rewrite Forall_forall in IH, Hcs.
  assert (Vk : valid_name k).
  { rewrite Forall_forall in Hv. apply Hv.
    apply list_elem_of_fmap. by exists (k, c). }
  apply (IH _ Hkc (Hcs _ Hkc)) with (p := Path.join p k); [| |done|done].
  - intros x Hx. apply Hvis. by eapply nodes_child.
  - right. split; [apply join_nonempty, Vk|].
    pose proof (child_resolves d h l cs k c Hs Hvis Hkc) as Hstep.
    destruct Hp as [[-> ->]|[Hp Hr]]; [exact Hstep|].
    rewrite join_nonempty_prefix by done.
    rewrite get_module_join, Hr. exact Hstep.
Qed.

(** X12. On a component tree in which the ordinary lookup finds no name
    of a child (no property, no entry of [__dict__], no attribute of the
    type or of [object] has it) and no parameter has the name of a child,
    [get_module] resolves every path that the traversal yields, but the
    empty path of the root, to the component the traversal yields with
    it. *)
Theorem get_module_enumerated h t d q m :
  shape h t →
  children_visible h t →
  (q, m) ∈ preorder "" t →
  q ≠ "" →
  get_module (S (S d)) h (VModule (root t)) q = Ok m.
Proof.
  intros Hs Hv Hq Hne.
  apply (get_module_descends h t Hs Hv d (VModule (root t)) ""); auto.
Qed.

(** X13. On such a tree, whose root has no entry of its own under the
    name [get_module], [get_parameter] resolves the qualified path of
    a parameter of any component but the root to its box, provided the
    ordinary lookup on that component does not find the parameter's
    name. *)
Theorem get_parameter_enumerated h t d q l dict ps ms bs tr k v :
  shape h t →
  children_visible h t →
  intact ["get_module"] (dict_of h (root t)) →
  (q, VModule l) ∈ preorder "" t →
  q ≠ "" →
  initialized h l dict ps ms bs tr →
  OrderedDict.get ps k = Some v →
  valid_name k →
  ordinary_attribute l dict k = None →
  is_Parameter v = true →
  get_parameter (S (S d)) h (VModule (root t)) (Path.join q k) = Ok v.
Proof.
  intros Hs Hvis Hi Hq Hne I Hg [Hk Hks] Ho Hv.
  rewrite join_nonempty_prefix by done.
  unfold get_parameter, Path.rsplit1. rewrite (rsplit_last_join _ _ Hks).
  rewrite (bound_method_intact _ _ _ _ _ "get_module" (shape_root _ _ Hs) Hi
             eq_refl eq_refl eq_refl).
  cbn [mbind result_bind].
  rewrite (get_module_descends h t Hs Hvis d (VModule (root t)) ""
             (or_introl (conj eq_refl eq_refl)) q (VModule l) Hq Hne).
  simpl. unfold hasattr.
  rewrite !(getattr_initialized _ _ _ _ _ _ _ _ k I).
  unfold resolution_order, registry_lookup. rewrite Ho, Hg. simpl.
  unfold is_ParameterLike. by rewrite Hv.
Qed.

(** X14. The registries do not exclude one another: a child can be
    added under the name of a parameter.  When the ordinary lookup does not
    find the name, the child is then enumerated, but the read of the name
    still gives the parameter and [get_module] of the name raises "is not a
    Module". *)
Theorem child_hidden_by_parameter d h c dict ps ms bs tr n p m :
  initialized h c dict ps ms bs tr →
  valid_name n →
  ordinary_attribute c dict n = None →
  OrderedDict.get ps n = Some (VParameter p) →
  OrderedDict.mem ms n = false →
  ∃ h',
    add_module (S d) c n (VModule m) h = (Ok tt, h')
    ∧ (Path.join "" n, VModule m)
        ∈ (named_modules (S (S d)) h' (VModule c) "" false false).1
    ∧ getattr (S (S d)) h' (VModule c) n = Ok (VParameter p)
    ∧ get_module (S (S d)) h' (VModule c) n = Raise (TypeError not_a_module).
Proof.
  intros I Hn Ho Hp Hf.
  pose proof (initialized_set_modules I (ms ++ [(n, VModule m)])) as I'.
  eexists. split; [|split; [|split]].
  - exact (add_module_fresh d h c dict ps ms bs tr n (VModule m) I Hn Hf eq_refl).
  - rewrite (named_modules_direct _ _ _ _ _ _ (init_object _ _ _ _ _ _ _ I')
               (init_modules _ _ _ _ _ _ _ I')).
    simpl. unfold qualify. rewrite map_app. apply elem_of_app. right.
    by left.
  - rewrite (getattr_initialized _ _ _ _ _ _ _ _ n I').
    unfold resolution_order, registry_lookup.
    by rewrite (ordinary_attribute_rebind c dict "_modules" _ _ n
                  ltac:(done) (init_modules _ _ _ _ _ _ _ I) Ho), Hp.
  - rewrite (get_module_step _ _ _ _ _ _ _ _ _ I' (proj2 Hn)).
    unfold resolution_order, registry_lookup.
    by rewrite (ordinary_attribute_rebind c dict "_modules" _ _ n
                  ltac:(done) (init_modules _ _ _ _ _ _ _ I) Ho), Hp.
Qed.

(** ** Taking a flattened mapping apart *)

Lemma prefix_append p s : String.prefix p (p +:+ s) = true.
Proof.
  induction p as [|a p IH]; [by destruct s|].
  rewrite append_cons. simpl. by destruct (ascii_dec a a).
Qed.

Lemma strip_prefix_append p s : strip_prefix p (p +:+ s) = Some s.
Proof.
  induction p as [|a p IH]; [done|].
  rewrite append_cons. simpl. by rewrite Ascii.eqb_refl.
Qed.

Lemma strip_prefix_is_prefix p s r :
  strip_prefix p s = Some r → s = p +:+ r.
Proof.
  revert s. induction p as [|a p IH]; intros s; simpl.
  - by intros [= ->].
  - destruct s as [|b s]; [done|].
    destruct (Ascii.eqb_spec a b) as [->|]; [|done].
    intros ->%IH. by rewrite append_cons.
Qed.

Lemma decompose_members_dict prefix entries :
  decompose_members (VDict entries) prefix
  = (map (fun kv => (removeprefix kv.1 (prefix +:+ "."), kv.2))
       (List.filter (fun kv => String.prefix prefix kv.1) entries), None).
Proof.
  unfold decompose_members. simpl. rewrite for_gen_list.
  induction entries as [|[k v] entries IH]; [done|].
  simpl. rewrite IH. by destruct (String.prefix prefix k).
Qed.

Lemma removeprefix_join prefix k :
  prefix ≠ "" → removeprefix (Path.join prefix k) (prefix +:+ ".") = k.
Proof.
  intros Hp. rewrite join_nonempty_prefix by done. unfold removeprefix.
  change (String Path.sep k) with ("." +:+ k).
  by rewrite <- append_assoc, strip_prefix_append.
Qed.

(** X15. [decompose_members] undoes the qualification of the flattening:
    from the entries of a component under its non-empty path and that path
    it yields the entries under their own names, in order. *)
Theorem decompose_members_qualified prefix entries :
  prefix ≠ "" →
  decompose_members (VDict (qualify prefix entries)) prefix = (entries, None).
Proof.
  intros Hp. rewrite decompose_members_dict. f_equal.
  induction entries as [|[k v] entries IH]; [done|].
  cbn [qualify map List.filter fst snd].
  rewrite (join_nonempty_prefix prefix k Hp) at 1. rewrite prefix_append.
  cbn [map fst snd]. rewrite (removeprefix_join prefix k Hp).
  f_equal. exact IH.
Qed.

(** X16. The test of [decompose_members] is [key.startswith(prefix)],
    without the separator: an entry whose key starts with the prefix and
    goes on with anything but a separator, as the entries of a component
    [C2] do for the prefix [C], is yielded too, under its whole key. *)
Theorem decompose_members_lets_siblings_through prefix suffix v before after :
  strip_prefix "." suffix = None →
  (prefix +:+ suffix, v)
    ∈ (decompose_members
         (VDict (before ++ (prefix +:+ suffix, v) :: after)) prefix).1.
Proof.
  intros Hs. rewrite decompose_members_dict. cbn [fst].
  apply list_elem_of_fmap. exists (prefix +:+ suffix, v). split.
  - cbn [fst snd]. unfold removeprefix.
    destruct (strip_prefix (prefix +:+ ".") (prefix +:+ suffix)) as [r|] eqn:E;
      [|done].
    apply strip_prefix_is_prefix in E. rewrite append_assoc in E.
    apply (inj (String.append _)) in E. subst suffix. by simpl in Hs.
  - apply list_elem_of_In, filter_In. split.
    + apply list_elem_of_In, elem_of_app. right. by left.
    + apply prefix_append.
Qed.

(** ** Flattening a tree *)

Lemma for_list_flat {A B} (l : list A) (body : A → Gen.t B) (f : A → list B) :
  (∀ x, x ∈ l → body x = (f x, None)) →
  Gen.for_list l body = (concat (map f l), None).
Proof.
  induction l as [|x l IH]; intros H; [done|].
  rewrite for_list_cons, (H x) by by left.
  rewrite IH; [done|]. intros y Hy. apply H. by right.
Qed.

Lemma preorder_components p t q m :
  (q, m) ∈ preorder p t → ∃ l, m = VModule l ∧ l ∈ nodes t.
Proof.
  revert p. induction t as [l cs IH] using tree_induction. intros p. simpl.
  intros [[= -> ->]|Hq]%elem_of_cons.
  { exists l. split; [done|by left]. }
  apply elem_of_concat_map in Hq as ([k c] & Hkc & Hq).
  rewrite Forall_forall in IH.
  destruct (IH _ Hkc _ Hq) as (l' & -> & Hl').
  exists l'. split; [done|]. right. apply elem_of_concat_map. by exists (k, c).
Qed.

Lemma registry_of_initialized attr h l dict reg :
  h !! l = Some (OModule dict) →
  dict !! attr = Some (VDict reg) →
  registry_of attr h (VModule l) = reg.
Proof. intros Hl Ha. unfold registry_of, dict_of. by rewrite Hl, Ha. Qed.

(** The members of one constructed component, under its path. *)
Lemma members_of_component d h l dict ps ms bs tr path :
  initialized h l dict ps ms bs tr →
  Gen.for_gen
    (Gen.of_result (r ← getattr (S d) h (VModule l) "_parameters"; items r))
    (fun '(key, member) => Gen.yield (Path.join path key, member))
  = (qualify path (registry_of "_parameters" h (VModule l)), None)
  ∧ Gen.for_gen
      (Gen.of_result (r ← getattr (S d) h (VModule l) "_buffers"; items r))
      (fun '(key, member) => Gen.yield (Path.join path key, member))
    = (qualify path (registry_of "_buffers" h (VModule l)), None).
Proof.
  intros I. rewrite (getattr_parameters I), (getattr_buffers I).
  rewrite (registry_of_initialized _ _ _ _ _ (init_object _ _ _ _ _ _ _ I)
             (init_parameters _ _ _ _ _ _ _ I)).
  rewrite (registry_of_initialized _ _ _ _ _ (init_object _ _ _ _ _ _ _ I)
             (init_buffers _ _ _ _ _ _ _ I)).
  simpl. rewrite !for_gen_list.
  rewrite (for_list_ext ps _ (fun x => Gen.yield (Path.join path x.1, x.2))).
  2: { by intros [??]. }
  rewrite (for_list_ext bs _ (fun x => Gen.yield (Path.join path x.1, x.2))).
  2: { by intros [??]. }
  by rewrite !for_list_yield.
Qed.

(** X17. On a tree of constructed components none of which has an entry
    of its own under the names [_named_members] and [named_modules],
    [named_parameters] and [named_buffers] yield, for every component in
    depth-first order, its entries in registration order under its path,
    and end normally. *)
Theorem named_members_tree h t d prefix :
  shape h t →
  constructed h t →
  unshadowed ["_named_members"; "named_modules"] h t →
  height t ≤ d →
  named_parameters (S d) h (VModule (root t)) prefix true
  = (flatten "_parameters" h (preorder prefix t), None)
  ∧ named_buffers (S d) h (VModule (root t)) prefix true
    = (flatten "_buffers" h (preorder prefix t), None).
Proof.
  intros Hs Hc Hu Hd. unfold named_parameters, named_buffers.
  rewrite !(method_call _ _ _ _ _ "_named_members" _ (shape_root _ _ Hs)
              (Hu _ (nodes_root t)) eq_refl eq_refl eq_refl).
  unfold _named_members.
  rewrite !(named_modules_call _ _ _ _ _ _ (shape_root _ _ Hs)
              (Hu _ (nodes_root t)) eq_refl).
  rewrite (named_modules_preorder ["_named_members"; "named_modules"] h t
             eq_refl Hs Hu d prefix Hd),
    !for_gen_list.
  unfold flatten. split.
  - apply (for_list_flat _ _
             (fun pm => qualify pm.1 (registry_of "_parameters" h pm.2))).
    intros [q m] Hq.
    destruct (preorder_components _ _ _ _ Hq) as (l & -> & Hl).
    destruct (Hc l Hl) as (dict & ps & ms & bs & tr & I).
    apply (members_of_component d h l dict ps ms bs tr q I).
  - apply (for_list_flat _ _
             (fun pm => qualify pm.1 (registry_of "_buffers" h pm.2))).
    intros [q m] Hq.
    destruct (preorder_components _ _ _ _ Hq) as (l & -> & Hl).
    destruct (Hc l Hl) as (dict & ps & ms & bs & tr & I).
    apply (members_of_component d h l dict ps ms bs tr q I).
Qed.

(** X18. With [recursive=False], [named_parameters] on a component that
    has no entry of its own under the names [_named_members] and
    [named_modules] yields the parameters of the component and those of its
    direct children, under their paths, and nothing from further down. *)
Theorem named_parameters_not_recursive d h c dict ps ms bs tr prefix :
  initialized h c dict ps ms bs tr →
  intact ["_named_members"; "named_modules"] dict →
  (∀ k m, (k, m) ∈ ms →
     ∃ l dict' ps' ms' bs' tr',
       m = VModule l ∧ initialized h l dict' ps' ms' bs' tr') →
  named_parameters (S (S d)) h (VModule c) prefix false
  = (flatten "_parameters" h ((prefix, VModule c) :: qualify prefix ms), None).
Proof.
  intros I Hi Hms. unfold named_parameters.
  rewrite (method_call _ _ _ _ _ "_named_members" _
             (init_object _ _ _ _ _ _ _ I) Hi eq_refl eq_refl eq_refl).
  unfold _named_members.
  rewrite (named_modules_call _ _ _ _ _ _ (init_object _ _ _ _ _ _ _ I) Hi
             eq_refl).
  rewrite (named_modules_node _ _ _ _ _ _ _ _ (init_object _ _ _ _ _ _ _ I)
             (init_modules _ _ _ _ _ _ _ I)).
  rewrite (for_list_ext ms _ (fun x => Gen.yield (Path.join prefix x.1, x.2))).
  2: { by intros [??]. }
  rewrite for_list_yield.
  change (Gen.seq _ _)
    with ((prefix, VModule c) :: qualify prefix ms, @None exception).
  rewrite for_gen_list. unfold flatten.
  apply (for_list_flat _ _
           (fun pm => qualify pm.1 (registry_of "_parameters" h pm.2))).
  intros [q m] [[= -> ->]|Hq]%elem_of_cons.
  - apply (members_of_component (S d) h c dict ps ms bs tr prefix I).
  - apply list_elem_of_fmap in Hq as ([k m'] & [= -> ->] & Hin).
    destruct (Hms _ _ Hin) as (l & dict' & ps' & ms' & bs' & tr' & -> & I').
    apply (members_of_component (S d) h l dict' ps' ms' bs' tr' _ I').
Qed.

(** ** Setting the training mode of a tree *)

Lemma mark_ne mode l h x : x ≠ l → mark mode l h !! x = h !! x.
Proof.
  intros Hne. unfold mark. destruct (h !! l) as [[dict|]|]; try done.
  by rewrite lookup_insert_ne.
Qed.

Lemma mark_module mode l h dict :
  h !! l = Some (OModule dict) →
  mark mode l h = <[l := OModule (<["_training" := mode]> dict)]> h.
Proof. intros Hl. unfold mark. by rewrite Hl. Qed.

(** Marking keeps every component a component, with the same attributes
    but [_training]. *)
Lemma mark_component mode l h x dx :
  h !! x = Some (OModule dx) →
  ∃ dx', mark mode l h !! x = Some (OModule dx')
         ∧ (∀ key, key ≠ "_training" → dx' !! key = dx !! key)
         ∧ (is_Some (dx !! "_training") → is_Some (dx' !! "_training")).
Proof.
  intros Hx. destruct (decide (x = l)) as [->|Hne].
  - rewrite (mark_module _ _ _ _ Hx), lookup_insert_eq.
    eexists. split; [done|]. split.
    + intros key Hk. by rewrite lookup_insert_ne.
    + intros _. rewrite lookup_insert_eq. by eexists.
  - rewrite mark_ne by done. by exists dx.
Qed.

Lemma mark_initialized mode l h x dict ps ms bs tr :
  initialized h x dict ps ms bs tr →
  ∃ dict' tr', initialized (mark mode l h) x dict' ps ms bs tr'.
Proof.
  intros [Hx Hp Hm Hb Ht].
  destruct (mark_component mode l h x dict Hx) as (dx' & Hx' & Hsame & Htr).
  destruct (Htr (ex_intro _ _ Ht)) as [tr' Ht'].
  exists dx', tr'. split; [done|..|done]; by rewrite Hsame.
Qed.

Lemma mark_shape mode l h t : shape h t → shape (mark mode l h) t.
Proof.
  induction t as [x cs IH] using tree_induction.
  intros (dict & Hx & Hm & Hv & Hk & Hcs)%shape_inv.
  destruct (mark_component mode l h x dict Hx) as (dx' & Hx' & Hsame & _).
  apply (shape_node _ x dx'); try done.
  - by rewrite Hsame.
  - rewrite Forall_forall in IH, Hcs. apply Forall_forall.
    intros kc Hkc. by apply IH, Hcs.
Qed.

Lemma mark_mode_assignable mode l h t :
  mode_assignable h t → mode_assignable (mark mode l h) t.
Proof.
  intros H x Hx. destruct (H x Hx) as (dict & ps & ms & bs & tr & I & E1 & E2).
  destruct (mark_initialized mode l h x _ _ _ _ _ I) as (dict' & tr' & I').
  by exists dict', ps, ms, bs, tr'.
Qed.

Lemma mark_intact names mode l h x :
  existsb (String.eqb "_training") names = false →
  intact names (dict_of h x) → intact names (dict_of (mark mode l h) x).
Proof.
  intros Hn H. unfold dict_of in *. destruct (decide (x = l)) as [->|Hne].
  - unfold mark. destruct (h !! l) as [[dict|data]|] eqn:E.
    + rewrite lookup_insert_eq. by apply intact_insert.
    + by rewrite E.
    + by rewrite E.
  - by rewrite mark_ne.
Qed.

Lemma mark_unshadowed names mode l h t :
  existsb (String.eqb "_training") names = false →
  unshadowed names h t → unshadowed names (mark mode l h) t.
Proof. intros Hn H x Hx. by apply mark_intact, H. Qed.

Lemma marked_cons mode l ls h :
  marked mode (l :: ls) h = marked mode ls (mark mode l h).
Proof. reflexivity. Qed.

Lemma marked_unshadowed names mode ls h t :
  existsb (String.eqb "_training") names = false →
  unshadowed names h t → unshadowed names (marked mode ls h) t.
Proof.
  intros Hn. revert h. induction ls as [|l ls IH]; intros h Hs; [done|].
  rewrite marked_cons. by apply IH, mark_unshadowed.
Qed.

Lemma marked_app mode l1 l2 h :
  marked mode (l1 ++ l2) h = marked mode l2 (marked mode l1 h).
Proof. unfold marked. by rewrite fold_left_app. Qed.

Lemma marked_shape mode ls h t : shape h t → shape (marked mode ls h) t.
Proof.
  revert h. induction ls as [|l ls IH]; intros h Hs; [done|].
  rewrite marked_cons. by apply IH, mark_shape.
Qed.

Lemma marked_mode_assignable mode ls h t :
  mode_assignable h t → mode_assignable (marked mode ls h) t.
Proof.
  revert h. induction ls as [|l ls IH]; intros h Hs; [done|].
  rewrite marked_cons. by apply IH, mark_mode_assignable.
Qed.

Lemma marked_initialized mode ls h x dict ps ms bs tr :
  initialized h x dict ps ms bs tr →
  ∃ dict' tr', initialized (marked mode ls h) x dict' ps ms bs tr'.
Proof.
  revert h dict tr. induction ls as [|l ls IH]; intros h dict tr I.
  - by exists dict, tr.
  - rewrite marked_cons.
    destruct (mark_initialized mode l h x _ _ _ _ _ I) as (dict' & tr' & I').
    by eapply IH.
Qed.

Lemma marked_outside mode ls h x : x ∉ ls → marked mode ls h !! x = h !! x.
Proof.
  revert h. induction ls as [|l ls IH]; intros h Hx; [done|].
  apply not_elem_of_cons in Hx as [Hne Hx].
  rewrite marked_cons, IH by done. by apply mark_ne.
Qed.

Lemma marked_inside mode ls h x dx :
  x ∈ ls → h !! x = Some (OModule dx) →
  marked mode ls h !! x = Some (OModule (<["_training" := mode]> dx)).
Proof.
  revert h dx. induction ls as [|l ls IH]; intros h dx Hin Hx.
  { by apply elem_of_nil in Hin. }
  rewrite marked_cons. destruct (decide (x = l)) as [->|Hne].
  - assert (Hl : mark mode l h !! l
                 = Some (OModule (<["_training" := mode]> dx))).
    { by rewrite (mark_module _ _ _ _ Hx), lookup_insert_eq. }
    destruct (decide (l ∈ ls)) as [Hls|Hls].
    + rewrite (IH _ _ Hls Hl). by rewrite insert_insert_eq.
    + by rewrite marked_outside.
  - apply elem_of_cons in Hin as [->|Hin]; [done|].
    apply IH; [done|]. by rewrite mark_ne.
Qed.

Lemma for_each_unit {A} (l : list A) (body : A → M unit) h :
  (for_each l body ;; ret tt) h = for_each l body h.
Proof. unfold bind, ret. by destruct (for_each l body h) as [[[]|e] h']. Qed.

(** The setter on a constructed component without a buffer in the way:
    its own mode, then the loop over the direct children. *)
Lemma training_setter_run d h c dict ps ms bs tr mode :
  initialized h c dict ps ms bs tr →
  intact ["modules"; "named_modules"] dict →
  OrderedDict.mem bs "training" = false →
  OrderedDict.mem bs "_training" = false →
  __setattr__ (S (S (S d))) c "training" (VBool mode) h
  = for_each (map snd ms) (cascade_body (S (S d)) (VBool mode))
      (mark (VBool mode) c h).
Proof.
  intros I Hi Et Eu.
  rewrite (setattr_other I (S d) "training" (VBool mode) eq_refl eq_refl), Et.
  change (object_setattr ?s c "training" ?v) with (s v).
  unfold training_setter, bind at 1, read.
  rewrite (setattr_other I d "_training" (VBool mode) eq_refl eq_refl), Eu.
  change (object_setattr ?s c "_training" ?v) with (dict_store c "_training" v).
  unfold dict_store. rewrite (init_object _ _ _ _ _ _ _ I).
  pose proof (initialized_set_training I (VBool mode)) as I'.
  pose proof (intact_insert _ dict "_training" (VBool mode) Hi eq_refl)
    as Hi'.
  unfold bind at 1.
  rewrite (bound_method_intact _ _ _ _ _ "modules"
             (init_object _ _ _ _ _ _ _ I') Hi' eq_refl eq_refl eq_refl).
  unfold bind at 1.
  rewrite (modules_direct _ _ _ _ _ _ (init_object _ _ _ _ _ _ _ I')
             (init_modules _ _ _ _ _ _ _ I') Hi' eq_refl).
  unfold for_gen_do. cbn [fst snd].
  change (fun m : value => match m with
                           | VModule l => __setattr__ (S (S d)) l "training" (VBool mode)
                           | _ => raise (AttributeError (no_attribute "training"))
                           end)
    with (cascade_body (S (S d)) (VBool mode)).
  rewrite for_each_unit.
  by rewrite (mark_module _ _ _ _ (init_object _ _ _ _ _ _ _ I)).
Qed.

Lemma train_tree mode t :
  ∀ h d, shape h t → mode_assignable h t →
    unshadowed ["modules"; "named_modules"] h t → height t ≤ d →
    __setattr__ (S (S d)) (root t) "training" (VBool mode) h
    = (Ok tt, marked (VBool mode) (nodes t) h).
Proof.
  induction t as [l cs IH] using tree_induction.
  intros h d Hs Ha Hu Hd. simpl in Hd. destruct d as [|d]; [lia|].
  pose proof Hs as (dict0 & Hl & Hm & _ & _ & Hcs)%shape_inv.
  destruct (Ha l (nodes_root (Node l cs)))
    as (dict & ps & ms & bs & tr & I & Et & Eu).
  assert (dict = dict0) as ->.
  { destruct I as [Hl' _ _ _ _]. congruence. }
  assert (ms = map (fun kc => (kc.1, VModule (root kc.2))) cs) as ->.
  { destruct I as [_ _ Hm' _ _]. congruence. }
  assert (Hi : intact ["modules"; "named_modules"] dict0).
  { pose proof (Hu l (nodes_root (Node l cs))) as Hi.
    unfold dict_of in Hi. by rewrite Hl in Hi. }
  apply unshadowed_inv in Hu as [_ Hus].
  simpl root. rewrite (training_setter_run _ _ _ _ _ _ _ _ _ I Hi Et Eu).
  rewrite map_map. cbn [snd]. simpl nodes. rewrite marked_cons.
  assert (Hle : Forall (fun kc => height kc.2 ≤ d) cs).
  { apply Forall_forall. intros kc Hin.
    assert (height kc.2 ≤ list_max (map (fun kc => height kc.2) cs)).
    { apply list_max_le_elem. apply list_elem_of_fmap. by exists kc. }
    lia. }
  assert (Hsub : Forall (fun kc => mode_assignable h kc.2) cs).
  { apply Forall_forall. intros [k c] Hkc x Hx. apply Ha.
    by eapply nodes_child. }
  apply (Forall_impl _ (fun kc => shape (mark (VBool mode) l h) kc.2))
    in Hcs; [|intros; by apply mark_shape].
  apply (Forall_impl _ (fun kc => mode_assignable (mark (VBool mode) l h) kc.2))
    in Hsub; [|intros; by apply mark_mode_assignable].
  apply (Forall_impl _ (fun kc => unshadowed ["modules"; "named_modules"]
                                    (mark (VBool mode) l h) kc.2))
    in Hus; [|intros; by apply mark_unshadowed].
  clear Hs Ha Hd Hl Hm I Et Eu Hi.
  revert Hcs Hsub Hus. generalize (mark (VBool mode) l h).
  induction cs as [|[k c] cs IHcs]; intros h1 Hcs Hsub Hus; [done|].
  apply Forall_cons in IH as [IHc IH].
  apply Forall_cons in Hcs as [Hc Hcs].
  apply Forall_cons in Hsub as [Hac Hsub].
  apply Forall_cons in Hus as [Huc Hus].
  apply Forall_cons in Hle as [Hlc Hle].
  cbn [snd] in IHc, Hc, Hac, Huc, Hlc.
  cbn [map concat for_each snd]. unfold bind.
  change (cascade_body (S (S d)) (VBool mode) (VModule (root c)) h1)
    with (__setattr__ (S (S d)) (root c) "training" (VBool mode) h1).
  rewrite (IHc h1 d Hc Hac Huc Hlc), marked_app.
  apply (IHcs IH Hle).
  - eapply Forall_impl; [exact Hcs|]. intros; by apply marked_shape.
  - eapply Forall_impl; [exact Hsub|]. intros; by apply marked_mode_assignable.
  - eapply Forall_impl; [exact Hus|]. intros; by apply marked_unshadowed.
Qed.

(** X19. On a tree of constructed components none of which has a buffer
    named [training] or [_training] or an entry of its own under the names
    [modules] and [named_modules], [train(mode)] ends normally; afterwards
    [training] reads [mode] on every component of the tree, the registries
    of every component are as before, and no object outside the tree has
    changed. *)
Theorem train_sets_every_component h t d mode :
  shape h t →
  mode_assignable h t →
  unshadowed ["modules"; "named_modules"] h t →
  height t ≤ d →
  ∃ h',
    train (S (S d)) (root t) mode h = (Ok tt, h')
    ∧ (∀ l, l ∈ nodes t →
         getattr (S (S d)) h' (VModule l) "training" = Ok (VBool mode))
    ∧ (∀ l, l ∉ nodes t → h' !! l = h !! l)
    ∧ (∀ l dict ps ms bs tr,
         initialized h l dict ps ms bs tr →
         ∃ dict' tr', initialized h' l dict' ps ms bs tr').
Proof.
  intros Hs Ha Hu Hd. exists (marked (VBool mode) (nodes t) h).
  split; [|split; [|split]].
  - by apply train_tree.
  - intros l Hl.
    destruct (Ha l Hl) as (dict & ps & ms & bs & tr & I & _ & _).
    destruct (marked_initialized (VBool mode) (nodes t) h l _ _ _ _ _ I)
      as (dict' & tr' & I').
    rewrite (getattr_initialized _ _ _ _ _ _ _ _ "training" I').
    unfold resolution_order, ordinary_attribute. simpl.
    pose proof (marked_inside (VBool mode) (nodes t) h l dict Hl
                  (init_object _ _ _ _ _ _ _ I)) as Hin.
    rewrite (init_object _ _ _ _ _ _ _ I') in Hin. injection Hin as ->.
    by rewrite lookup_insert_eq.
  - intros l Hl. by apply marked_outside.
  - intros l dict ps ms bs tr I. by eapply marked_initialized.
Qed.

(** ** The properties on the scenario *)

Lemma buffered_component :
  initialized buffered_heap 1 (dict_of buffered_heap 1)
    [("w", VParameter 3)] [("C", VModule 2)] [("b", VTensor 5)] (VBool false).
Proof. split; vm_compute; reflexivity. Defined.

Lemma registry_ok_nil : registry_ok [].
Proof. split; constructor. Defined.

Lemma registry_ok_single k v : valid_name k → registry_ok [(k, v)].
Proof.
  intros Hk. split; simpl; [apply NoDup_singleton|by constructor].
Defined.

Lemma valid_name_literal_w : valid_name "w".
Proof. split; [discriminate|reflexivity]. Defined.

Lemma valid_name_literal_C : valid_name "C".
Proof. split; [discriminate|reflexivity]. Defined.

Lemma scenario_constructed : constructed scenario_heap scenario_tree.
Proof.
  intros l Hl. simpl in Hl.
  apply elem_of_cons in Hl as [->|Hl]; [|apply elem_of_cons in Hl as [->|Hl]].
  - eexists _, _, _, _, _. exact scenario_root.
  - eexists _, _, _, _, _. exact scenario_child.
  - by apply elem_of_nil in Hl.
Defined.

Lemma scenario_children_visible : children_visible scenario_heap scenario_tree.
Proof.
  intros l Hl. simpl in Hl.
  apply elem_of_cons in Hl as [->|Hl]; [|apply elem_of_cons in Hl as [->|Hl]].
  - eexists _, _, _, _, _. split; [exact scenario_root|].
    intros k. unfold OrderedDict.mem. cbn [OrderedDict.get].
    destruct (String.eqb_spec "C" k) as [<-|]; [|done].
    intros _. split; vm_compute; reflexivity.
  - eexists _, _, _, _, _. split; [exact scenario_child|]. done.
  - by apply elem_of_nil in Hl.
Defined.

Lemma scenario_mode_assignable : mode_assignable scenario_heap scenario_tree.
Proof.
  intros l Hl. simpl in Hl.
  apply elem_of_cons in Hl as [->|Hl]; [|apply elem_of_cons in Hl as [->|Hl]].
  - eexists _, _, _, _, _. split; [exact scenario_root|done].
  - eexists _, _, _, _, _. split; [exact scenario_child|done].
  - by apply elem_of_nil in Hl.
Defined.

Lemma registration_keeps_keys_valid_witness :
  ∃ dict',
    initialized absent_heap 1 dict' [("w", VParameter 3)]
      ([("C", VModule 2)] ++ [("z", VNone)]) [] (VBool false)
    ∧ registry_ok ([("C", VModule 2)] ++ [("z", VNone)]).
Proof.
  apply (registration_keeps_keys_valid 3 scenario_heap 1 _ _ _ _ _ "z" VNone
           absent_heap scenario_root
           (registry_ok_single _ _ valid_name_literal_w)
           (registry_ok_single _ _ valid_name_literal_C) registry_ok_nil).
  vm_compute. reflexivity.
Defined.

Lemma register_buffer_contract_witness :
  ∃ h', register_buffer 1 1 "b" (VTensor 5) scenario_heap = (Ok tt, h')
        ∧ getattr 2 h' (VModule 1) "b" = Ok (VTensor 5)
        ∧ (∃ e, register_buffer 1 1 "q" (VParameter 3) h' = (Raise e, h')
                ∧ kind_of e = TypeKind).
Proof.
  destruct (register_buffer_contract 0 scenario_heap 1 _ _ _ _ _ "b" (VTensor 5)
              scenario_root)
    as (h' & H1 & _ & H3 & _ & H5);
    [split; [discriminate|reflexivity]|reflexivity|reflexivity|].
  exists h'. split; [exact H1|]. split.
  - apply H3; vm_compute; reflexivity.
  - apply H5; [reflexivity|split; [discriminate|reflexivity]].
Defined.

Lemma add_module_contract_witness :
  ∃ h', add_module 1 1 "D" (VModule 2) scenario_heap = (Ok tt, h')
        ∧ named_modules 2 h' (VModule 1) "" false false
          = ([("C", VModule 2); ("D", VModule 2)], None)
        ∧ getattr 2 h' (VModule 1) "D" = Ok (VModule 2)
        ∧ (∃ e, add_module 1 1 "E" (VTensor 1) h' = (Raise e, h')
                ∧ kind_of e = TypeKind).
Proof.
  destruct (add_module_contract 0 scenario_heap 1 _ _ _ _ _ "D" (VModule 2)
              scenario_root)
    as (h' & H1 & _ & H3 & H4 & _ & H6);
    [split; [discriminate|reflexivity]|reflexivity|reflexivity|].
  exists h'. split; [exact H1|]. split; [apply H3|]. split.
  - apply H4; vm_compute; reflexivity.
  - apply H6; [reflexivity|split; [discriminate|reflexivity]].
Defined.

Lemma pop_module_after_add_module_witness :
  (add_module 1 1 "D" VNone ;; pop_module 1 1 "D") scenario_heap
  = (Ok VNone, scenario_heap).
Proof.
  apply (pop_module_after_add_module 0 scenario_heap 1 _ _ _ _ _ "D" VNone
           scenario_root);
    [split; [discriminate|reflexivity]|reflexivity|reflexivity].
Defined.

Lemma deregistration_of_missing_name_witness :
  ∃ e, deregister_parameter 1 1 "nope" scenario_heap = (Raise e, scenario_heap)
       ∧ kind_of e = NotFound.
Proof.
  apply (deregistration_of_missing_name 0 scenario_heap 1 _ _ _ _ _ "nope"
           scenario_root).
  reflexivity.
Defined.

Lemma deregister_parameter_removes_witness :
  ∃ ps1 ps2 h',
    [("w", VParameter 3)] = ps1 ++ ("w", VParameter 3) :: ps2
    ∧ deregister_parameter 1 1 "w" scenario_heap = (Ok (VParameter 3), h')
    ∧ OrderedDict.get (ps1 ++ ps2) "w" = None
    ∧ h' !! 3%positive = scenario_heap !! 3%positive.
Proof.
  destruct (deregister_parameter_removes 0 scenario_heap 1 _ _ _ _ _ "w"
              (VParameter 3) scenario_root)
    as (ps1 & ps2 & h' & H1 & H2 & _ & H4 & _ & H6);
    [apply NoDup_singleton|reflexivity|].
  exists ps1, ps2, h'. split; [exact H1|]. split; [exact H2|].
  split; [exact H4|]. by apply H6.
Defined.

Lemma setattr_component_witness :
  __setattr__ 2 1 "C" (VModule 2) scenario_heap
  = (Raise (AssertionError already_exists), scenario_heap).
Proof.
  rewrite (setattr_component 0 scenario_heap 1 _ _ _ _ _ "C" 2 scenario_root
             (scenario_root_without ["add_module"] eq_refl)
             valid_name_literal_C).
  reflexivity.
Defined.

Lemma setattr_buffer_witness :
  (∃ bs',
     __setattr__ 2 1 "b" VNone buffered_heap
     = (Ok tt, <[1%positive := OModule (<["_buffers" := VDict bs']>
                                  (dict_of buffered_heap 1))]> buffered_heap)
     ∧ map fst bs' = ["b"]
     ∧ OrderedDict.get bs' "b" = Some VNone
     ∧ ∀ k, k ≠ "b" → OrderedDict.get bs' k
                       = OrderedDict.get [("b", VTensor 5)] k)
  ∧ (∃ e, __setattr__ 2 1 "b" (VInt 7) buffered_heap = (Raise e, buffered_heap)
          ∧ kind_of e = TypeKind).
Proof.
  split.
  - exact (setattr_buffer 0 buffered_heap 1 _ _ _ _ _ "b" VNone
             buffered_component eq_refl eq_refl eq_refl).
  - exact (setattr_buffer 0 buffered_heap 1 _ _ _ _ _ "b" (VInt 7)
             buffered_component eq_refl eq_refl eq_refl).
Defined.

Lemma setattr_plain_value_shadows_witness :
  ∃ h',
    __setattr__ 2 1 "w" (VTensor 9) scenario_heap = (Ok tt, h')
    ∧ getattr 2 h' (VModule 1) "w" = Ok (VTensor 9)
    ∧ __getattr__ (getattr 1 h' (VModule 1)) "w" = Ok (VParameter 3).
Proof.
  destruct (setattr_plain_value_shadows 0 scenario_heap 1 _ _ _ _ _ "w"
              (VTensor 9) scenario_root eq_refl eq_refl eq_refl eq_refl
              eq_refl)
    as (H1 & _ & H3 & H4).
  eexists. split; [exact H1|]. split; [exact H3|]. by rewrite H4.
Defined.

Lemma get_module_enumerated_witness :
  get_module 2 scenario_heap (VModule 1) "C" = Ok (VModule 2).
Proof.
  apply (get_module_enumerated scenario_heap scenario_tree 0 "C" (VModule 2)
           scenario_shape scenario_children_visible).
  - simpl. right. by left.
  - discriminate.
Defined.

Lemma get_parameter_enumerated_witness :
  get_parameter 2 scenario_heap (VModule 1) "C.w2" = Ok (VParameter 4).
Proof.
  eapply (get_parameter_enumerated scenario_heap scenario_tree 0 "C" 2 _ _ _ _ _
            "w2" (VParameter 4) scenario_shape scenario_children_visible
            (scenario_root_without ["get_module"] eq_refl)).
  - simpl. right. by left.
  - discriminate.
  - exact scenario_child.
  - reflexivity.
  - split; [discriminate|reflexivity].
  - vm_compute. reflexivity.
  - reflexivity.
Defined.

Lemma child_hidden_by_parameter_witness :
  ∃ h',
    add_module 1 1 "w" (VModule 2) scenario_heap = (Ok tt, h')
    ∧ ("w", VModule 2) ∈ (named_modules 2 h' (VModule 1) "" false false).1
    ∧ getattr 2 h' (VModule 1) "w" = Ok (VParameter 3)
    ∧ get_module 2 h' (VModule 1) "w" = Raise (TypeError not_a_module).
Proof.
  apply (child_hidden_by_parameter 0 scenario_heap 1 _ _ _ _ _ "w" 3 2
           scenario_root valid_name_literal_w).
  - vm_compute. reflexivity.
  - reflexivity.
  - reflexivity.
Defined.

Lemma decompose_members_qualified_witness :
  decompose_members (VDict [("C.w2", VParameter 4); ("C.b", VTensor 1)]) "C"
  = ([("w2", VParameter 4); ("b", VTensor 1)], None).
Proof.
  apply (decompose_members_qualified "C"
           [("w2", VParameter 4); ("b", VTensor 1)]).
  discriminate.
Defined.

Lemma decompose_members_lets_siblings_through_witness :
  ("C2.w", VParameter 9)
    ∈ (decompose_members
         (VDict [("C.w2", VParameter 4); ("C2.w", VParameter 9)]) "C").1.
Proof.
  apply (decompose_members_lets_siblings_through "C" "2.w" (VParameter 9)
           [("C.w2", VParameter 4)] []).
  reflexivity.
Defined.

Lemma named_members_tree_witness :
  named_parameters 3 scenario_heap (VModule 1) "" true
  = (flatten "_parameters" scenario_heap [("", VModule 1); ("C", VModule 2)],
     None)
  ∧ named_buffers 3 scenario_heap (VModule 1) "" true
    = (flatten "_buffers" scenario_heap [("", VModule 1); ("C", VModule 2)],
       None).
Proof.
  apply (named_members_tree scenario_heap scenario_tree 2 "" scenario_shape
           scenario_constructed
           (scenario_unshadowed ["_named_members"; "named_modules"] eq_refl)).
  vm_compute. lia.
Defined.

Lemma named_parameters_not_recursive_witness :
  named_parameters 2 scenario_heap (VModule 1) "" false
  = (flatten "_parameters" scenario_heap
       (("", VModule 1) :: qualify "" [("C", VModule 2)]), None).
Proof.
  apply (named_parameters_not_recursive 0 scenario_heap 1 _ _ _ _ _ ""
           scenario_root
           (scenario_root_without ["_named_members"; "named_modules"] eq_refl)).
  intros k m [[= -> ->]|Hin%elem_of_nil]%elem_of_cons; [|done].
  eexists 2%positive, _, _, _, _, _. split; [done|exact scenario_child].
Defined.

Lemma train_sets_every_component_witness :
  ∃ h',
    train 4 1 true scenario_heap = (Ok tt, h')
    ∧ getattr 4 h' (VModule 1) "training" = Ok (VBool true)
    ∧ getattr 4 h' (VModule 2) "training" = Ok (VBool true)
    ∧ h' !! 3%positive = scenario_heap !! 3%positive.
Proof.
  destruct (train_sets_every_component scenario_heap scenario_tree 2 true
              scenario_shape scenario_mode_assignable
              (scenario_unshadowed ["modules"; "named_modules"] eq_refl))
    as (h' & H1 & H2 & H3 & _); [vm_compute; lia|].
  exists h'. split; [exact H1|]. split; [|split].
  - apply H2. by left.
  - apply H2. right. by left.
  - apply H3. simpl. intros [?|[?|?%elem_of_nil]%elem_of_cons]%elem_of_cons; done.
Defined.
